(** * PowerTrader hub: worker-process orchestration core

    A shallow embedding of the process-control part of [pt_hub.py]
    (class [PowerTraderHub]): spawning and stopping the trainer, neural
    runner and trader scripts, the runner-ready gate polled on Tk timers,
    the training gate of [_tick], and the mtime caches of the status
    readers.

    Conventions of the embedding.
    - Python methods that mutate [self] and touch the operating system are
      functions in the monad [M]: they thread a [World] (the attributes of
      the hub object and the state of the operating system), may raise a
      Python exception, and emit the events they cause (process spawns,
      terminate requests, file reads and writes, message boxes, prints,
      timer registrations, assignments of the pending flag).
    - Times, mtimes and numbers read from files are integers ([Z]); the
      floating point of the source is not modelled.
    - [ProcInfo] objects reachable from the hub are addressed by the
      attribute that holds them ([proc_neural], [proc_trader], an entry of
      [trainers] or of [neural_runners]); a [subprocess.Popen] handle is the
      pid of the process.
    - Reader threads and log queues are not modelled beyond the event that
      a reader was started; a thread is taken to start without error, and
      so are [terminate()], [self.after] and the message boxes.
    - What the operating system decides is part of its state: which files
      and folders exist, on which paths a write fails, on which scripts
      [Popen] fails, which processes have exited.
    - Widget updates are left out. *)

From Stdlib Require Import ZArith Lia Ascii String DecimalString.
From stdpp Require Import base strings list gmap.

(** ** Python strings and paths *)

Module PyStr.

Definition is_space (a : ascii) : bool :=
  let n := nat_of_ascii a in
  ((n =? 32) || ((9 <=? n) && (n <=? 13)) || ((28 <=? n) && (n <=? 31)))%nat.

Definition upper_ascii (a : ascii) : ascii :=
  let n := nat_of_ascii a in
  if ((97 <=? n) && (n <=? 122))%nat then ascii_of_nat (n - 32) else a.

(** [str.upper] on ASCII text. *)
Fixpoint upper (s : string) : string :=
  match s with
  | EmptyString => EmptyString
  | String a r => String (upper_ascii a) (upper r)
  end.

Fixpoint lstrip (s : string) : string :=
  match s with
  | EmptyString => EmptyString
  | String a r => if is_space a then lstrip r else s
  end.

Fixpoint rstrip (s : string) : string :=
  match s with
  | EmptyString => EmptyString
  | String a r =>
      match rstrip r with
      | EmptyString => if is_space a then EmptyString else String a EmptyString
      | r' => String a r'
      end
  end.

(** [str.strip()] *)
Definition strip (s : string) : string := rstrip (lstrip s).

(** Truthiness of a string: [if not coin]. *)
Definition nonempty (s : string) : bool :=
  match s with EmptyString => false | _ => true end.

Definition starts_with_slash (s : string) : bool :=
  match s with String "/" _ => true | _ => false end.

Fixpoint ends_with_slash (s : string) : bool :=
  match s with
  | EmptyString => false
  | String a EmptyString => bool_decide (a = "/"%char)
  | String _ r => ends_with_slash r
  end.

(** [os.path.join a b] (POSIX). *)
Definition join (a b : string) : string :=
  if starts_with_slash b then b
  else if negb (nonempty a) || ends_with_slash a then a +:+ b
  else a +:+ "/" +:+ b.

Fixpoint basename_from (acc s : string) : string :=
  match s with
  | EmptyString => acc
  | String a r =>
      if bool_decide (a = "/"%char) then basename_from EmptyString r
      else basename_from (acc +:+ String a EmptyString) r
  end.

(** [os.path.basename] (POSIX). *)
Definition basename (s : string) : string := basename_from EmptyString s.

(** [os.path.abspath]: the hub only handles paths built from the absolute
    [project_dir], [hub_dir] and coin folders, on which it is the
    identity up to normalisation. *)
Definition abspath (s : string) : string := s.

End PyStr.

(** ** JSON values as [json.load] returns them *)

#[local] Unset Elimination Schemes.
Inductive json : Type :=
| JNull
| JBool (b : bool)
| JNum (z : Z)
| JStr (s : string)
| JArr (l : list json)
| JObj (kv : list (string * json)).
#[local] Set Elimination Schemes.

Module Json.

(** [isinstance(x, dict)] *)
Definition is_dict (j : json) : bool :=
  match j with JObj _ => true | _ => false end.

Fixpoint assoc (k : string) (kv : list (string * json)) : option json :=
  match kv with
  | [] => None
  | (k', v) :: r => if bool_decide (k' = k) then Some v else assoc k r
  end.

(** [d.get(k, dflt)] on a dict. *)
Definition get (k : string) (dflt : json) (j : json) : json :=
  match j with
  | JObj kv => default dflt (assoc k kv)
  | _ => dflt
  end.

(** [bool(x)] *)
Definition truthy (j : json) : bool :=
  match j with
  | JNull => false
  | JBool b => b
  | JNum z => negb (z =? 0)%Z
  | JStr s => PyStr.nonempty s
  | JArr l => match l with [] => false | _ => true end
  | JObj kv => match kv with [] => false | _ => true end
  end.

(** [str(x)] for the values compared with state names.  Numbers, lists
    and dicts print as text that starts with a digit, a sign or a
    bracket; that text is abbreviated to ["#"], which like the original
    is none of the state names. *)
Definition py_str (j : json) : string :=
  match j with
  | JStr s => s
  | JNull => "None"
  | JBool true => "True"
  | JBool false => "False"
  | _ => "#"
  end.

End Json.

(** ** The operating system as the hub sees it *)

(** A process the hub spawned: running, asked to terminate but not yet
    gone ([terminate()] does not wait), or exited.  [poll()] is [None] in
    the first two states. *)
Inductive pstate := PRunning | PTerminating | PExited.

(** What a file holds, by how the hub's readers parse it: nothing, a
    number in text form, a JSON document, or anything else (a script,
    half-written text). *)
Inductive fdata :=
| DEmpty
| DNumber (z : Z)
| DJson (j : json)
| DOpaque.

Record file := File { f_mtime : Z; f_data : fdata }.

Record OS := mkOS {
  now : Z;                          (* time.time() *)
  files : gmap string file;
  dirs : gset string;
  unwritable : gset string;         (* paths on which open(.., "w") raises *)
  popen_broken : gset string;       (* scripts on which Popen raises *)
  procs : gmap Z pstate;
  next_pid : Z;
  sys_executable : string;
  environ : gmap string string
}.

Definition with_files (f : gmap string file) (o : OS) : OS :=
  mkOS (now o) f (dirs o) (unwritable o) (popen_broken o) (procs o)
       (next_pid o) (sys_executable o) (environ o).

Definition with_dirs (d : gset string) (o : OS) : OS :=
  mkOS (now o) (files o) d (unwritable o) (popen_broken o) (procs o)
       (next_pid o) (sys_executable o) (environ o).

Definition with_procs (p : gmap Z pstate) (n : Z) (o : OS) : OS :=
  mkOS (now o) (files o) (dirs o) (unwritable o) (popen_broken o) p
       n (sys_executable o) (environ o).

Definition with_environ (e : gmap string string) (o : OS) : OS :=
  mkOS (now o) (files o) (dirs o) (unwritable o) (popen_broken o) (procs o)
       (next_pid o) (sys_executable o) e.

(** [Popen] raises on this script; [open(p, "w")] raises on this path. *)
Definition popen_raises (o : OS) (script : string) : bool :=
  bool_decide (script ∈ popen_broken o).
Definition cannot_write (o : OS) (p : string) : bool :=
  bool_decide (p ∈ unwritable o).

Definition isfile (o : OS) (p : string) : bool := bool_decide (is_Some (files o !! p)).
Definition isdir (o : OS) (p : string) : bool := bool_decide (p ∈ dirs o).

(** [proc.poll() is None] *)
Definition proc_alive (o : OS) (pid : Z) : bool :=
  match procs o !! pid with
  | Some PRunning | Some PTerminating => true
  | _ => false
  end.

(** [json.load] of a file's text. *)
Definition parse_json (d : fdata) : option json :=
  match d with
  | DJson j => Some j
  | DNumber z => Some (JNum z)
  | _ => None
  end.

(** [float(text)] *)
Definition parse_float (d : fdata) : option Z :=
  match d with
  | DNumber z | DJson (JNum z) => Some z
  | _ => None
  end.

(** ** The hub object *)

Record Settings := mkSettings {
  script_neural_runner2 : string;   (* settings.get(.., "pt_thinker.py") *)
  script_neural_trainer : string;   (* settings.get(.., "pt_trainer.py") *)
  script_trader : string;
  use_kucoin_api : bool;            (* bool(settings.get(.., True)) *)
  dry_run_mode : bool               (* settings.get(.., False) *)
}.

(** [@dataclass ProcInfo] *)
Record ProcInfo := mkProcInfo {
  name : string;
  path : string;
  proc : option Z;
  start_time : option Z
}.

(** [@dataclass LogProc]; its fields are [info], [log_q], [thread],
    [is_trainer] and [coin].  There is no field [proc]. *)
Record LogProc := mkLogProc {
  info : ProcInfo;
  is_trainer : bool;
  coin : option string
}.

(** The callables handed to [self.after]. *)
Inductive callback :=
| CbStartNeuralThenTrader
| CbPoll
| CbPollForCoins (cs : list string).

Record Hub := mkHub {
  project_dir : string;
  hub_dir : string;
  runner_ready_path : string;
  settings : Settings;
  coins : list string;
  coin_folders : gmap string string;
  proc_neural_path : option string;     (* getattr(self, .., None) *)
  proc_trainer_path : option string;
  proc_neural : ProcInfo;
  proc_trader : ProcInfo;
  trainers : list (string * LogProc);   (* dict, in insertion order *)
  neural_runners : option (list (string * LogProc));  (* None: no attribute *)
  _auto_start_trader_pending : bool;
  _auto_start_runner_after_training : bool;
  _trader_poll_count : option Z;        (* None: no attribute *)
  _neural_overview_cache : gmap string (Z * json);
  _trainer_status_cache : option (gmap string (Z * json));
  timers : list (Z * callback)          (* pending self.after callbacks *)
}.

Record World := mkWorld { hub : Hub; os : OS }.

(** Which process handle an event concerns. *)
Inductive who :=
| WNeural                 (* self.proc_neural *)
| WTrader                 (* self.proc_trader *)
| WTrainer (c : string)   (* self.trainers[c] *)
| WRunner (c : string).   (* self.neural_runners[c] *)

Inductive role := Training | Generating | Trading.

Definition role_of (x : who) : role :=
  match x with
  | WNeural | WRunner _ => Generating
  | WTrader => Trading
  | WTrainer _ => Training
  end.

Inductive event :=
| EvSpawn (x : who) (argv : list string) (cwd : string) (pid : Z)
| EvPopenFailed (x : who) (argv : list string)
| EvReader (pid : Z) (prefix : string)
| EvTerminate (x : who) (pid : Z)
| EvRead (p : string)
| EvWrite (p : string) (d : fdata)
| EvShowError (title : string)
| EvShowInfo (title : string)
| EvPrint (msg : string)
| EvAfter (ms : Z) (cb : callback)
| EvPending (b : bool).

Inductive exn := OSError | AttributeError | ValueError.

(** ** The monad of hub methods *)

Inductive outcome (A : Type) :=
| Done (a : A) (w : World) (tr : list event)
| Raised (e : exn) (w : World) (tr : list event).
Arguments Done {A} a w tr.
Arguments Raised {A} e w tr.

Definition M (A : Type) : Type := World → outcome A.

Definition world_of {A} (o : outcome A) : World :=
  match o with Done _ w _ | Raised _ w _ => w end.

Definition events_of {A} (o : outcome A) : list event :=
  match o with Done _ _ tr | Raised _ _ tr => tr end.

Definition returned {A} (o : outcome A) : bool :=
  match o with Done _ _ _ => true | Raised _ _ _ => false end.

Definition ret {A} (a : A) : M A := λ w, Done a w [].

Definition bind {A B} (m : M A) (k : A → M B) : M B := λ w,
  match m w with
  | Done a w1 t1 =>
      match k a w1 with
      | Done b w2 t2 => Done b w2 (t1 ++ t2)
      | Raised e w2 t2 => Raised e w2 (t1 ++ t2)
      end
  | Raised e w1 t1 => Raised e w1 t1
  end.

#[global] Instance M_ret : MRet M := @ret.
#[global] Instance M_bind : MBind M := λ A B k m, bind m k.

Definition raise {A} (e : exn) : M A := λ w, Raised e w [].
Definition emit (e : event) : M unit := λ w, Done tt w [e].
Definition get_hub : M Hub := λ w, Done (hub w) w [].
Definition get_os : M OS := λ w, Done (os w) w [].
Definition mod_hub (f : Hub → Hub) : M unit := λ w, Done tt (mkWorld (f (hub w)) (os w)) [].
Definition mod_os (f : OS → OS) : M unit := λ w, Done tt (mkWorld (hub w) (f (os w))) [].

(** [try: m  except Exception: pass] *)
Definition try_pass (m : M unit) : M unit := λ w,
  match m w with
  | Raised _ w1 t1 => Done tt w1 t1
  | d => d
  end.

(** [try: m  except Exception: h] *)
Definition try_except {A} (m : M A) (h : M A) : M A := λ w,
  match m w with
  | Raised _ w1 t1 =>
      match h w1 with
      | Done a w2 t2 => Done a w2 (t1 ++ t2)
      | Raised e w2 t2 => Raised e w2 (t1 ++ t2)
      end
  | d => d
  end.

(** [for x in l: body x] *)
Fixpoint for_each {A} (l : list A) (body : A → M unit) : M unit :=
  match l with
  | [] => ret tt
  | x :: r => bind (body x) (λ _, for_each r body)
  end.

(** [if c: m] *)
Definition when (c : bool) (m : M unit) : M unit := if c then m else ret tt.

(** ** Attribute updates on the hub *)

Definition set_proc_neural (p : ProcInfo) (h : Hub) : Hub :=
  mkHub (project_dir h) (hub_dir h) (runner_ready_path h) (settings h) (coins h)
    (coin_folders h) (proc_neural_path h) (proc_trainer_path h) p (proc_trader h)
    (trainers h) (neural_runners h) (_auto_start_trader_pending h)
    (_auto_start_runner_after_training h) (_trader_poll_count h)
    (_neural_overview_cache h) (_trainer_status_cache h) (timers h).

Definition set_proc_trader (p : ProcInfo) (h : Hub) : Hub :=
  mkHub (project_dir h) (hub_dir h) (runner_ready_path h) (settings h) (coins h)
    (coin_folders h) (proc_neural_path h) (proc_trainer_path h) (proc_neural h) p
    (trainers h) (neural_runners h) (_auto_start_trader_pending h)
    (_auto_start_runner_after_training h) (_trader_poll_count h)
    (_neural_overview_cache h) (_trainer_status_cache h) (timers h).

Definition set_trainers (t : list (string * LogProc)) (h : Hub) : Hub :=
  mkHub (project_dir h) (hub_dir h) (runner_ready_path h) (settings h) (coins h)
    (coin_folders h) (proc_neural_path h) (proc_trainer_path h) (proc_neural h)
    (proc_trader h) t (neural_runners h) (_auto_start_trader_pending h)
    (_auto_start_runner_after_training h) (_trader_poll_count h)
    (_neural_overview_cache h) (_trainer_status_cache h) (timers h).

Definition set_neural_runners (r : option (list (string * LogProc))) (h : Hub) : Hub :=
  mkHub (project_dir h) (hub_dir h) (runner_ready_path h) (settings h) (coins h)
    (coin_folders h) (proc_neural_path h) (proc_trainer_path h) (proc_neural h)
    (proc_trader h) (trainers h) r (_auto_start_trader_pending h)
    (_auto_start_runner_after_training h) (_trader_poll_count h)
    (_neural_overview_cache h) (_trainer_status_cache h) (timers h).

Definition set_pending (b : bool) (h : Hub) : Hub :=
  mkHub (project_dir h) (hub_dir h) (runner_ready_path h) (settings h) (coins h)
    (coin_folders h) (proc_neural_path h) (proc_trainer_path h) (proc_neural h)
    (proc_trader h) (trainers h) (neural_runners h) b
    (_auto_start_runner_after_training h) (_trader_poll_count h)
    (_neural_overview_cache h) (_trainer_status_cache h) (timers h).

Definition set_after_training (b : bool) (h : Hub) : Hub :=
  mkHub (project_dir h) (hub_dir h) (runner_ready_path h) (settings h) (coins h)
    (coin_folders h) (proc_neural_path h) (proc_trainer_path h) (proc_neural h)
    (proc_trader h) (trainers h) (neural_runners h) (_auto_start_trader_pending h)
    b (_trader_poll_count h)
    (_neural_overview_cache h) (_trainer_status_cache h) (timers h).

Definition set_poll_count (c : option Z) (h : Hub) : Hub :=
  mkHub (project_dir h) (hub_dir h) (runner_ready_path h) (settings h) (coins h)
    (coin_folders h) (proc_neural_path h) (proc_trainer_path h) (proc_neural h)
    (proc_trader h) (trainers h) (neural_runners h) (_auto_start_trader_pending h)
    (_auto_start_runner_after_training h) c
    (_neural_overview_cache h) (_trainer_status_cache h) (timers h).

Definition set_overview_cache (c : gmap string (Z * json)) (h : Hub) : Hub :=
  mkHub (project_dir h) (hub_dir h) (runner_ready_path h) (settings h) (coins h)
    (coin_folders h) (proc_neural_path h) (proc_trainer_path h) (proc_neural h)
    (proc_trader h) (trainers h) (neural_runners h) (_auto_start_trader_pending h)
    (_auto_start_runner_after_training h) (_trader_poll_count h)
    c (_trainer_status_cache h) (timers h).

Definition set_status_cache (c : option (gmap string (Z * json))) (h : Hub) : Hub :=
  mkHub (project_dir h) (hub_dir h) (runner_ready_path h) (settings h) (coins h)
    (coin_folders h) (proc_neural_path h) (proc_trainer_path h) (proc_neural h)
    (proc_trader h) (trainers h) (neural_runners h) (_auto_start_trader_pending h)
    (_auto_start_runner_after_training h) (_trader_poll_count h)
    (_neural_overview_cache h) c (timers h).

Definition set_timers (t : list (Z * callback)) (h : Hub) : Hub :=
  mkHub (project_dir h) (hub_dir h) (runner_ready_path h) (settings h) (coins h)
    (coin_folders h) (proc_neural_path h) (proc_trainer_path h) (proc_neural h)
    (proc_trader h) (trainers h) (neural_runners h) (_auto_start_trader_pending h)
    (_auto_start_runner_after_training h) (_trader_poll_count h)
    (_neural_overview_cache h) (_trainer_status_cache h) t.

Definition set_proc (pid : option Z) (p : ProcInfo) : ProcInfo :=
  mkProcInfo (name p) (path p) pid (start_time p).

Definition set_start_time (t : option Z) (p : ProcInfo) : ProcInfo :=
  mkProcInfo (name p) (path p) (proc p) t.

(** Python dicts that are iterated: association lists in insertion order. *)
Module Dict.

Fixpoint get {V} (k : string) (d : list (string * V)) : option V :=
  match d with
  | [] => None
  | (k', v) :: r => if bool_decide (k' = k) then Some v else get k r
  end.

(** [d[k] = v]: an existing key keeps its place. *)
Fixpoint set {V} (k : string) (v : V) (d : list (string * V)) : list (string * V) :=
  match d with
  | [] => [(k, v)]
  | (k', v') :: r =>
      if bool_decide (k' = k) then (k, v) :: r else (k', v') :: set k v r
  end.

End Dict.

(** ** Operating-system calls *)

Definition time_time : M Z := o ← get_os; mret (now o).

(** [open(p, "r").read()] *)
Definition read_file (p : string) : M fdata :=
  o ← get_os;
  match files o !! p with
  | Some f => emit (EvRead p);; mret (f_data f)
  | None => raise OSError
  end.

(** [json.load(open(p))] *)
Definition json_load (p : string) : M json :=
  d ← read_file p;
  match parse_json d with
  | Some j => mret j
  | None => raise ValueError
  end.

(** [with open(p, "w") as f: json.dump(.., f)] and other whole-file writes. *)
Definition write_file (p : string) (d : fdata) : M unit :=
  o ← get_os;
  if cannot_write o p then raise OSError
  else mod_os (with_files (<[p := File (now o) d]> (files o)));; emit (EvWrite p d).

(** [os.path.getmtime] *)
Definition getmtime (p : string) : M Z :=
  o ← get_os;
  match files o !! p with
  | Some f => mret (f_mtime f)
  | None => raise OSError
  end.

(** [os.makedirs(p, exist_ok=True)] *)
Definition makedirs (p : string) : M unit :=
  o ← get_os;
  if cannot_write o p then raise OSError
  else mod_os (with_dirs ({[p]} ∪ dirs o)).

(** [shutil.copy2(src, dst)]: content and mtime are copied. *)
Definition copy2 (src dst : string) : M unit :=
  o ← get_os;
  match files o !! src with
  | Some f =>
      if bool_decide (src = dst) || cannot_write o dst then raise OSError
      else mod_os (with_files (<[dst := f]> (files o)));; emit (EvWrite dst (f_data f))
  | None => raise OSError
  end.

(** [subprocess.Popen([exe, "-u", script, ..], cwd=cwd, env=env, ..)] *)
Definition Popen (x : who) (argv : list string) (script cwd : string) : M Z := λ w,
  if popen_raises (os w) script || negb (isdir (os w) cwd)
  then Raised OSError w [EvPopenFailed x argv]
  else
    let pid := next_pid (os w) in
    Done pid
      (mkWorld (hub w) (with_procs (<[pid := PRunning]> (procs (os w))) (pid + 1)%Z (os w)))
      [EvSpawn x argv cwd pid].

(** [proc.terminate()]: a request; the process goes on until it exits. *)
Definition terminate (x : who) (pid : Z) : M unit :=
  emit (EvTerminate x pid);;
  mod_os (λ o,
    match procs o !! pid with
    | Some PRunning => with_procs (<[pid := PTerminating]> (procs o)) (next_pid o) o
    | _ => o
    end).

(** [self.after(ms, cb)] *)
Definition after (ms : Z) (cb : callback) : M unit :=
  mod_hub (λ h, set_timers (timers h ++ [(ms, cb)]) h);; emit (EvAfter ms cb).

(** [self._auto_start_trader_pending = b] *)
Definition assign_pending (b : bool) : M unit :=
  mod_hub (set_pending b);; emit (EvPending b).

(** [p.proc and p.proc.poll() is None] *)
Definition is_running (o : OS) (p : ProcInfo) : bool :=
  match proc p with
  | Some pid => proc_alive o pid
  | None => false
  end.

(** ** Process control *)

(** The two [ProcInfo] objects [_start_process] and [_stop_process] are
    called with. *)
Inductive main_proc := PNeural | PTrader.

Definition main_who (m : main_proc) : who :=
  match m with PNeural => WNeural | PTrader => WTrader end.

Definition get_main (m : main_proc) (h : Hub) : ProcInfo :=
  match m with PNeural => proc_neural h | PTrader => proc_trader h end.

Definition update_main (m : main_proc) (f : ProcInfo → ProcInfo) (h : Hub) : Hub :=
  match m with
  | PNeural => set_proc_neural (f (proc_neural h)) h
  | PTrader => set_proc_trader (f (proc_trader h)) h
  end.

Definition _start_process (m : main_proc) (log_q : bool) (prefix : string) : M unit :=
  h ← get_hub; o ← get_os;
  let p := get_main m h in
  if is_running o p then mret tt
  else if negb (isfile o (path p)) then emit (EvShowError "Missing script")
  else
    try_except
      (pid ← Popen (main_who m) [sys_executable o; "-u"; path p] (path p) (project_dir h);
       mod_hub (update_main m (set_proc (Some pid)));;
       t ← time_time;
       mod_hub (update_main m (set_start_time (Some t)));;
       when log_q (emit (EvReader pid prefix)))
      (emit (EvShowError "Failed to start")).

Definition _stop_process (m : main_proc) : M unit :=
  h ← get_hub; o ← get_os;
  if negb (is_running o (get_main m h)) then mret tt
  else
    match proc (get_main m h) with
    | Some pid =>
        terminate (main_who m) pid;;
        mod_hub (update_main m (set_start_time None))
    | None => mret tt
    end.

Definition ready_record (t : Z) (stage : string) : json :=
  JObj [("timestamp", JNum t); ("ready", JBool false); ("stage", JStr stage)].

Definition start_neural : M unit :=
  try_pass (h ← get_hub; t ← time_time;
            write_file (runner_ready_path h) (DJson (ready_record t "starting")));;
  try_pass (h ← get_hub;
            mod_os (λ o, with_environ
              (<["USE_KUCOIN_API" := if use_kucoin_api (settings h) then "1" else "0"]>
                 (environ o)) o));;
  _start_process PNeural true "[RUNNER] ".

Definition start_trader : M unit := _start_process PTrader true "[TRADER] ".
Definition stop_neural : M unit := _stop_process PNeural.
Definition stop_trader : M unit := _stop_process PTrader.

Definition not_ready : json := JObj [("ready", JBool false)].

Definition _read_runner_ready : M json :=
  try_except
    (h ← get_hub; o ← get_os;
     if isfile o (runner_ready_path h) then
       data ← json_load (runner_ready_path h);
       if Json.is_dict data then mret data else mret not_ready
     else mret not_ready)
    (mret not_ready).

(** [bool(st.get("ready", False))] *)
Definition ready_flag (st : json) : bool :=
  Json.truthy (Json.get "ready" (JBool false) st).

Definition start_trader_for_coin (coin : string) : M unit := start_trader.

(** ** The runner-ready gate *)

(** The branch a poll tick leaves through (the Python methods return
    [None]; the branches differ in what they print and do). *)
Inductive poll_result := NotPending | Cancelled | Ready | TimedOut | Waiting.

Definition bump_poll_count : M Z :=
  h ← get_hub;
  let poll_count := default 0%Z (_trader_poll_count h) in
  mod_hub (set_poll_count (Some (poll_count + 1)%Z));;
  mret (poll_count + 1)%Z.

Definition _poll_runner_ready_then_start_trader : M poll_result :=
  h ← get_hub; o ← get_os;
  if negb (_auto_start_trader_pending h) then mret NotPending
  else if negb (is_running o (proc_neural h)) then
    emit (EvPrint "[Hub] Neural runner is not running. Cancelling trader auto-start.");;
    assign_pending false;;
    mret Cancelled
  else
    st ← _read_runner_ready;
    if ready_flag st then
      emit (EvPrint "[Hub] Runner is ready. Starting trader now.");;
      assign_pending false;;
      h ← get_hub; o ← get_os;
      when (negb (is_running o (proc_trader h))) start_trader;;
      mret Ready
    else
      n ← bump_poll_count;
      if (20 <? n)%Z then
        emit (EvPrint "[Hub] Timed out waiting for runner ready. Starting trader anyway.");;
        assign_pending false;;
        h ← get_hub; o ← get_os;
        when (negb (is_running o (proc_trader h))) start_trader;;
        mret TimedOut
      else
        try_pass (after 250 CbPoll);;
        mret Waiting.

Definition _poll_runner_ready_then_start_trader_for_coins (cs : list string)
  : M poll_result :=
  h ← get_hub; o ← get_os;
  if negb (_auto_start_trader_pending h) then mret NotPending
  else if negb (is_running o (proc_neural h)) then
    emit (EvPrint "[Hub] Neural runner is not running. Cancelling trader auto-start.");;
    assign_pending false;;
    mret Cancelled
  else
    st ← _read_runner_ready;
    if ready_flag st then
      emit (EvPrint "[Hub] Runner is ready. Starting trader now for all trained coins.");;
      assign_pending false;;
      for_each cs start_trader_for_coin;;
      mret Ready
    else
      n ← bump_poll_count;
      if (20 <? n)%Z then
        emit (EvPrint "[Hub] Timed out waiting for runner ready. Starting trader anyway for all trained coins.");;
        assign_pending false;;
        for_each cs start_trader_for_coin;;
        mret TimedOut
      else
        try_pass (after 250 (CbPollForCoins cs));;
        mret Waiting.

(** ** Training state read from the coin folders *)

(** The status readers only read; their file accesses are not logged. *)
Definition _safe_read_json (o : OS) (p : string) : option json :=
  f ← files o !! p; parse_json (f_data f).

(** [float((f.read() or "").strip() or "0")]; [None] when [open] or
    [float] raises. *)
Definition read_stamp (o : OS) (p : string) : option Z :=
  f ← files o !! p;
  match f_data f with
  | DEmpty => Some 0%Z
  | d => parse_float d
  end.

(** [(time.time() - ts) <= (14 * 24 * 60 * 60)] *)
Definition recent (o : OS) (ts : Z) : bool :=
  (now o - ts <=? 14 * 24 * 60 * 60)%Z.

(** [str(st.get("state", "")).upper()] *)
Definition state_of (st : json) : string :=
  PyStr.upper (Json.py_str (Json.get "state" (JStr "") st)).

Definition _coin_is_trained (h : Hub) (o : OS) (coin0 : string) : bool :=
  let coin := PyStr.strip (PyStr.upper coin0) in
  let folder := default "" (coin_folders h !! coin) in
  if negb (PyStr.nonempty folder) || negb (isdir o folder) then false
  else if dry_run_mode (settings h)
          && isfile o (PyStr.join folder "trained_model_saved.txt") then true
  else
    let stamp_path := PyStr.join folder "trainer_last_training_time.txt" in
    let fallback :=
      if negb (isfile o stamp_path) then false
      else match read_stamp o stamp_path with
           | Some ts => if (ts <=? 0)%Z then false else recent o ts
           | None => false
           end in
    match _safe_read_json o (PyStr.join folder "trainer_status.json") with
    | Some (JObj kv) =>
        let state := state_of (JObj kv) in
        if bool_decide (state = "FINISHED") then true
        else if bool_decide (state = "TRAINED") then true
        else if bool_decide (state = "TRAINING") then
          if isfile o stamp_path then
            match read_stamp o stamp_path with
            | Some ts => (0 <? ts)%Z && recent o ts
            | None => false
            end
          else false
        else fallback
    | _ => fallback
    end.

Definition file_mtime (o : OS) (p : string) : option Z :=
  f_mtime <$> files o !! p.

(** The last loop of [_running_trainers]: upper-cased, non-empty names,
    each once, in order of first appearance. *)
Definition dedupe (running : list string) : list string :=
  fold_left (λ out c,
      let cc := PyStr.upper (PyStr.strip c) in
      if PyStr.nonempty cc && negb (bool_decide (cc ∈ out)) then out ++ [cc] else out)
    running [].

Definition _running_trainers (h : Hub) (o : OS) : list string :=
  let launched :=
    map fst (List.filter (λ e : string * LogProc, is_running o (info e.2)) (trainers h)) in
  let elsewhere :=
    flat_map (λ c,
      let coin := PyStr.upper (PyStr.strip c) in
      let folder := default "" (coin_folders h !! coin) in
      if negb (PyStr.nonempty folder) || negb (isdir o folder) then []
      else
        let status_path := PyStr.join folder "trainer_status.json" in
        match _safe_read_json o status_path with
        | Some (JObj kv) =>
            if bool_decide (state_of (JObj kv) = "TRAINING") then
              let stamp_path := PyStr.join folder "trainer_last_training_time.txt" in
              match file_mtime o stamp_path, file_mtime o status_path with
              | Some ms, Some mt => if (mt <=? ms)%Z then [] else [coin]
              | _, _ => [coin]
              end
            else []
        | _ => []
        end) (coins h) in
  dedupe (launched ++ elsewhere).

Inductive train_status := TRAINED | TRAINING | NOT_TRAINED.

Definition is_TRAINED (s : train_status) : bool :=
  match s with TRAINED => true | _ => false end.

Definition coin_status (h : Hub) (o : OS) (running : list string) (c : string)
  : train_status :=
  if _coin_is_trained h o c then TRAINED
  else if bool_decide (c ∈ running) then TRAINING
  else NOT_TRAINED.

Definition _training_status_map (h : Hub) (o : OS) : list (string * train_status) :=
  let running := _running_trainers h o in
  fold_left (λ out c, Dict.set c (coin_status h o running c) out) (coins h) [].

(** [_tick]: [all(v == "TRAINED" for v in status_map.values()) if status_map else False] *)
Definition all_trained (h : Hub) (o : OS) : bool :=
  let status_map := _training_status_map h o in
  match status_map with
  | [] => false
  | _ => forallb (λ kv : string * train_status, is_TRAINED kv.2) status_map
  end.

(** ** Per-coin runners and trainers *)

(** [lp.proc] on a [LogProc]: the dataclass has no such attribute (the
    handle is [lp.info.proc]), so the lookup raises. *)
Definition LogProc_proc (lp : LogProc) : M (option Z) := raise AttributeError.

(** [.venv/bin/python] of the project when it exists, else [sys.executable]. *)
Definition python_exec (h : Hub) (o : OS) : string :=
  let venv := PyStr.join (PyStr.join (PyStr.join (project_dir h) ".venv") "bin") "python" in
  if isfile o venv then venv else sys_executable o.

(** The folder set-up shared by the per-coin starts: create the folder of
    an alt coin and copy the script from the main folder into it. *)
Definition seed_coin_folder (coin coin_cwd script_name : string) : M unit :=
  when (bool_decide (coin ≠ "BTC"))
    (try_pass
       (h ← get_hub; o ← get_os;
        when (negb (isdir o coin_cwd)) (makedirs coin_cwd);;
        let src_main_folder := default (project_dir h) (coin_folders h !! "BTC") in
        let src_path := PyStr.join src_main_folder script_name in
        let dst_path := PyStr.join coin_cwd script_name in
        o ← get_os;
        when (isfile o src_path) (copy2 src_path dst_path))).

(** The script to run: the one in the coin folder, else the fallback;
    [None] when neither exists. *)
Definition resolve_script (h : Hub) (o : OS) (coin_cwd script_name : string)
    (configured : option string) : option string :=
  let script_path := PyStr.abspath (PyStr.join coin_cwd script_name) in
  if isfile o script_path then Some script_path
  else
    let fallback :=
      match configured with
      | Some p => if PyStr.nonempty p && isfile o p then p
                  else PyStr.abspath (PyStr.join (project_dir h) script_name)
      | None => PyStr.abspath (PyStr.join (project_dir h) script_name)
      end in
    if isfile o fallback then Some (PyStr.abspath fallback) else None.

Definition start_neural_for_coin (coin0 : string) : M unit :=
  let coin := PyStr.upper (PyStr.strip coin0) in
  if negb (PyStr.nonempty coin) then mret tt
  else
    h ← get_hub;
    let coin_cwd := default (project_dir h) (coin_folders h !! coin) in
    let runner_name := PyStr.basename (script_neural_runner2 (settings h)) in
    seed_coin_folder coin coin_cwd runner_name;;
    o ← get_os;
    match resolve_script h o coin_cwd runner_name (proc_neural_path h) with
    | None => emit (EvShowError "Missing runner")
    | Some runner_path =>
        (* Prevent duplicate runner for same coin *)
        dup ← match neural_runners h with
              | Some runners =>
                  match Dict.get coin runners with
                  | Some lp =>
                      p ← LogProc_proc lp;
                      o ← get_os;
                      mret (match p with Some pid => proc_alive o pid | None => false end)
                  | None => mret false
                  end
              | None => mret false
              end;
        if dup : bool then mret tt
        else
          let info := mkProcInfo ("NeuralRunner-" +:+ coin) runner_path None None in
          try_except
            (h ← get_hub; o ← get_os;
             pid ← Popen (WRunner coin) [python_exec h o; "-u"; runner_path; coin]
                         runner_path coin_cwd;
             emit (EvReader pid ("[" +:+ coin +:+ "-RUNNER] "));;
             mod_hub (λ h, set_neural_runners
               (Some (Dict.set coin (mkLogProc (set_proc (Some pid) info) false (Some coin))
                               (default [] (neural_runners h)))) h))
            (emit (EvShowError "Failed to start"))
    end.

Definition status_record (state : string) (pid : Z) (key : string) (t : Z) : json :=
  JObj [("state", JStr state); ("pid", JNum pid); (key, JNum t)].

Definition _start_single_trainer (coin0 : string) : M unit :=
  let coin := PyStr.upper (PyStr.strip coin0) in
  if negb (PyStr.nonempty coin) then mret tt
  else
    h ← get_hub;
    let coin_cwd := default (project_dir h) (coin_folders h !! coin) in
    let trainer_name := PyStr.basename (script_neural_trainer (settings h)) in
    seed_coin_folder coin coin_cwd trainer_name;;
    o ← get_os;
    match resolve_script h o coin_cwd trainer_name (proc_trainer_path h) with
    | None => emit (EvShowError "Missing trainer")
    | Some trainer_path =>
        if match Dict.get coin (trainers h) with
           | Some lp => is_running o (info lp)
           | None => false
           end
        then mret tt
        else
          let info := mkProcInfo ("Trainer-" +:+ coin) trainer_path None None in
          try_except
            (h ← get_hub; o ← get_os;
             pid ← Popen (WTrainer coin) [python_exec h o; "-u"; trainer_path; coin]
                         trainer_path coin_cwd;
             emit (EvReader pid ("[" +:+ coin +:+ "] "));;
             mod_hub (λ h, set_trainers
               (Dict.set coin (mkLogProc (set_proc (Some pid) info) true (Some coin))
                         (trainers h)) h);;
             try_pass (t ← time_time;
                       write_file (PyStr.join coin_cwd "trainer_status.json")
                                  (DJson (status_record "TRAINING" pid "start_time" t))))
            (emit (EvShowError "Failed to start"))
    end.

(** ** The fleet sequence *)

Definition _start_neural_then_trader : M unit :=
  assign_pending true;;
  mod_hub (set_poll_count (Some 0%Z));;
  h ← get_hub; o ← get_os;
  let trained_coins := List.filter (_coin_is_trained h o) (coins h) in
  for_each trained_coins start_neural_for_coin;;
  try_pass (after 500 (CbPollForCoins trained_coins)).

(** [train_all_coins] stops the standalone runner and hands the launches
    to a background thread, which calls [_start_single_trainer] for every
    coin; those calls are steps of their own in an execution (the action
    [BLaunch] below). *)
Definition train_all_coins : M unit := stop_neural.

Definition start_all_scripts : M unit :=
  emit (EvShowInfo "Starting All");;
  mod_hub (set_after_training true);;
  train_all_coins.

(** Step 3 of [stop_all_scripts], also the body of [stop_all_trainers]. *)
Definition stop_trainer_entry (e : string * LogProc) : M unit :=
  o ← get_os;
  match proc (info e.2) with
  | Some pid =>
      when (proc_alive o pid)
        (terminate (WTrainer e.1) pid;;
         try_pass
           (h ← get_hub; t ← time_time;
            let coin_cwd := default (project_dir h) (coin_folders h !! e.1) in
            write_file (PyStr.join coin_cwd "trainer_status.json")
                       (DJson (status_record "STOPPED" pid "stop_time" t))))
  | None => mret tt
  end.

Definition stop_all_scripts : M unit :=
  (* Cancel any pending "wait for runner then start trader" *)
  assign_pending false;;
  stop_trader;;
  stop_neural;;
  try_pass (h ← get_hub; for_each (trainers h) (λ e, try_pass (stop_trainer_entry e)));;
  try_pass (h ← get_hub; t ← time_time;
            write_file (runner_ready_path h) (DJson (ready_record t "stopped"))).

(** The training gate of [_tick] (the widget updates around it are left
    out): the status map, the flag [all_trained], and the automatic start
    of the runner once training has completed. *)
Definition _tick_gate : M unit :=
  h ← get_hub; o ← get_os;
  when (all_trained h o && _auto_start_runner_after_training h)
    (mod_hub (set_after_training false);;
     assign_pending true;;
     after 5 CbStartNeuralThenTrader).

(** Running the callable of a timer; a poll reports its branch. *)
Definition run_callback (cb : callback) : M (option poll_result) :=
  match cb with
  | CbStartNeuralThenTrader => _start_neural_then_trader;; mret None
  | CbPoll => r ← _poll_runner_ready_then_start_trader; mret (Some r)
  | CbPollForCoins cs => r ← _poll_runner_ready_then_start_trader_for_coins cs; mret (Some r)
  end.

(** The Tk main loop runs the oldest pending timer. *)
Definition fire_timer : M (option poll_result) :=
  h ← get_hub;
  match timers h with
  | [] => mret None
  | (_, cb) :: rest => mod_hub (set_timers rest);; run_callback cb
  end.

(** ** The mtime caches *)

(** [_safe_read_json] as a method that opens the file. *)
Definition _safe_read_json_io (p : string) : M (option json) :=
  try_except (j ← json_load p; mret (Some j)) (mret None).

Definition digit_of (a : ascii) : option Z :=
  let n := nat_of_ascii a in
  if ((48 <=? n) && (n <=? 57))%nat then Some (Z.of_nat (n - 48)) else None.

Fixpoint digits_from (acc : Z) (s : string) : option Z :=
  match s with
  | EmptyString => Some acc
  | String a r =>
      match digit_of a with
      | Some d => digits_from (10 * acc + d)%Z r
      | None => None
      end
  end.

(** [float(x)] on a JSON value, for integers written in decimal. *)
Definition py_float (j : json) : option Z :=
  match j with
  | JNum z => Some z
  | JBool b => Some (if b then 1 else 0)%Z
  | JStr (String "-" (String a r)) => Z.opp <$> digits_from 0 (String a r)
  | JStr (String a r) => digits_from 0 (String a r)
  | _ => None
  end.

Definition read_int_from_file (p : string) : M json :=
  try_except
    (raw ← read_file p;
     match parse_float raw with
     | Some z => mret (JNum z)
     | None => raise ValueError
     end)
    (mret (JNum 0)).

Definition _load_short_from_memory_json (p : string) : M json :=
  try_except
    (r ← _safe_read_json_io p;
     let obj := match r with
                | Some j => if Json.truthy j then j else JObj []
                | None => JObj []
                end in
     if Json.is_dict obj then
       match py_float (Json.get "short_dca_signal" (JNum 0) obj) with
       | Some z => mret (JNum z)
       | None => raise ValueError
       end
     else raise AttributeError)
    (mret (JNum 0)).

(** [_cached] of [_refresh_neural_overview], over [self._neural_overview_cache]. *)
Definition _cached (p : string) (loader : string → M json) (dflt : json)
  : M (json * option Z) :=
  r ← try_except (mtime ← getmtime p; mret (Some mtime)) (mret None);
  match r with
  | None => mret (dflt, None)
  | Some mtime =>
      h ← get_hub;
      match _neural_overview_cache h !! p with
      | Some (m, v) =>
          if bool_decide (m = mtime) then mret (v, Some mtime)
          else
            v ← loader p;
            mod_hub (λ h, set_overview_cache (<[p := (mtime, v)]> (_neural_overview_cache h)) h);;
            mret (v, Some mtime)
      | None =>
          v ← loader p;
          mod_hub (λ h, set_overview_cache (<[p := (mtime, v)]> (_neural_overview_cache h)) h);;
          mret (v, Some mtime)
      end
  end.

(** The cached read of a coin's [trainer_status.json] in the progress part
    of [_tick] (the [try] block under [os.path.exists(status_file)]). *)
Definition _tick_status_read (c : string) : M json :=
  h ← get_hub;
  let folder := default (project_dir h) (coin_folders h !! c) in
  let status_file := PyStr.join folder "trainer_status.json" in
  try_except
    (mtime ← getmtime status_file;
     h ← get_hub;
     let cache := default ∅ (_trainer_status_cache h) in
     match cache !! c with
     | Some (m, data) =>
         if bool_decide (m = mtime) then mret data
         else
           st ← json_load status_file;
           mod_hub (λ h, set_status_cache
             (Some (<[c := (mtime, st)]> (default ∅ (_trainer_status_cache h)))) h);;
           mret st
     | None =>
         st ← json_load status_file;
         mod_hub (λ h, set_status_cache
           (Some (<[c := (mtime, st)]> (default ∅ (_trainer_status_cache h)))) h);;
         mret st
     end)
    (mret (JObj [])).

(** The progress part of [_tick]: one cached read per coin that is shown
    as training and whose status file exists. *)
Definition _tick_progress : M unit :=
  try_pass
    (h ← get_hub;
     when (bool_decide (_trainer_status_cache h = None)) (mod_hub (set_status_cache (Some ∅)));;
     h ← get_hub; o ← get_os;
     let status_map := _training_status_map h o in
     for_each (coins h) (λ c,
       match Dict.get c status_map with
       | Some TRAINING =>
           try_pass
             (h ← get_hub; o ← get_os;
              let folder := default (project_dir h) (coin_folders h !! c) in
              when (isfile o (PyStr.join folder "trainer_status.json"))
                   (_tick_status_read c;; mret tt))
       | _ => mret tt
       end)).

Definition _tick : M unit := _tick_progress;; _tick_gate.

(** ** Executions

    What happens to the hub over time: commands of the user, control
    ticks, timers that fire, and what the rest of the system does in
    between (a process exits, a worker rewrites a file, time passes). *)

Inductive action :=
| UStartAll                         (* Start All *)
| UStopAll                          (* Stop All *)
| UStartNeural                      (* Scripts > Start Neural Runner *)
| BLaunch (c : string)              (* the launcher thread starts a trainer *)
| ATick                             (* _tick *)
| AFire                             (* the oldest timer fires *)
| EExit (pid : Z)                   (* a process exits *)
| EWrite (p : string) (d : fdata)   (* a worker writes a file *)
| ESleep (dt : Z).                  (* time passes *)

Definition env_exit (pid : Z) (o : OS) : OS :=
  match procs o !! pid with
  | Some _ => with_procs (<[pid := PExited]> (procs o)) (next_pid o) o
  | None => o
  end.

Definition env_write (p : string) (d : fdata) (o : OS) : OS :=
  with_files (<[p := File (now o) d]> (files o)) o.

Definition env_sleep (dt : Z) (o : OS) : OS :=
  mkOS (now o + dt)%Z (files o) (dirs o) (unwritable o) (popen_broken o) (procs o)
       (next_pid o) (sys_executable o) (environ o).

Definition do_action (a : action) : M unit :=
  match a with
  | UStartAll => start_all_scripts
  | UStopAll => stop_all_scripts
  | UStartNeural => start_neural
  | BLaunch c => _start_single_trainer c
  | ATick => _tick
  | AFire => fire_timer;; mret tt
  | EExit pid => mod_os (env_exit pid)
  | EWrite p d => mod_os (env_write p d)
  | ESleep dt => mod_os (env_sleep dt)
  end.

Definition run (acts : list action) : M unit := for_each acts do_action.

(** The readiness poll as the main loop runs it: before tick [k] the rest
    of the system acts on the operating system ([env k]); a tick that
    keeps waiting leaves a timer, which is the next tick.  The result is
    the branch of the last tick and the number of ticks made. *)
Fixpoint poll_run (env : nat → OS → OS) (fuel k : nat)
  : M (option poll_result * nat) :=
  match fuel with
  | O => mret (None, k)
  | S fuel' =>
      mod_os (env k);;
      r ← fire_timer;
      match r with
      | Some Waiting => poll_run env fuel' (S k)
      | _ => mret (r, S k)
      end
  end.

(** The operating system after the rest of the system has acted before
    ticks [k], .., [k + n - 1]. *)
Fixpoint env_upto (env : nat → OS → OS) (n k : nat) (o : OS) : OS :=
  match n with
  | O => o
  | S n' => env_upto env n' (S k) (env k o)
  end.

(** What a poll tick makes of the readiness artifact. *)
Definition runner_ready (h : Hub) (o : OS) : bool :=
  match files o !! runner_ready_path h with
  | Some f =>
      match parse_json (f_data f) with
      | Some (JObj kv) => ready_flag (JObj kv)
      | _ => false
      end
  | None => false
  end.

(** ** A sample installation *)

Module Sample.

Definition settings0 : Settings :=
  mkSettings "pt_thinker.py" "pt_trainer.py" "pt_trader.py" true false.

Definition hub0 : Hub :=
  mkHub "/pt" "/pt/hub_data" "/pt/hub_data/runner_ready.json" settings0
    ["BTC"; "ETH"]
    (<["BTC" := "/pt"]> (<["ETH" := "/pt/ETH"]> ∅))
    None (Some "/pt/pt_trainer.py")
    (mkProcInfo "Neural Runner" "/pt/pt_thinker.py" None None)
    (mkProcInfo "Trader" "/pt/pt_trader.py" None None)
    [] None false false None ∅ None [].

Definition script : file := File 0 DOpaque.

Definition status (state : string) : file :=
  File 50 (DJson (JObj [("state", JStr state)])).

Definition ready_file (b : bool) : file :=
  File 60 (DJson (JObj [("timestamp", JNum 60); ("ready", JBool b); ("stage", JStr "x")])).

Definition files0 : gmap string file :=
  <["/pt/pt_thinker.py" := script]>
  (<["/pt/pt_trainer.py" := script]>
  (<["/pt/pt_trader.py" := script]>
  (<["/pt/trainer_status.json" := status "FINISHED"]>
  (<["/pt/ETH/trainer_status.json" := status "FINISHED"]> ∅)))).

Definition os0 : OS :=
  mkOS 100 files0 {["/pt"; "/pt/ETH"; "/pt/hub_data"]} ∅ ∅ ∅ 1000 "/usr/bin/python3" ∅.

Definition w0 : World := mkWorld hub0 os0.

(** Both coins finished a training five seconds ago. *)
Definition files_trained : gmap string file :=
  <["/pt/trainer_last_training_time.txt" := File 95 (DNumber 95)]>
  (<["/pt/ETH/trainer_last_training_time.txt" := File 95 (DNumber 95)]> files0).

Definition os_trained : OS :=
  mkOS 100 files_trained {["/pt"; "/pt/ETH"; "/pt/hub_data"]} ∅ ∅ ∅ 1000 "/usr/bin/python3" ∅.

End Sample.

(** ** Properties of outcomes and traces *)

(** A [Popen] call raised during the operation. *)
Definition popen_failed {A} (out : outcome A) : Prop :=
  ∃ x argv, EvPopenFailed x argv ∈ events_of out.

Definition no_spawn {A} (out : outcome A) : Prop :=
  ∀ x argv cwd pid, EvSpawn x argv cwd pid ∉ events_of out.

(** The hub object and the process table are as they were. *)
Definition same_handles (w w' : World) : Prop :=
  hub w' = hub w ∧ procs (os w') = procs (os w) ∧ next_pid (os w') = next_pid (os w).

Definition atomic_failure {A} (w : World) (out : outcome A) : Prop :=
  returned out = true
  ∧ same_handles w (world_of out)
  ∧ EvShowError "Failed to start" ∈ events_of out
  ∧ no_spawn out.

Definition only_writes (tr : list event) : Prop :=
  ∀ e, e ∈ tr → ∃ p d, e = EvWrite p d.

(** The start operations of the hub. *)
Inductive start_op :=
| StartMain (m : main_proc) (log_q : bool) (prefix : string)
| StartRunner (coin : string)
| StartTrainer (coin : string).

Definition run_start (op : start_op) : M unit :=
  match op with
  | StartMain m log_q prefix => _start_process m log_q prefix
  | StartRunner c => start_neural_for_coin c
  | StartTrainer c => _start_single_trainer c
  end.

(** The file accesses of [_read_runner_ready]. *)
Definition read_events (h : Hub) (o : OS) : list event :=
  if isfile o (runner_ready_path h) then [EvRead (runner_ready_path h)] else [].

(** The dependency of the poll as the poll checks it: the process of
    [proc_neural] is alive and the artifact does not say ready. *)
Definition dependency_up (h : Hub) (o : OS) : Prop :=
  is_running o (proc_neural h) = true ∧ runner_ready h o = false.

(** The hub after a tick that keeps waiting, and after the tick that
    gives up. *)
Definition waited (cb : callback) (n : Z) (h : Hub) : Hub :=
  set_timers (timers h ++ [(250%Z, cb)]) (set_poll_count (Some n) h).

Definition timed_out (n : Z) (h : Hub) : Hub :=
  set_pending false (set_poll_count (Some n) h).

(** The two polls. *)
Definition is_poll (cb : callback) : bool :=
  match cb with CbPoll | CbPollForCoins _ => true | CbStartNeuralThenTrader => false end.

(** What the ready and the timed-out branch of a poll do about the
    trader. *)
Definition start_traders (cb : callback) : M unit :=
  match cb with
  | CbPollForCoins cs => for_each cs start_trader_for_coin
  | _ => h ← get_hub; o ← get_os;
         when (negb (is_running o (proc_trader h))) start_trader
  end.

(** The poll has a trader to start: always for the single poll, for the
    fleet poll when it has a coin. *)
Definition wants_trader (cb : callback) : bool :=
  match cb with CbPollForCoins [] => false | _ => true end.

Definition is_after (e : event) : bool :=
  match e with EvAfter _ _ => true | _ => false end.

Definition same_gate (p_neural : ProcInfo) (ready_path : string) (h : Hub) : Prop :=
  proc_neural h = p_neural ∧ runner_ready_path h = ready_path.

(** The trader is up, or nothing stands in the way of starting it. *)
Definition trader_can_start (h : Hub) (o : OS) : Prop :=
  is_running o (proc_trader h) = true
  ∨ (isfile o (path (proc_trader h)) = true
     ∧ popen_raises o (path (proc_trader h)) = false
     ∧ isdir o (project_dir h) = true).

(** ** Sample states *)

Module Scenario.
Import Sample.

(** The standalone runner is process 7. *)
Definition neural_up (h : Hub) : Hub :=
  set_proc_neural (mkProcInfo "Neural Runner" "/pt/pt_thinker.py" (Some 7%Z) (Some 90%Z)) h.

Definition os_neural_up : OS :=
  mkOS 100 files0 {["/pt"; "/pt/ETH"; "/pt/hub_data"]} ∅ ∅ {[7%Z := PRunning]} 1000
       "/usr/bin/python3" ∅.

(** In the middle of the fleet sequence: the poll is scheduled. *)
Definition hub_polling : Hub :=
  set_timers [(500%Z, CbPollForCoins ["BTC"; "ETH"])]
    (set_poll_count (Some 0%Z) (set_pending true (neural_up hub0))).

Definition quiet (k : nat) (o : OS) : OS := o.

End Scenario.

(** The cache of [_cached] with a new entry. *)
Definition cache_store (p : string) (mtime : Z) (v : json) (w : World) : World :=
  mkWorld (set_overview_cache (<[p := (mtime, v)]> (_neural_overview_cache (hub w))) (hub w))
          (os w).

(** The cache of [_tick] with a new entry. *)
Definition status_store (c : string) (mtime : Z) (v : json) (w : World) : World :=
  mkWorld (set_status_cache
             (Some (<[c := (mtime, v)]> (default ∅ (_trainer_status_cache (hub w))))) (hub w))
          (os w).

(** The status file [_tick] reads for a coin. *)
Definition status_file (h : Hub) (c : string) : string :=
  PyStr.join (default (project_dir h) (coin_folders h !! c)) "trainer_status.json".

(** The cache holds no entry for the key at this mtime. *)
Definition stale {K} `{Countable K} (cache : gmap K (Z * json)) (k : K) (mtime : Z) : Prop :=
  ∀ v, cache !! k ≠ Some (mtime, v).

Module CacheScenario.
Import Sample.

Definition long_path : string := "/pt/ETH/.market/long_dca_signal.txt".

(** The signal file holds the number 3. *)
Definition os_signal : OS :=
  mkOS 100 (<[long_path := File 42 (DNumber 3)]> files0)
       {["/pt"; "/pt/ETH"; "/pt/hub_data"]} ∅ ∅ ∅ 1000 "/usr/bin/python3" ∅.

(** The writer of the signal file is in the middle of a write. *)
Definition os_half_written : OS :=
  mkOS 100 (<[long_path := File 42 DOpaque]> files0)
       {["/pt"; "/pt/ETH"; "/pt/hub_data"]} ∅ ∅ ∅ 1000 "/usr/bin/python3" ∅.

(** The status file of ETH is in the middle of a write. *)
Definition os_status_half_written : OS :=
  mkOS 100 (<["/pt/ETH/trainer_status.json" := File 42 DOpaque]> files0)
       {["/pt"; "/pt/ETH"; "/pt/hub_data"]} ∅ ∅ ∅ 1000 "/usr/bin/python3" ∅.

End CacheScenario.

(** The reading of the cache rule that a failed decode leaves no entry
    under the observed mtime, for [_cached] with the loader of the signal
    files. *)
Definition failed_decode_leaves_no_entry : Prop :=
  ∀ (w : World) (p : string) (f : file),
    files (os w) !! p = Some f →
    parse_float (f_data f) = None →
    stale (_neural_overview_cache (hub w)) p (f_mtime f) →
    stale (_neural_overview_cache (hub (world_of (_cached p read_int_from_file (JNum 0) w))))
          p (f_mtime f).

(** ** The training gate in words *)

Definition coin_folder (h : Hub) (c : string) : string :=
  default "" (coin_folders h !! PyStr.strip (PyStr.upper c)).

(** The state named by the coin's status artifact, when it is a JSON
    object. *)
Definition status_state (h : Hub) (o : OS) (c : string) : option string :=
  match _safe_read_json o (PyStr.join (coin_folder h c) "trainer_status.json") with
  | Some (JObj kv) => Some (state_of (JObj kv))
  | _ => None
  end.

(** The completion-timestamp file exists and holds a positive timestamp
    no older than 14 days. *)
Definition stamp_recent (h : Hub) (o : OS) (c : string) : bool :=
  match read_stamp o (PyStr.join (coin_folder h c) "trainer_last_training_time.txt") with
  | Some ts => (0 <? ts)%Z && recent o ts
  | None => false
  end.

(** The marker of a saved model, honoured in dry-run mode. *)
Definition dry_run_marker (h : Hub) (o : OS) (c : string) : bool :=
  dry_run_mode (settings h)
  && isfile o (PyStr.join (coin_folder h c) "trained_model_saved.txt").

(** "Reports TRAINED" as the specification words it: the status artifact
    states FINISHED or TRAINED, or states TRAINING while the completion
    timestamp is recent. *)
Definition spec_reports_trained (h : Hub) (o : OS) (c : string) : bool :=
  match status_state h o c with
  | Some state =>
      bool_decide (state = "FINISHED") || bool_decide (state = "TRAINED")
      || (bool_decide (state = "TRAINING") && stamp_recent h o c)
  | None => false
  end.

(** "AllTrained iff every managed instrument reports TRAINED". *)
Definition spec_all_trained (h : Hub) (o : OS) : bool :=
  forallb (spec_reports_trained h o) (coins h).

Module GateScenario.
Import Sample.

Definition no_coins : Hub :=
  mkHub "/pt" "/pt/hub_data" "/pt/hub_data/runner_ready.json" settings0
    [] (<["BTC" := "/pt"]> ∅) None (Some "/pt/pt_trainer.py")
    (mkProcInfo "Neural Runner" "/pt/pt_thinker.py" None None)
    (mkProcInfo "Trader" "/pt/pt_trader.py" None None)
    [] None false false None ∅ None [].

(** ETH was trained five seconds ago and its trainer was then stopped. *)
Definition os_stopped : OS :=
  mkOS 100
    (<["/pt/ETH/trainer_status.json" := status "STOPPED"]>
     (<["/pt/ETH/trainer_last_training_time.txt" := File 95 (DNumber 95)]> files0))
    {["/pt"; "/pt/ETH"; "/pt/hub_data"]} ∅ ∅ ∅ 1000 "/usr/bin/python3" ∅.

End GateScenario.

(** ** Teardown order *)

(** Trading is stopped first, generating second, training third. *)
Definition teardown_rank (r : role) : nat :=
  match r with Trading => 0 | Generating => 1 | Training => 2 end.

(** The rank of a stop call; other events have none. *)
Definition stop_rank (e : event) : option nat :=
  match e with
  | EvTerminate x _ => Some (teardown_rank (role_of x))
  | _ => None
  end.

(** Stop calls of a lower rank come strictly before those of a higher. *)
Definition ordered (l : list event) : Prop :=
  ∀ i j ei ej ri rj,
    l !! i = Some ei → l !! j = Some ej →
    stop_rank ei = Some ri → stop_rank ej = Some rj →
    (ri < rj)%nat → (i < j)%nat.

(** Every stop call in the list has rank [r]. *)
Definition ranks_in (r : nat) (l : list event) : Prop :=
  ∀ e r', e ∈ l → stop_rank e = Some r' → r' = r.

(** What the steps of [stop_all_scripts] leave alone. *)
Definition frame (w w' : World) : Prop :=
  runner_ready_path (hub w') = runner_ready_path (hub w)
  ∧ unwritable (os w') = unwritable (os w)
  ∧ now (os w') = now (os w)
  ∧ _auto_start_trader_pending (hub w') = _auto_start_trader_pending (hub w).

Module TeardownScenario.
Import Sample.

(** Trader 5, runner 7 and the trainer of ETH 9 are running; a start
    sequence is pending. *)
Definition hub_running : Hub :=
  mkHub "/pt" "/pt/hub_data" "/pt/hub_data/runner_ready.json" settings0
    ["BTC"; "ETH"]
    (<["BTC" := "/pt"]> (<["ETH" := "/pt/ETH"]> ∅))
    None (Some "/pt/pt_trainer.py")
    (mkProcInfo "Neural Runner" "/pt/pt_thinker.py" (Some 7%Z) (Some 90%Z))
    (mkProcInfo "Trader" "/pt/pt_trader.py" (Some 5%Z) (Some 91%Z))
    [("ETH", mkLogProc (mkProcInfo "Trainer-ETH" "/pt/ETH/pt_trainer.py" (Some 9%Z) None)
                       true (Some "ETH"))]
    None true false (Some 3%Z) ∅ None [].

Definition os_running : OS :=
  mkOS 100 (<["/pt/hub_data/runner_ready.json" := ready_file true]> files0)
       {["/pt"; "/pt/ETH"; "/pt/hub_data"]} ∅ ∅
       (<[5%Z := PRunning]> (<[7%Z := PRunning]> (<[9%Z := PRunning]> ∅))) 1000
       "/usr/bin/python3" ∅.

End TeardownScenario.

(** The record [stop_all_scripts] leaves in the readiness artifact. *)
Definition stopped_record (w : World) : event :=
  EvWrite (runner_ready_path (hub w)) (DJson (ready_record (now (os w)) "stopped")).

(** ** Sample runs of the fleet sequence *)

Definition trader_spawned (tr : list event) : bool :=
  existsb (λ e, match e with EvSpawn WTrader _ _ _ => true | _ => false end) tr.

Definition runner_spawned (c : string) (tr : list event) : bool :=
  existsb (λ e, match e with
                | EvSpawn (WRunner c') _ _ _ => bool_decide (c' = c)
                | _ => false
                end) tr.

Definition writes_to (p : string) (tr : list event) : bool :=
  existsb (λ e, match e with EvWrite p' _ => bool_decide (p' = p) | _ => false end) tr.

Module FleetScenario.
Import Sample.

(** A fresh session: both coins were trained five seconds ago, nothing
    runs. *)
Definition fresh : World := mkWorld hub0 os_trained.

(** The same with a readiness artifact an earlier session left at
    ready = true. *)
Definition os_stale : OS :=
  mkOS 100 (<["/pt/hub_data/runner_ready.json" := ready_file true]> files_trained)
       {["/pt"; "/pt/ETH"; "/pt/hub_data"]} ∅ ∅ ∅ 1000 "/usr/bin/python3" ∅.

Definition stale : World := mkWorld hub0 os_stale.

(** Start All with the launches of its background thread, up to the tick
    that sees every coin trained. *)
Definition start_all : list action :=
  [UStartAll; BLaunch "BTC"; BLaunch "ETH"; ATick].

(** The standalone runner reports that it is ready. *)
Definition runner_reports_ready : action :=
  EWrite "/pt/hub_data/runner_ready.json"
         (DJson (JObj [("timestamp", JNum 100); ("ready", JBool true); ("stage", JStr "real_predictions")])).

End FleetScenario.

Module SpawnScenario.
Import Sample.

(** [Popen] raises on the trainer script of ETH. *)
Definition os_broken : OS :=
  mkOS 100 files0 {["/pt"; "/pt/ETH"; "/pt/hub_data"]} ∅ {["/pt/ETH/pt_trainer.py"]} ∅ 1000
       "/usr/bin/python3" ∅.

End SpawnScenario.

(** The dict that [_training_status_map] fills, coin by coin. *)
Definition build (st : string → train_status) (cs : list string)
    (init : list (string * train_status)) : list (string * train_status) :=
  fold_left (λ out c, Dict.set c (st c) out) cs init.

(** * More of the hub: single-coin commands, status files, log readers

    The commands on one trainer and on all trainers, the reset of the
    training data of a coin, the status files written when the hub
    object is built, the folder map, the uptime text and the loop of a
    log reader.

    Further conventions.
    - The text of a Tk selector is an argument of the command that reads
      it.
    - [os.remove] fails on the paths on which a write fails ([unwritable]);
      removals are not logged as events.
    - [glob.glob] lists a folder in the order of the file table; the
      patterns of the hub hold at most one [*].
    - The loop of a reader thread is a function of the reads it has made;
      what it puts on the queue is its result. *)

(** ** Commands on one trainer and on all trainers *)

(** [stop_all_trainers]: the third step of [stop_all_scripts] on its
    own. *)
Definition stop_all_trainers : M unit :=
  try_pass (h ← get_hub; for_each (trainers h) (λ e, try_pass (stop_trainer_entry e))).

(** [stop_trainer_for_selected_coin]; [sel] is the text of
    [trainer_coin_var]. *)
Definition stop_trainer_for_selected_coin (sel : string) : M unit :=
  let coin := PyStr.upper (PyStr.strip sel) in
  h ← get_hub;
  match Dict.get coin (trainers h) with
  | Some lp => stop_trainer_entry (coin, lp)
  | None => mret tt
  end.

(** [start_trainer_for_selected_coin]; [sel] is the text of
    [trainer_coin_var]. *)
Definition start_trainer_for_selected_coin (sel : string) : M unit :=
  let coin := PyStr.upper (PyStr.strip sel) in
  if negb (PyStr.nonempty coin) then mret tt
  else stop_neural;; _start_single_trainer coin.

Definition is_terminate (e : event) : bool :=
  match e with EvTerminate _ _ => true | _ => false end.

Definition is_spawn (e : event) : bool :=
  match e with EvSpawn _ _ _ _ => true | _ => false end.

(** The stop calls [stop_all_trainers] owes: one per trainer that is
    alive, in the order of the registry. *)
Definition live_trainer_stops (h : Hub) (o : OS) : list event :=
  flat_map (λ e : string * LogProc,
              match proc (info e.2) with
              | Some pid => if proc_alive o pid then [EvTerminate (WTrainer e.1) pid] else []
              | None => []
              end) (trainers h).

(** Every spawn in the trace is a spawn of [x]. *)
Definition spawns_only (x : who) (tr : list event) : Prop :=
  Forall (λ e, match e with EvSpawn y _ _ _ => y = x | _ => True end) tr.

(** The stop call [start_trainer_for_selected_coin] owes the standalone
    runner before it starts the trainer. *)
Definition runner_stop (h : Hub) (o : OS) (coin : string) : list event :=
  if PyStr.nonempty coin then
    match proc (proc_neural h) with
    | Some pid => if proc_alive o pid then [EvTerminate WNeural pid] else []
    | None => []
    end
  else [].

(** A process that polls as running keeps doing so. *)
Definition keeps_alive (o o' : OS) : Prop :=
  ∀ pid, proc_alive o pid = true → proc_alive o' pid = true.

(** Nothing has exited and nothing has come up. *)
Definition same_liveness (o o' : OS) : Prop :=
  ∀ pid, proc_alive o' pid = proc_alive o pid.

(** ** Sample states for the single-coin commands *)

Module CommandScenario.
Import Sample.

(** Start All was pressed and both coins have finished training since;
    the trader of an earlier start is still up as process 5. *)
Definition hub_armed : Hub :=
  set_after_training true
    (set_proc_trader (mkProcInfo "Trader" "/pt/pt_trader.py" (Some 5%Z) (Some 91%Z)) hub0).

Definition os_trader_up : OS :=
  mkOS 100 files_trained {["/pt"; "/pt/ETH"; "/pt/hub_data"]} ∅ ∅ {[5%Z := PRunning]} 1000
       "/usr/bin/python3" ∅.

Definition armed : World := mkWorld hub_armed os_trader_up.

(** The fleet poll is due, the standalone runner is up and has written
    ready = true. *)
Definition os_ready : OS :=
  mkOS 100 (<["/pt/hub_data/runner_ready.json" := ready_file true]> files0)
       {["/pt"; "/pt/ETH"; "/pt/hub_data"]} ∅ ∅ {[7%Z := PRunning]} 1000
       "/usr/bin/python3" ∅.

Definition polling_ready : World := mkWorld Scenario.hub_polling os_ready.

End CommandScenario.

(** ** The fleet start *)

(** Every spawn in the trace is the spawn of the runner of a coin in
    [cs]. *)
Definition spawns_runners_of (cs : list string) (tr : list event) : Prop :=
  Forall (λ e, match e with
               | EvSpawn y _ _ _ => ∃ c, c ∈ cs ∧ y = WRunner (PyStr.upper (PyStr.strip c))
               | _ => True
               end) tr.

(** What a runner start leaves alone in the hub. *)
Definition same_sequence_state (h h' : Hub) : Prop :=
  _auto_start_trader_pending h' = _auto_start_trader_pending h
  ∧ _trader_poll_count h' = _trader_poll_count h
  ∧ timers h' = timers h
  ∧ proc_trader h' = proc_trader h
  ∧ proc_neural h' = proc_neural h.

(** ** Who is training *)

(** The second loop of [_running_trainers] for one coin: the folder of
    the coin exists, its status artifact states TRAINING, and the
    completion timestamp is not as new as the status artifact. *)
Definition status_says_training (h : Hub) (o : OS) (coin : string) : bool :=
  let folder := default "" (coin_folders h !! coin) in
  if negb (PyStr.nonempty folder) || negb (isdir o folder) then false
  else
    let status_path := PyStr.join folder "trainer_status.json" in
    match _safe_read_json o status_path with
    | Some (JObj kv) =>
        bool_decide (state_of (JObj kv) = "TRAINING")
        && match file_mtime o (PyStr.join folder "trainer_last_training_time.txt"),
                 file_mtime o status_path with
           | Some ms, Some mt => negb (mt <=? ms)%Z
           | _, _ => true
           end
    | _ => false
    end.

(** A coin name as the hub normalises it. *)
Definition coin_name (c : string) : string := PyStr.upper (PyStr.strip c).

(** ** Clearing training data *)

(** The patterns of [_clear_training_data], in its order. *)
Definition training_patterns : list string :=
  ["trainer_last_training_time.txt";
   "trainer_status.json";
   "trainer_last_start_time.txt";
   "killer.txt";
   "memories_*.txt";
   "memory_weights_*.txt";
   "memory_weights_high_*.txt";
   "memory_weights_low_*.txt";
   "neural_perfect_threshold_*.txt"].

(** A pattern at its first [*]: the text before and the text after. *)
Fixpoint split_star (pat : string) : option (string * string) :=
  match pat with
  | EmptyString => None
  | String a r =>
      if bool_decide (a = "*"%char) then Some (EmptyString, r)
      else match split_star r with
           | Some (pre, suf) => Some (String a pre, suf)
           | None => None
           end
  end.

(** [fnmatch] of a file name against a pattern with at most one [*] and
    no other wildcard, as all of [training_patterns] are. *)
Definition glob_match (pat name : string) : bool :=
  match split_star pat with
  | None => bool_decide (name = pat)
  | Some (pre, suf) =>
      let n := String.length name in
      let k := String.length suf in
      (String.length pre + k <=? n)%nat
      && String.prefix pre name
      && bool_decide (String.substring (n - k) k name = suf)
  end.

Fixpoint has_slash (s : string) : bool :=
  match s with
  | EmptyString => false
  | String a r => bool_decide (a = "/"%char) || has_slash r
  end.

(** The folder [d] as a prefix of the paths of its entries. *)
Definition folder_prefix (d : string) : string :=
  if negb (PyStr.nonempty d) || PyStr.ends_with_slash d then d else d +:+ "/".

(** The name of [p] in folder [d], when [p] is directly in [d]. *)
Definition child_name (d p : string) : option string :=
  let base := folder_prefix d in
  if String.prefix base p then
    let n := String.substring (String.length base)
                              (String.length p - String.length base) p in
    if PyStr.nonempty n && negb (has_slash n) then Some n else None
  else None.

(** The path [p] is what [glob.glob(os.path.join(d, pat))] can return. *)
Definition glob_hit (d pat p : string) : bool :=
  match split_star pat with
  | None => bool_decide (p = PyStr.join d pat)
  | Some _ =>
      match child_name d p with
      | Some n => glob_match pat n
      | None => false
      end
  end.

(** [glob.glob(os.path.join(d, pat))] for a folder [d] whose path holds no
    wildcard: files and folders alike, in the order the folder lists
    them. *)
Definition glob (o : OS) (d pat : string) : list string :=
  match split_star pat with
  | None =>
      let p := PyStr.join d pat in
      if isfile o p || isdir o p then [p] else []
  | Some _ =>
      if isdir o d then
        List.filter (glob_hit d pat)
                    (map fst (map_to_list (files o)) ++ elements (dirs o))
      else []
  end.

(** [os.remove(p)]: raises on a path that is no file, and on a file the
    operating system protects (the paths of [unwritable]). *)
Definition os_remove (p : string) : M unit :=
  o ← get_os;
  if isfile o p && negb (cannot_write o p)
  then mod_os (with_files (delete p (files o)))
  else raise OSError.

(** [try: os.remove(fp); deleted += 1  except Exception: pass] *)
Definition remove_counted (fp : string) (deleted : Z) : M Z :=
  try_except (os_remove fp;; mret (deleted + 1)%Z) (mret deleted).

(** The inner loop of [_clear_training_data]. *)
Fixpoint remove_all (fps : list string) (deleted : Z) : M Z :=
  match fps with
  | [] => mret deleted
  | fp :: r => d ← remove_counted fp deleted; remove_all r d
  end.

(** Its outer loop. *)
Fixpoint clear_patterns (coin_cwd : string) (pats : list string) (deleted : Z) : M Z :=
  match pats with
  | [] => mret deleted
  | pat :: r =>
      o ← get_os;
      d ← remove_all (glob o coin_cwd pat) deleted;
      clear_patterns coin_cwd r d
  end.

Definition _clear_training_data (coin0 : string) : M Z :=
  let coin := PyStr.upper (PyStr.strip coin0) in
  h ← get_hub;
  let coin_cwd := default (project_dir h) (coin_folders h !! coin) in
  clear_patterns coin_cwd training_patterns 0%Z.

(** The path is one of the training files of the folder. *)
Definition is_training_file (d p : string) : bool :=
  existsb (λ pat, glob_hit d pat p) training_patterns.

(** [reset_and_train_selected]; [sel] is the text of [train_coin_var]
    and [sel_trainer] that of [trainer_coin_var]. *)
Definition reset_and_train_selected (sel sel_trainer : string) : M unit :=
  let coin := PyStr.upper (PyStr.strip sel) in
  if negb (PyStr.nonempty coin) then mret tt
  else
    _clear_training_data coin;;
    start_trainer_for_selected_coin sel_trainer.

Module ResetScenario.
Import Sample.

(** The folder of ETH after a training: status, timestamp, three memory
    files, the marker of a saved model, and a note of the user. *)
Definition files_eth : gmap string file :=
  <["/pt/ETH/memories_1hour.txt" := File 90 DOpaque]>
  (<["/pt/ETH/memory_weights_1hour.txt" := File 90 DOpaque]>
  (<["/pt/ETH/memory_weights_high_1hour.txt" := File 90 DOpaque]>
  (<["/pt/ETH/trained_model_saved.txt" := File 90 DOpaque]>
  (<["/pt/ETH/notes.txt" := File 90 DOpaque]> files_trained)))).

Definition os_eth : OS :=
  mkOS 100 files_eth {["/pt"; "/pt/ETH"; "/pt/hub_data"]} ∅ ∅ ∅ 1000 "/usr/bin/python3" ∅.

Definition trained_eth : World := mkWorld hub0 os_eth.

End ResetScenario.

(** What a run of removals did: [n' - n] files are gone, each of them
    one that [P] holds for and that is not protected; nothing else has
    changed. *)
Definition cleared (P : string → Prop) (o o' : OS) (n n' : Z) : Prop :=
  o' = with_files (files o') o
  ∧ files o' ⊆ files o
  ∧ (n' - n = Z.of_nat (size (files o)) - Z.of_nat (size (files o')))%Z
  ∧ ∀ p, isfile o p = true → isfile o' p = false → P p ∧ cannot_write o p = false.

(** ** Status files at start-up *)

(** [os.replace(src, dst)]: the file moves with its content and mtime. *)
Definition os_replace (src dst : string) : M unit :=
  o ← get_os;
  match files o !! src with
  | Some f =>
      if cannot_write o dst || isdir o dst then raise OSError
      else mod_os (with_files (<[dst := f]> (delete src (files o))));;
           emit (EvWrite dst (f_data f))
  | None => raise OSError
  end.

Definition _safe_write_json (p : string) (data : json) : M unit :=
  let tmp := p +:+ ".tmp" in
  write_file tmp (DJson data);;
  os_replace tmp p.

(** [{"state": "NOT_TRAINED"}] *)
Definition not_trained_record : json := JObj [("state", JStr "NOT_TRAINED")].

(** [d.get(k) or dflt] *)
Definition get_or (x : option string) (dflt : string) : string :=
  match x with
  | Some s => if PyStr.nonempty s then s else dflt
  | None => dflt
  end.

(** The folder the seeding loop of [__init__] uses for a coin. *)
Definition seed_folder (h : Hub) (coin : string) : string :=
  get_or (coin_folders h !! PyStr.upper (PyStr.strip coin))
         (get_or (coin_folders h !! coin) (project_dir h)).

(** The body of the seeding loop of [__init__]. *)
Definition seed_coin (coin : string) : M unit :=
  try_pass
    (h ← get_hub; o ← get_os;
     let folder := seed_folder h coin in
     if negb (PyStr.nonempty folder) then mret tt
     else
       let status_path := PyStr.join folder "trainer_status.json" in
       when (negb (isfile o status_path))
         (try_pass (makedirs folder);;
          try_pass (write_file status_path (DJson not_trained_record)))).

(** [__init__]: a status file for every coin that has none. *)
Definition seed_status_files : M unit :=
  try_pass (h ← get_hub; for_each (coins h) seed_coin).

(** What the seeding did: folders may have been created; every file is
    still there as it was; a new file holds the NOT_TRAINED record. *)
Definition seeded (o o' : OS) : Prop :=
  o' = with_dirs (dirs o') (with_files (files o') o)
  ∧ files o ⊆ files o'
  ∧ ∀ q f, files o' !! q = Some f →
      files o !! q = Some f ∨ f = File (now o) (DJson not_trained_record).

(** The status file the normalisation of [__init__] looks at for a
    coin. *)
Definition startup_status_path (h : Hub) (coin : string) : string :=
  PyStr.join (get_or (coin_folders h !! PyStr.upper (PyStr.strip coin)) (project_dir h))
             "trainer_status.json".

(** The body of the normalisation loop of [__init__]. *)
Definition normalize_coin (coin : string) : M unit :=
  try_pass
    (h ← get_hub; o ← get_os;
     let status_path := startup_status_path h coin in
     match _safe_read_json o status_path with
     | Some (JObj kv) =>
         when (bool_decide (state_of (JObj kv) = "TRAINING"))
           (try_pass (_safe_write_json status_path not_trained_record))
     | _ => mret tt
     end).

(** [__init__]: a status file that states TRAINING is reset to
    NOT_TRAINED. *)
Definition normalize_stray_training : M unit :=
  try_pass (h ← get_hub; for_each (coins h) normalize_coin).

(** The file at [p] is a JSON object that states TRAINING. *)
Definition states_training (o : OS) (p : string) : bool :=
  match _safe_read_json o p with
  | Some (JObj kv) => bool_decide (state_of (JObj kv) = "TRAINING")
  | _ => false
  end.

(** The normalisation can replace the status file of the coin. *)
Definition can_replace_status (h : Hub) (o : OS) (coin : string) : Prop :=
  cannot_write o (startup_status_path h coin) = false
  ∧ cannot_write o (startup_status_path h coin +:+ ".tmp") = false
  ∧ isdir o (startup_status_path h coin) = false.

Fixpoint last_char (s : string) : option ascii :=
  match s with
  | EmptyString => None
  | String a EmptyString => Some a
  | String _ r => last_char r
  end.

(** What the normalisation did to the files: it touched paths ending in
    [p] (the temporary files), and it replaced files with a path ending
    in [n] that stated TRAINING by the NOT_TRAINED record. *)
Definition normalised (o o' : OS) : Prop :=
  o' = with_files (files o') o
  ∧ ∀ q, files o' !! q = files o !! q
         ∨ (last_char q = Some "p"%char)
         ∨ (last_char q = Some "n"%char
            ∧ states_training o q = true
            ∧ ∃ t, files o' !! q = Some (File t (DJson not_trained_record))).

Module StartupScenario.
Import Sample.

(** ETH was training when the last session ended. *)
Definition os_stray : OS :=
  mkOS 100 (<["/pt/ETH/trainer_status.json" := status "TRAINING"]> files0)
       {["/pt"; "/pt/ETH"; "/pt/hub_data"]} ∅ ∅ ∅ 1000 "/usr/bin/python3" ∅.

Definition stray : World := mkWorld hub0 os_stray.

End StartupScenario.

(** ** Uptime *)

(** [str(n)] for an integer. *)
Definition py_str_int (n : Z) : string := NilZero.string_of_int (Z.to_int n).

(** [f"{n:02d}"] for [0 ≤ n]. *)
Definition pad2 (n : Z) : string :=
  if (n <? 10)%Z then "0" +:+ py_str_int n else py_str_int n.

(** The three [divmod]s of [_fmt_uptime]: days, hours, minutes,
    seconds. *)
Definition uptime_parts (seconds : Z) : Z * Z * Z * Z :=
  let s := Z.max 0 seconds in
  let days := (s / 86400)%Z in
  let rem := (s mod 86400)%Z in
  let hours := (rem / 3600)%Z in
  let rem := (rem mod 3600)%Z in
  let mins := (rem / 60)%Z in
  let secs := (rem mod 60)%Z in
  (days, hours, mins, secs).

Definition _fmt_uptime (seconds : Z) : string :=
  let '(days, hours, mins, secs) := uptime_parts seconds in
  if (0 <? days)%Z
  then py_str_int days +:+ "d " +:+ pad2 hours +:+ ":" +:+ pad2 mins +:+ ":" +:+ pad2 secs
  else py_str_int hours +:+ ":" +:+ pad2 mins +:+ ":" +:+ pad2 secs.

(** The text [_refresh_trader_status] puts on the uptime label. *)
Definition trader_uptime_text (h : Hub) (o : OS) : string :=
  if is_running o (proc_trader h) then
    match start_time (proc_trader h) with
    | Some t => "Trader uptime: " +:+ _fmt_uptime (now o - t)
    | None => "Trader uptime: stopped"
    end
  else "Trader uptime: stopped".

(** ** The folder of each coin *)

(** [str((md / c).resolve(strict=False))] for a coin name, which holds
    no path syntax. *)
Definition path_child (md c : string) : string :=
  if PyStr.nonempty c then PyStr.join md c else md.

(** The auto-detection step of [build_coin_folders] for one entry [p] of
    the main folder. *)
Definition detect_folder (md : string) (coins : list string)
    (out : gmap string string) (p : string) : gmap string string :=
  match child_name md p with
  | Some name =>
      let sym := PyStr.strip (PyStr.upper name) in
      if bool_decide (sym ∈ coins) && bool_decide (sym ≠ "BTC")
      then <[sym := p]> out else out
  | None => out
  end.

(** Its fallback step for one configured coin. *)
Definition fallback_folder (md : string) (out : gmap string string) (c0 : string)
  : gmap string string :=
  let c := PyStr.strip (PyStr.upper c0) in
  match out !! c with
  | Some _ => out
  | None => <[c := path_child md c]> out
  end.

(** [build_coin_folders(main_dir, coins)], with [md] the resolved
    absolute main folder.  [md.iterdir()] lists the folders directly in
    [md]; files are skipped by the loop. *)
Definition build_coin_folders (o : OS) (md : string) (coins : list string)
  : gmap string string :=
  let out : gmap string string := {["BTC" := md]} in
  let out :=
    if isdir o md then fold_left (detect_folder md coins) (elements (dirs o)) out
    else out in
  fold_left (fallback_folder md) coins out.

(** Where the folder of a coin can come from. *)
Definition folder_origin (o : OS) (md : string) (coins : list string)
    (k v : string) : Prop :=
  (k = "BTC" ∧ v = md)
  ∨ (k ∈ coins ∧ k ≠ "BTC" ∧ isdir o v = true
     ∧ ∃ name, child_name md v = Some name ∧ PyStr.strip (PyStr.upper name) = k)
  ∨ (k ≠ "BTC" ∧ v = path_child md k ∧ ∃ c, c ∈ coins ∧ PyStr.strip (PyStr.upper c) = k).

(** ** Log readers *)

(** What one turn of the loop of [_reader_thread] meets: the text
    [readline()] returns together with what [poll()] would say then
    (asked only when the text is empty), or [None] when the read
    raises. *)
Definition read_result : Type := option (string * bool).

(** The [while True] loop over the reads that have happened so far: the
    items put on the queue, and whether the loop has been left. *)
Fixpoint reader_loop (prefix : string) (reads : list read_result) : list string * bool :=
  match reads with
  | [] => ([], false)
  | None :: _ => ([], true)
  | Some (line, exited) :: r =>
      if negb (PyStr.nonempty line) then
        if exited then ([], true) else reader_loop prefix r
      else
        let '(q, done_) := reader_loop prefix r in
        ((prefix +:+ PyStr.rstrip line) :: q, done_)
  end.

Definition exit_marker (prefix : string) : string := prefix +:+ "[process exited]".

(** [_reader_thread]: the loop, and the marker of the [finally] clause
    once the loop has been left. *)
Definition _reader_thread (prefix : string) (reads : list read_result)
  : list string * bool :=
  let '(q, done_) := reader_loop prefix reads in
  (if done_ then q ++ [exit_marker prefix] else q, done_).

(** The lines among the reads, in order: the reads that returned text. *)
Definition lines_read (reads : list read_result) : list string :=
  omap (λ r : read_result,
          match r with
          | Some (line, _) => if PyStr.nonempty line then Some line else None
          | None => None
          end) reads.

(** The read that makes the loop leave: nothing was read and the process
    has exited, or the read raised. *)
Definition ends_loop (r : read_result) : bool :=
  match r with
  | None => true
  | Some (line, exited) => negb (PyStr.nonempty line) && exited
  end.

(** The reads up to the first that ends the loop. *)
Fixpoint reads_taken (reads : list read_result) : list read_result :=
  match reads with
  | [] => []
  | r :: rest => if ends_loop r then [] else r :: reads_taken rest
  end.

(** * Proofs *)

Ltac munfold :=
  cbv beta iota delta
    [mbind M_bind bind mret M_ret ret get_hub get_os mod_hub mod_os emit raise
     try_pass try_except when after assign_pending time_time world_of events_of
     returned].

Ltac in_events := rewrite ?elem_of_app, ?elem_of_cons; naive_solver.

Lemma only_writes_nil : only_writes [].
Proof. intros e H. by apply elem_of_nil in H. Qed.

Lemma only_writes_one p d : only_writes [EvWrite p d].
Proof. intros e H. apply list_elem_of_singleton in H. eauto. Qed.

Lemma only_writes_no_popen tr x argv : only_writes tr → EvPopenFailed x argv ∉ tr.
Proof. intros Hw Hin. destruct (Hw _ Hin) as (p & d & ?). discriminate. Qed.

Lemma only_writes_no_spawn tr x argv cwd pid : only_writes tr → EvSpawn x argv cwd pid ∉ tr.
Proof. intros Hw Hin. destruct (Hw _ Hin) as (p & d & ?). discriminate. Qed.

(** Membership of an event in a trace given by its parts. *)
Ltac split_mem H :=
  repeat match type of H with
  | _ ∈ _ ++ _ => apply elem_of_app in H as [H|H]
  | _ ∈ _ :: _ => apply elem_of_cons in H as [H|H]
  | _ ∈ [] => apply elem_of_nil in H; contradiction
  | _ = _ => discriminate H
  | _ ∈ _ =>
      exfalso;
      first [ eapply only_writes_no_popen; eassumption
            | eapply only_writes_no_spawn; eassumption ]
  end.

Lemma app_two_assoc {A} (l : list A) x y t : l ++ x :: y :: t = (l ++ [x; y]) ++ t.
Proof. by rewrite <- app_assoc. Qed.

(** ** Spawn failure *)

Lemma seed_coin_folder_spec coin cwd n w :
  ∃ o' tr, seed_coin_folder coin cwd n w = Done tt (mkWorld (hub w) o') tr
           ∧ procs o' = procs (os w) ∧ next_pid o' = next_pid (os w)
           ∧ popen_broken o' = popen_broken (os w)
           ∧ only_writes tr.
Proof.
  destruct w as [h o]. unfold seed_coin_folder, makedirs, copy2. munfold. simpl.
  destruct (bool_decide (coin ≠ "BTC")); simpl.
  2:{ exists o, []. auto using only_writes_nil. }
  destruct (isdir o cwd); simpl.
  - destruct (isfile o _); simpl.
    + destruct (files o !! _); simpl.
      * destruct (_ || _); simpl; eexists _, _; (split; [reflexivity|]); simpl;
          auto using only_writes_nil, only_writes_one.
      * eexists _, _; (split; [reflexivity|]); auto using only_writes_nil.
    + eexists _, _; (split; [reflexivity|]); auto using only_writes_nil.
  - destruct (cannot_write o cwd); simpl.
    + eexists _, _; (split; [reflexivity|]); auto using only_writes_nil.
    + destruct (isfile _ _); simpl.
      * destruct (files o !! _); simpl.
        -- destruct (_ || _); simpl; eexists _, _; (split; [reflexivity|]); simpl;
          auto using only_writes_nil, only_writes_one.
        -- eexists _, _; (split; [reflexivity|]); auto using only_writes_nil.
      * eexists _, _; (split; [reflexivity|]); auto using only_writes_nil.
Qed.

Lemma start_process_atomic m lq pre w :
  popen_failed (_start_process m lq pre w) →
  atomic_failure w (_start_process m lq pre w).
Proof.
  unfold popen_failed, atomic_failure, no_spawn, same_handles, _start_process, Popen.
  munfold. destruct w as [h o]; simpl.
  destruct (is_running o (get_main m h)); simpl.
  { intros (x & argv & H). split_mem H. }
  destruct (isfile o (path (get_main m h))); simpl.
  2:{ intros (x & argv & H). split_mem H. }
  destruct (popen_raises _ _ || _); simpl.
  - intros _. repeat split; [in_events|]. intros x argv cwd pid H. split_mem H.
  - intros (x & argv & H). destruct lq; simpl in H; split_mem H.
Qed.

Lemma start_neural_for_coin_atomic c w :
  popen_failed (start_neural_for_coin c w) →
  atomic_failure w (start_neural_for_coin c w).
Proof.
  unfold popen_failed, atomic_failure, no_spawn, same_handles, start_neural_for_coin.
  destruct (PyStr.nonempty _); simpl.
  2:{ munfold. simpl. intros (x & argv & H). split_mem H. }
  munfold.
  destruct (seed_coin_folder_spec (PyStr.upper (PyStr.strip c))
              (default (project_dir (hub w)) (coin_folders (hub w) !! PyStr.upper (PyStr.strip c)))
              (PyStr.basename (script_neural_runner2 (settings (hub w)))) w)
    as (o' & tr & Heq & Hp & Hn & Hb & Hw).
  rewrite Heq. simpl.
  destruct (resolve_script _ _ _ _ _) as [rp|]; simpl.
  2:{ intros (x & argv & H). split_mem H. }
  destruct (neural_runners (hub w)) as [runners|]; simpl.
  - destruct (Dict.get _ runners) as [lp|]; simpl.
    + unfold LogProc_proc. munfold. simpl. intros (x & argv & H). split_mem H.
    + unfold Popen. simpl. destruct (popen_raises _ _ || _); simpl.
      * intros _. rewrite Hp, Hn. repeat split.
        -- in_events.
        -- intros x argv cwd pid H. split_mem H.
      * intros (x & argv & H). split_mem H.
  - unfold Popen. simpl. destruct (popen_raises _ _ || _); simpl.
      * intros _. rewrite Hp, Hn. repeat split.
        -- in_events.
        -- intros x argv cwd pid H. split_mem H.
      * intros (x & argv & H). split_mem H.
Qed.

Lemma start_single_trainer_atomic c w :
  popen_failed (_start_single_trainer c w) →
  atomic_failure w (_start_single_trainer c w).
Proof.
  unfold popen_failed, atomic_failure, no_spawn, same_handles, _start_single_trainer,
    write_file.
  destruct (PyStr.nonempty _); simpl.
  2:{ munfold. simpl. intros (x & argv & H). split_mem H. }
  munfold.
  destruct (seed_coin_folder_spec (PyStr.upper (PyStr.strip c))
              (default (project_dir (hub w)) (coin_folders (hub w) !! PyStr.upper (PyStr.strip c)))
              (PyStr.basename (script_neural_trainer (settings (hub w)))) w)
    as (o' & tr & Heq & Hp & Hn & Hb & Hw).
  rewrite Heq. simpl.
  destruct (resolve_script _ _ _ _ _) as [rp|]; simpl.
  2:{ intros (x & argv & H). split_mem H. }
  destruct (match Dict.get _ (trainers (hub w)) with Some lp => _ | None => false end); simpl.
  { intros (x & argv & H). split_mem H. }
  unfold Popen. simpl. destruct (popen_raises _ _ || _); simpl.
  - intros _. rewrite Hp, Hn. repeat split.
    + in_events.
    + intros x argv cwd pid H. split_mem H.
  - intros (x & argv & H). destruct (cannot_write _ _); simpl in H; split_mem H.
Qed.

(** ** The readiness poll *)

Lemma read_runner_ready_spec w :
  ∃ st, _read_runner_ready w = Done st w (read_events (hub w) (os w))
        ∧ ready_flag st = runner_ready (hub w) (os w).
Proof.
  destruct w as [h o].
  unfold _read_runner_ready, json_load, read_file, read_events, runner_ready, isfile.
  munfold. simpl.
  destruct (files o !! runner_ready_path h) as [f|] eqn:E; simpl; rewrite ?E; simpl.
  - destruct (parse_json (f_data f)) as [j|]; simpl.
    + destruct j; simpl; rewrite ?E; simpl; eexists; split; reflexivity.
    + eexists; split; reflexivity.
  - eexists; split; reflexivity.
Qed.

Lemma start_process_returns m lq pre w :
  ∃ w' tr, _start_process m lq pre w = Done tt w' tr.
Proof.
  destruct w as [h o]. unfold _start_process, Popen. munfold. simpl.
  destruct (is_running _ _); simpl; [eauto|].
  destruct (isfile _ _); simpl; [|eauto].
  destruct (_ || _); simpl; [eauto|].
  destruct lq; simpl; eauto.
Qed.

Lemma for_each_start_trader_returns cs w :
  ∃ w' tr, for_each cs start_trader_for_coin w = Done tt w' tr.
Proof.
  revert w. induction cs as [|c cs IH]; intros w; simpl.
  - unfold ret. eauto.
  - unfold bind.
    change (start_trader_for_coin c w) with (_start_process PTrader true "[TRADER] " w).
    destruct (start_process_returns PTrader true "[TRADER] " w) as (w1 & t1 & ->).
    destruct (IH w1) as (w2 & t2 & ->). eauto.
Qed.

Lemma start_trader_running w :
  is_running (os w) (proc_trader (hub w)) = true →
  start_trader w = Done tt w [].
Proof.
  destruct w as [h o]. unfold start_trader, _start_process. munfold. simpl.
  by intros ->.
Qed.

Lemma start_trader_starts w :
  trader_can_start (hub w) (os w) →
  ∃ w' tr, start_trader w = Done tt w' tr
           ∧ is_running (os w') (proc_trader (hub w')) = true.
Proof.
  intros [Hr|(Hf & Hb & Hd)].
  { exists w, []. by rewrite start_trader_running. }
  destruct w as [h o]. unfold start_trader, _start_process, Popen. munfold. simpl in *.
  destruct (is_running o (proc_trader h)) eqn:Hr; simpl.
  { eexists _, _. split; [reflexivity|]. by simpl. }
  rewrite Hf. simpl. rewrite Hb, Hd. simpl.
  eexists _, _. split; [reflexivity|]. simpl.
  unfold is_running, proc_alive. simpl. by rewrite lookup_insert_eq.
Qed.

Lemma start_trader_keeps_pending w :
  _auto_start_trader_pending (hub (world_of (start_trader w)))
  = _auto_start_trader_pending (hub w).
Proof.
  destruct w as [h o]. unfold start_trader, _start_process, Popen. munfold. simpl.
  destruct (is_running _ _); simpl; [done|].
  destruct (isfile _ _); simpl; [|done].
  destruct (_ || _); simpl; done.
Qed.

Lemma for_each_start_trader_running cs w :
  is_running (os w) (proc_trader (hub w)) = true →
  for_each cs start_trader_for_coin w = Done tt w [].
Proof.
  intros Hr. induction cs as [|c cs IH]; simpl; [done|].
  unfold bind.
  change (start_trader_for_coin c w) with (start_trader w).
  by rewrite start_trader_running, IH.
Qed.

Lemma for_each_start_trader_keeps_pending cs w :
  _auto_start_trader_pending (hub (world_of (for_each cs start_trader_for_coin w)))
  = _auto_start_trader_pending (hub w).
Proof.
  revert w. induction cs as [|c cs IH]; intros w; simpl; [done|].
  unfold bind.
  change (start_trader_for_coin c w) with (start_trader w).
  pose proof (start_trader_keeps_pending w) as Hk.
  destruct (start_process_returns PTrader true "[TRADER] " w) as (w1 & t1 & Heq).
  change (_start_process PTrader true "[TRADER] " w) with (start_trader w) in Heq.
  rewrite Heq in *. simpl in Hk. rewrite <- Hk.
  specialize (IH w1).
  destruct (for_each_start_trader_returns cs w1) as (w2 & t2 & Heq2).
  rewrite Heq2 in *. exact IH.
Qed.

Lemma start_traders_returns cb w :
  ∃ w' tr, start_traders cb w = Done tt w' tr.
Proof.
  assert (Hsingle : ∃ w' tr,
            (h ← get_hub; o ← get_os;
             when (negb (is_running o (proc_trader h))) start_trader) w = Done tt w' tr).
  { munfold. simpl. destruct (is_running _ _); simpl; [eauto|].
    destruct (start_process_returns PTrader true "[TRADER] " w) as (w1 & t1 & Heq).
    change (_start_process PTrader true "[TRADER] " w) with (start_trader w) in Heq.
    rewrite Heq. eauto. }
  destruct cb; simpl; [exact Hsingle|exact Hsingle|apply for_each_start_trader_returns].
Qed.

Lemma start_traders_keeps_pending cb w :
  _auto_start_trader_pending (hub (world_of (start_traders cb w)))
  = _auto_start_trader_pending (hub w).
Proof.
  assert (Hsingle :
    _auto_start_trader_pending (hub (world_of
      ((h ← get_hub; o ← get_os;
        when (negb (is_running o (proc_trader h))) start_trader) w)))
    = _auto_start_trader_pending (hub w)).
  { munfold. simpl. destruct (is_running _ _); simpl; [done|].
    pose proof (start_trader_keeps_pending w) as Hk.
    destruct (start_trader w); exact Hk. }
  destruct cb; simpl; [exact Hsingle|exact Hsingle|apply for_each_start_trader_keeps_pending].
Qed.

Lemma start_traders_starts cb w :
  wants_trader cb = true →
  trader_can_start (hub w) (os w) →
  is_running (os (world_of (start_traders cb w)))
             (proc_trader (hub (world_of (start_traders cb w)))) = true.
Proof.
  intros Hw Hc.
  assert (Hsingle :
    is_running
      (os (world_of ((h ← get_hub; o ← get_os;
                      when (negb (is_running o (proc_trader h))) start_trader) w)))
      (proc_trader (hub (world_of ((h ← get_hub; o ← get_os;
                      when (negb (is_running o (proc_trader h))) start_trader) w))))
    = true).
  { munfold. simpl. destruct (is_running (os w) (proc_trader (hub w))) eqn:Hr; simpl; [done|].
    destruct (start_trader_starts w Hc) as (w1 & t1 & -> & Hr1). exact Hr1. }
  destruct cb as [| |cs]; simpl; [exact Hsingle|exact Hsingle|].
  destruct cs as [|c cs]; [done|]. simpl. unfold bind.
  change (start_trader_for_coin c w) with (start_trader w).
  destruct (start_trader_starts w Hc) as (w1 & t1 & -> & Hr).
  by rewrite for_each_start_trader_running.
Qed.

(** A tick of either poll that finds the runner alive and the artifact
    not ready, with attempts left: the counter goes up and the poll is
    scheduled again in 250 ms. *)
Lemma poll_tick_waits cb h o :
  is_poll cb = true →
  _auto_start_trader_pending h = true →
  dependency_up h o →
  (default 0 (_trader_poll_count h) + 1 ≤ 20)%Z →
  run_callback cb (mkWorld h o)
  = Done (Some Waiting) (mkWorld (waited cb (default 0 (_trader_poll_count h) + 1)%Z h) o)
      (read_events h o ++ [EvAfter 250 cb]).
Proof.
  intros Hcb Hp [Hr Hn] Hc.
  destruct (read_runner_ready_spec (mkWorld h o)) as (st & Hrd & Hst). simpl in *.
  destruct cb as [| |cs]; [done| |];
    unfold run_callback, _poll_runner_ready_then_start_trader,
      _poll_runner_ready_then_start_trader_for_coins, bump_poll_count;
    munfold; simpl; rewrite Hp, Hr; simpl; rewrite Hrd; simpl; rewrite Hst, Hn; simpl;
    (destruct (20 <? _)%Z eqn:E; [apply Z.ltb_lt in E; lia|]);
    simpl; rewrite ?app_nil_r; reflexivity.
Qed.

(** The tick on which the counter exceeds 20: the pending flag is
    cleared and the trader is started. *)
Lemma poll_tick_times_out cb h o :
  is_poll cb = true →
  _auto_start_trader_pending h = true →
  dependency_up h o →
  (20 < default 0 (_trader_poll_count h) + 1)%Z →
  let w1 := mkWorld (timed_out (default 0 (_trader_poll_count h) + 1)%Z h) o in
  ∃ msg,
    run_callback cb (mkWorld h o)
    = Done (Some TimedOut) (world_of (start_traders cb w1))
        ((read_events h o ++ [EvPrint msg; EvPending false])
         ++ events_of (start_traders cb w1)).
Proof.
  intros Hcb Hp [Hr Hn] Hc w1.
  destruct (read_runner_ready_spec (mkWorld h o)) as (st & Hrd & Hst). simpl in *.
  destruct cb as [| |cs]; [done| |]; eexists;
    unfold run_callback, _poll_runner_ready_then_start_trader,
      _poll_runner_ready_then_start_trader_for_coins, bump_poll_count;
    munfold; simpl; rewrite Hp, Hr; simpl; rewrite Hrd; simpl; rewrite Hst, Hn; simpl;
    (destruct (20 <? _)%Z eqn:E; [|apply Z.ltb_ge in E; lia]);
    simpl; unfold w1, timed_out, start_traders; munfold; simpl.
  - destruct (is_running o (proc_trader h)) eqn:Ht; simpl.
    + rewrite ?app_nil_r, <- ?app_assoc. reflexivity.
    + match goal with |- context [start_trader ?w] =>
        destruct (start_process_returns PTrader true "[TRADER] " w) as (w2 & t2 & Hfe);
        change (_start_process PTrader true "[TRADER] " w) with (start_trader w) in Hfe
      end.
      rewrite Hfe. simpl. rewrite ?app_nil_r, <- ?app_assoc. reflexivity.
  - match goal with |- context [for_each cs start_trader_for_coin ?w] =>
      destruct (for_each_start_trader_returns cs w) as (w2 & t2 & Hfe)
    end.
    rewrite Hfe. simpl. rewrite ?app_nil_r, <- ?app_assoc. reflexivity.
Qed.

Lemma filter_after_reads h o : List.filter is_after (read_events h o) = [].
Proof. unfold read_events. by destruct (isfile _ _). Qed.

Section PollRun.

Variable env : nat → OS → OS.
Variable cb : callback.
Variable p_neural : ProcInfo.
Variable ready_path : string.

Hypothesis cb_is_poll : is_poll cb = true.

(** The rest of the system keeps the runner alive and never reports
    readiness. *)
Hypothesis env_keeps :
  ∀ k h o, same_gate p_neural ready_path h → dependency_up h o → dependency_up h (env k o).

Lemma dependency_up_same h h' o :
  same_gate p_neural ready_path h → same_gate p_neural ready_path h' →
  dependency_up h o → dependency_up h' o.
Proof.
  unfold same_gate, dependency_up, runner_ready. intros [-> ->] [-> ->]. done.
Qed.

Lemma poll_run_times_out (n : nat) : ∀ (k : nat) (h : Hub) (o : OS) (c : Z) ms fuel,
  same_gate p_neural ready_path h →
  timers h = [(ms, cb)] →
  _auto_start_trader_pending h = true →
  _trader_poll_count h = Some c →
  (0 ≤ c)%Z → (c + Z.of_nat n = 20)%Z →
  dependency_up h o →
  (n < fuel)%nat →
  ∃ trs,
    let o1 := env_upto env (S n) k o in
    dependency_up h o1 ∧
    let w1 := mkWorld (timed_out 21 (set_timers [] h)) o1 in
    poll_run env fuel k (mkWorld h o)
    = Done (Some TimedOut, (k + n + 1)%nat)
        (world_of (start_traders cb w1))
        (trs ++ events_of (start_traders cb w1))
    ∧ List.filter is_after trs = replicate n (EvAfter 250 cb).
Proof.
  induction n as [|n IH]; intros k h o c ms fuel Hg Ht Hp Hc H0 Hn Hd Hf.
  - destruct fuel as [|fuel]; [lia|]. simpl.
    assert (Hd' : dependency_up (set_timers [] h) (env k o)).
    { eapply dependency_up_same; [exact Hg| |apply env_keeps; auto]. exact Hg. }
    destruct (poll_tick_times_out cb (set_timers [] h) (env k o)) as (msg & Htick); auto.
    { simpl. rewrite Hc. simpl. lia. }
    simpl in Htick. rewrite Hc in Htick. simpl in Htick.
    replace (c + 1)%Z with 21%Z in Htick by lia.
    exists (read_events (set_timers [] h) (env k o) ++ [EvPrint msg; EvPending false]).
    split; [eapply dependency_up_same; [| |exact Hd']; done|].
    unfold fire_timer. munfold. simpl. rewrite Ht. simpl. rewrite Htick. simpl.
    replace (k + 0 + 1)%nat with (S k) by lia.
    split.
    + rewrite ?app_nil_r. reflexivity.
    + rewrite List.filter_app, filter_after_reads. reflexivity.
  - destruct fuel as [|fuel]; [lia|]. simpl.
    assert (Hd' : dependency_up (set_timers [] h) (env k o)).
    { eapply dependency_up_same; [exact Hg| |apply env_keeps; auto]. exact Hg. }
    pose proof (poll_tick_waits cb (set_timers [] h) (env k o) cb_is_poll Hp Hd') as Htick.
    simpl in Htick. rewrite Hc in Htick. simpl in Htick.
    specialize (Htick ltac:(lia)).
    unfold fire_timer. munfold. simpl. rewrite Ht. simpl. rewrite Htick. simpl.
    set (h1 := waited cb (c + 1) (set_timers [] h)).
    destruct (IH (S k) h1 (env k o) (c + 1)%Z 250%Z fuel) as (trs & Hd1 & Heq & Hfl);
      try done; try lia.
    exists ((read_events (set_timers [] h) (env k o) ++ [EvAfter 250 cb]) ++ trs).
    split; [eapply dependency_up_same; [| |exact Hd1]; done|].
    simpl in Heq. unfold mbind, M_bind, bind in Heq. rewrite Heq. simpl.
    replace (k + S n + 1)%nat with (S (k + n + 1))%nat by lia.
    split.
    + rewrite ?app_nil_r, <- ?app_assoc. reflexivity.
    + rewrite !List.filter_app, filter_after_reads. simpl.
      rewrite Hfl. reflexivity.
Qed.

End PollRun.



(** The liveness test of a poll tick comes before the read of the
    artifact: with the watched runner down the tick cancels without
    opening the file, and schedules nothing. *)
Lemma poll_checks_liveness_first cb h o :
  is_poll cb = true →
  _auto_start_trader_pending h = true →
  is_running o (proc_neural h) = false →
  run_callback cb (mkWorld h o)
  = Done (Some Cancelled) (mkWorld (set_pending false h) o)
      [EvPrint "[Hub] Neural runner is not running. Cancelling trader auto-start.";
       EvPending false].
Proof.
  intros Hcb Hp Hr.
  destruct cb as [| |cs]; [done| |];
    unfold run_callback, _poll_runner_ready_then_start_trader,
      _poll_runner_ready_then_start_trader_for_coins;
    munfold; simpl; rewrite Hp, Hr; reflexivity.
Qed.

(** ** The mtime caches *)

Lemma cached_stat_fails p loader dflt w :
  files (os w) !! p = None →
  _cached p loader dflt w = Done (dflt, None) w [].
Proof.
  destruct w as [h o]. intros Hf. unfold _cached, getmtime. munfold. simpl in *.
  rewrite Hf. reflexivity.
Qed.

Lemma cached_hit p loader dflt w f v :
  files (os w) !! p = Some f →
  _neural_overview_cache (hub w) !! p = Some (f_mtime f, v) →
  _cached p loader dflt w = Done (v, Some (f_mtime f)) w [].
Proof.
  destruct w as [h o]. intros Hf Hc. unfold _cached, getmtime. munfold. simpl in *.
  rewrite Hf. simpl. rewrite Hc. rewrite bool_decide_eq_true_2 by done. reflexivity.
Qed.

Lemma cached_miss p loader dflt w f v w1 tr :
  files (os w) !! p = Some f →
  stale (_neural_overview_cache (hub w)) p (f_mtime f) →
  loader p w = Done v w1 tr →
  _cached p loader dflt w = Done (v, Some (f_mtime f)) (cache_store p (f_mtime f) v w1) tr.
Proof.
  destruct w as [h o]. intros Hf Hs Hl. unfold _cached, getmtime, cache_store. munfold.
  simpl in *. rewrite Hf. simpl.
  destruct (_neural_overview_cache h !! p) as [[m v0]|] eqn:Hc.
  - destruct (bool_decide (m = f_mtime f)) eqn:Hm.
    + apply bool_decide_eq_true in Hm. subst m. by destruct (Hs v0).
    + rewrite Hl. simpl. by rewrite app_nil_r.
  - rewrite Hl. simpl. by rewrite app_nil_r.
Qed.

Lemma cached_miss_raises p loader dflt w f e w1 tr :
  files (os w) !! p = Some f →
  stale (_neural_overview_cache (hub w)) p (f_mtime f) →
  loader p w = Raised e w1 tr →
  _cached p loader dflt w = Raised e w1 tr.
Proof.
  destruct w as [h o]. intros Hf Hs Hl. unfold _cached, getmtime. munfold.
  simpl in *. rewrite Hf. simpl.
  destruct (_neural_overview_cache h !! p) as [[m v0]|] eqn:Hc.
  - destruct (bool_decide (m = f_mtime f)) eqn:Hm.
    + apply bool_decide_eq_true in Hm. subst m. by destruct (Hs v0).
    + rewrite Hl. reflexivity.
  - rewrite Hl. reflexivity.
Qed.

Lemma tick_read_stat_fails c w :
  files (os w) !! status_file (hub w) c = None →
  _tick_status_read c w = Done (JObj []) w [].
Proof.
  destruct w as [h o]. unfold status_file. intros Hf.
  unfold _tick_status_read, getmtime. munfold. simpl in *.
  rewrite Hf. reflexivity.
Qed.

Lemma tick_read_hit c w f data :
  files (os w) !! status_file (hub w) c = Some f →
  default ∅ (_trainer_status_cache (hub w)) !! c = Some (f_mtime f, data) →
  _tick_status_read c w = Done data w [].
Proof.
  destruct w as [h o]. unfold status_file. intros Hf Hc.
  unfold _tick_status_read, getmtime. munfold. simpl in *.
  rewrite Hf. simpl. rewrite Hc. rewrite bool_decide_eq_true_2 by done. reflexivity.
Qed.

Lemma tick_read_miss c w f st :
  files (os w) !! status_file (hub w) c = Some f →
  stale (default ∅ (_trainer_status_cache (hub w))) c (f_mtime f) →
  parse_json (f_data f) = Some st →
  _tick_status_read c w
  = Done st (status_store c (f_mtime f) st w) [EvRead (status_file (hub w) c)].
Proof.
  destruct w as [h o]. unfold status_file, status_store. intros Hf Hs Hp.
  unfold _tick_status_read, getmtime, json_load, read_file. munfold. simpl in *.
  rewrite Hf. simpl.
  destruct (default ∅ (_trainer_status_cache h) !! c) as [[m v0]|] eqn:Hc.
  - destruct (bool_decide (m = f_mtime f)) eqn:Hm.
    + apply bool_decide_eq_true in Hm. subst m. by destruct (Hs v0).
    + simpl. rewrite Hf. simpl. rewrite Hp. reflexivity.
  - simpl. rewrite Hf. simpl. rewrite Hp. reflexivity.
Qed.

Lemma tick_read_decode_fails c w f :
  files (os w) !! status_file (hub w) c = Some f →
  stale (default ∅ (_trainer_status_cache (hub w))) c (f_mtime f) →
  parse_json (f_data f) = None →
  _tick_status_read c w = Done (JObj []) w [EvRead (status_file (hub w) c)].
Proof.
  destruct w as [h o]. unfold status_file. intros Hf Hs Hp.
  unfold _tick_status_read, getmtime, json_load, read_file. munfold. simpl in *.
  rewrite Hf. simpl.
  destruct (default ∅ (_trainer_status_cache h) !! c) as [[m v0]|] eqn:Hc.
  - destruct (bool_decide (m = f_mtime f)) eqn:Hm.
    + apply bool_decide_eq_true in Hm. subst m. by destruct (Hs v0).
    + simpl. rewrite Hf. simpl. rewrite Hp. reflexivity.
  - simpl. rewrite Hf. simpl. rewrite Hp. reflexivity.
Qed.

Lemma cache_store_lookup p mtime v w :
  _neural_overview_cache (hub (cache_store p mtime v w)) !! p = Some (mtime, v).
Proof. unfold cache_store. simpl. apply lookup_insert_eq. Qed.



Lemma read_int_from_file_unreadable p w f :
  files (os w) !! p = Some f →
  parse_float (f_data f) = None →
  read_int_from_file p w = Done (JNum 0) w [EvRead p].
Proof.
  destruct w as [h o]. intros Hf Hp. unfold read_int_from_file, read_file. munfold.
  simpl in *. rewrite Hf. simpl. rewrite Hp. reflexivity.
Qed.

Lemma load_short_unreadable p w f :
  files (os w) !! p = Some f →
  parse_json (f_data f) = None →
  _load_short_from_memory_json p w = Done (JNum 0) w [EvRead p].
Proof.
  destruct w as [h o]. intros Hf Hp.
  unfold _load_short_from_memory_json, _safe_read_json_io, json_load, read_file. munfold.
  simpl in *. rewrite Hf. simpl. rewrite Hp. reflexivity.
Qed.




(** ** The training gate *)

Lemma dict_set_elem {V} (k : string) (v : V) d k' v' :
  (k', v') ∈ Dict.set k v d → (k' = k ∧ v' = v) ∨ (k', v') ∈ d.
Proof.
  induction d as [|[k0 v0] d IH]; simpl.
  - intros H. apply list_elem_of_singleton in H. left. by inversion H.
  - case_bool_decide as Hk.
    + intros H. apply elem_of_cons in H as [H|H].
      * left. by inversion H.
      * right. by apply list_elem_of_further.
    + intros H. apply elem_of_cons in H as [H|H].
      * right. rewrite H. apply list_elem_of_here.
      * destruct (IH H) as [?|?]; [by left|right; by apply list_elem_of_further].
Qed.

Lemma dict_set_here {V} (k : string) (v : V) d : (k, v) ∈ Dict.set k v d.
Proof.
  induction d as [|[k0 v0] d IH]; simpl.
  - apply list_elem_of_here.
  - case_bool_decide; [apply list_elem_of_here|by apply list_elem_of_further].
Qed.

Lemma dict_set_other {V} (k : string) (v : V) d k' v' :
  k' ≠ k → (k', v') ∈ d → (k', v') ∈ Dict.set k v d.
Proof.
  intros Hne. induction d as [|[k0 v0] d IH]; simpl.
  - intros H. by apply elem_of_nil in H.
  - intros H. apply elem_of_cons in H as [H|H].
    + inversion H; subst. rewrite bool_decide_eq_false_2 by done. apply list_elem_of_here.
    + case_bool_decide; apply list_elem_of_further; auto.
Qed.

Section StatusMap.

Variable st : string → train_status.

Lemma build_sound cs : ∀ init k v,
  (k, v) ∈ build st cs init → (k ∈ cs ∧ v = st k) ∨ (k, v) ∈ init.
Proof.
  induction cs as [|c cs IH]; intros init k v; simpl; [by right|].
  intros H. destruct (IH _ _ _ H) as [[Hin ->]|H'].
  - left. split; [by apply list_elem_of_further|done].
  - apply dict_set_elem in H' as [[-> ->]|H']; [|by right].
    left. split; [apply list_elem_of_here|done].
Qed.

Lemma build_keeps cs : ∀ init k,
  (k, st k) ∈ init → (k, st k) ∈ build st cs init.
Proof.
  induction cs as [|c cs IH]; intros init k Hin; simpl; [done|].
  apply IH. destruct (decide (k = c)) as [->|Hne].
  - apply dict_set_here.
  - by apply dict_set_other.
Qed.

Lemma build_complete cs : ∀ init k,
  k ∈ cs → (k, st k) ∈ build st cs init.
Proof.
  induction cs as [|c cs IH]; intros init k Hin; simpl.
  - by apply elem_of_nil in Hin.
  - apply elem_of_cons in Hin as [->|Hin].
    + apply build_keeps, dict_set_here.
    + by apply IH.
Qed.

End StatusMap.

Lemma training_status_map_spec h o k v :
  (k, v) ∈ _training_status_map h o
  ↔ k ∈ coins h ∧ v = coin_status h o (_running_trainers h o) k.
Proof.
  unfold _training_status_map. split.
  - intros H.
    apply (build_sound (coin_status h o (_running_trainers h o))) in H as [H|H]; [done|].
    by apply elem_of_nil in H.
  - intros [Hin ->].
    by apply (build_complete (coin_status h o (_running_trainers h o))).
Qed.

Lemma coin_status_trained h o r c :
  is_TRAINED (coin_status h o r c) = _coin_is_trained h o c.
Proof.
  unfold coin_status. destruct (_coin_is_trained h o c); [done|].
  by destruct (bool_decide _).
Qed.

Lemma all_trained_iff h o :
  all_trained h o = true
  ↔ coins h ≠ [] ∧ ∀ c, c ∈ coins h → _coin_is_trained h o c = true.
Proof.
  unfold all_trained.
  pose proof (training_status_map_spec h o) as Hm.
  destruct (_training_status_map h o) as [|kv m] eqn:E.
  - split; [done|]. intros [Hne Hall]. exfalso.
    destruct (coins h) as [|c cs]; [done|].
    specialize (Hm c (coin_status h o (_running_trainers h o) c)).
    destruct Hm as [_ Hm]. specialize (Hm (conj (list_elem_of_here _ _) eq_refl)).
    by apply elem_of_nil in Hm.
  - rewrite forallb_forall. split.
    + intros Hall. split.
      * intros Hnil. destruct kv as [k v].
        destruct (Hm k v) as [Hm1 _]. specialize (Hm1 (list_elem_of_here _ _)).
        rewrite Hnil in Hm1. destruct Hm1 as [Hm1 _]. by apply elem_of_nil in Hm1.
      * intros c Hc. rewrite <- (coin_status_trained h o (_running_trainers h o)).
        apply (Hall (c, coin_status h o (_running_trainers h o) c)).
        apply list_elem_of_In, Hm. done.
    + intros [_ Hall] [k v] Hin. apply list_elem_of_In, Hm in Hin as [Hk ->].
      simpl. rewrite coin_status_trained. by apply Hall.
Qed.

Lemma coin_is_trained_eq h o c :
  _coin_is_trained h o c
  = (PyStr.nonempty (coin_folder h c) && isdir o (coin_folder h c))
    && (dry_run_marker h o c
        || bool_decide (status_state h o c = Some "FINISHED")
        || bool_decide (status_state h o c = Some "TRAINED")
        || stamp_recent h o c).
Proof.
  unfold _coin_is_trained, dry_run_marker, status_state, stamp_recent, coin_folder.
  set (folder := default "" _).
  destruct (PyStr.nonempty folder); simpl; [|done].
  destruct (isdir o folder); simpl; [|done].
  destruct (dry_run_mode (settings h) && isfile o _); simpl; [done|].
  assert (Hfb : (if negb (isfile o (PyStr.join folder "trainer_last_training_time.txt"))
                 then false
                 else match read_stamp o (PyStr.join folder "trainer_last_training_time.txt") with
                      | Some ts => if (ts <=? 0)%Z then false else recent o ts
                      | None => false
                      end)
                = match read_stamp o (PyStr.join folder "trainer_last_training_time.txt") with
                  | Some ts => (0 <? ts)%Z && recent o ts
                  | None => false
                  end).
  { unfold isfile, read_stamp.
    destruct (files o !! _) as [f|]; simpl; [|done].
    rewrite ?bool_decide_eq_true_2 by eauto. simpl.
    destruct (f_data f) as [|z|[]|]; simpl; try done;
      match goal with
      | |- context [(?ts <=? 0)%Z] =>
          destruct (Z.leb_spec ts 0), (Z.ltb_spec 0 ts); simpl; try done; lia
      end. }
  assert (Htr : (if isfile o (PyStr.join folder "trainer_last_training_time.txt")
                 then match read_stamp o (PyStr.join folder "trainer_last_training_time.txt") with
                      | Some ts => (0 <? ts)%Z && recent o ts
                      | None => false
                      end
                 else false)
                = match read_stamp o (PyStr.join folder "trainer_last_training_time.txt") with
                  | Some ts => (0 <? ts)%Z && recent o ts
                  | None => false
                  end).
  { unfold isfile, read_stamp.
    destruct (files o !! _) as [f|]; simpl; [|done].
    by rewrite ?bool_decide_eq_true_2 by eauto. }
  destruct (_safe_read_json o _) as [[ | | | | |kv]|]; try (rewrite Hfb; done).
  destruct (decide (state_of (JObj kv) = "FINISHED")) as [E1|E1].
  { rewrite E1. done. }
  rewrite (bool_decide_eq_false_2 (state_of (JObj kv) = "FINISHED")) by done.
  rewrite (bool_decide_eq_false_2 (Some (state_of (JObj kv)) = Some "FINISHED")) by congruence.
  destruct (decide (state_of (JObj kv) = "TRAINED")) as [E2|E2].
  { rewrite E2. done. }
  rewrite (bool_decide_eq_false_2 (state_of (JObj kv) = "TRAINED")) by done.
  rewrite (bool_decide_eq_false_2 (Some (state_of (JObj kv)) = Some "TRAINED")) by congruence.
  simpl.
  destruct (bool_decide (state_of (JObj kv) = "TRAINING")); [apply Htr|apply Hfb].
Qed.

(** ** Teardown *)

Lemma frame_refl w : frame w w.
Proof. by unfold frame. Qed.

Lemma frame_trans w1 w2 w3 : frame w1 w2 → frame w2 w3 → frame w1 w3.
Proof.
  unfold frame. intros (a1 & b1 & c1 & d1) (a2 & b2 & c2 & d2).
  repeat split; congruence.
Qed.

Lemma ranks_in_nil r : ranks_in r [].
Proof. intros e r' H. by apply elem_of_nil in H. Qed.

Lemma ranks_in_app r l1 l2 : ranks_in r l1 → ranks_in r l2 → ranks_in r (l1 ++ l2).
Proof.
  intros H1 H2 e r' Hin. apply elem_of_app in Hin as [Hin|Hin]; eauto.
Qed.

Lemma ranks_in_ordered r l : ranks_in r l → ordered l.
Proof.
  intros Hr i j ei ej ri rj Hi Hj Hri Hrj Hlt.
  apply list_elem_of_lookup_2 in Hi, Hj.
  rewrite (Hr _ _ Hi Hri), (Hr _ _ Hj Hrj) in Hlt. lia.
Qed.

Lemma ordered_app l1 l2 :
  ordered l1 → ordered l2 →
  (∀ e1 e2 r1 r2, e1 ∈ l1 → e2 ∈ l2 →
     stop_rank e1 = Some r1 → stop_rank e2 = Some r2 → (r1 ≤ r2)%nat) →
  ordered (l1 ++ l2).
Proof.
  intros H1 H2 H12 i j ei ej ri rj Hi Hj Hri Hrj Hlt.
  destruct (decide (i < length l1)%nat) as [Hil|Hil];
    destruct (decide (j < length l1)%nat) as [Hjl|Hjl].
  - rewrite lookup_app_l in Hi, Hj by done. eapply H1; eauto.
  - lia.
  - rewrite lookup_app_r in Hi by lia. rewrite lookup_app_l in Hj by done.
    apply list_elem_of_lookup_2 in Hi, Hj.
    pose proof (H12 _ _ _ _ Hj Hi Hrj Hri). lia.
  - rewrite lookup_app_r in Hi, Hj by lia.
    pose proof (H2 _ _ _ _ _ _ Hi Hj Hri Hrj Hlt). lia.
Qed.

Lemma stop_process_spec m w :
  ∃ w' tr, _stop_process m w = Done tt w' tr
           ∧ frame w w'
           ∧ trainers (hub w') = trainers (hub w)
           ∧ ranks_in (teardown_rank (role_of (main_who m))) tr.
Proof.
  destruct w as [h o]. unfold _stop_process, terminate. munfold. simpl.
  destruct (is_running o (get_main m h)); simpl.
  2:{ eexists _, _. split; [reflexivity|]. split; [apply frame_refl|].
      split; [done|apply ranks_in_nil]. }
  destruct (proc (get_main m h)) as [pid|]; simpl.
  2:{ eexists _, _. split; [reflexivity|]. split; [apply frame_refl|].
      split; [done|apply ranks_in_nil]. }
  eexists _, _. split; [reflexivity|]. split; [|split].
  - unfold frame. simpl. destruct (procs o !! pid) as [[]|]; destruct m; done.
  - destruct m; done.
  - intros e r' Hin Hr. apply list_elem_of_singleton in Hin. subst e.
    simpl in Hr. by inversion Hr.
Qed.

Lemma stop_trainer_entry_spec e w :
  ∃ w' tr, try_pass (stop_trainer_entry e) w = Done tt w' tr
           ∧ frame w w'
           ∧ ranks_in 2 tr.
Proof.
  destruct w as [h o]. unfold stop_trainer_entry, terminate, write_file. munfold. simpl.
  destruct (proc (info e.2)) as [pid|]; simpl.
  2:{ eexists _, _. split; [reflexivity|]. split; [apply frame_refl|apply ranks_in_nil]. }
  destruct (proc_alive o pid); simpl.
  2:{ eexists _, _. split; [reflexivity|]. split; [apply frame_refl|apply ranks_in_nil]. }
  assert (Hrank : ∀ l, (∀ x, x ∈ l → stop_rank x = None) →
                       ranks_in 2 (EvTerminate (WTrainer e.1) pid :: l)).
  { intros l Hl x r' Hin Hr. apply elem_of_cons in Hin as [->|Hin].
    - simpl in Hr. by inversion Hr.
    - rewrite (Hl _ Hin) in Hr. discriminate. }
  destruct (procs o !! pid) as [[]|]; simpl;
    destruct (cannot_write _ _); simpl;
    eexists _, _; (split; [reflexivity|]); (split; [done|]);
    apply Hrank; intros x Hx; split_mem Hx; by subst.
Qed.

Lemma stop_trainers_spec l : ∀ w,
  ∃ w' tr, for_each l (λ e, try_pass (stop_trainer_entry e)) w = Done tt w' tr
           ∧ frame w w'
           ∧ ranks_in 2 tr.
Proof.
  induction l as [|e l IH]; intros w; simpl.
  - eexists _, _. split; [reflexivity|]. split; [apply frame_refl|apply ranks_in_nil].
  - unfold bind.
    destruct (stop_trainer_entry_spec e w) as (w1 & t1 & -> & Hf1 & Hr1).
    destruct (IH w1) as (w2 & t2 & -> & Hf2 & Hr2).
    eexists _, _. split; [reflexivity|].
    split; [by eapply frame_trans|by apply ranks_in_app].
Qed.

Lemma ordered_unranked_cons e l : stop_rank e = None → ordered l → ordered (e :: l).
Proof.
  intros He Hl. change (e :: l) with ([e] ++ l). apply ordered_app; [|done|].
  - apply (ranks_in_ordered 0). intros x r' Hin Hr.
    apply list_elem_of_singleton in Hin. subst x. congruence.
  - intros e1 e2 r1 r2 Hin _ Hr _. apply list_elem_of_singleton in Hin. subst e1. congruence.
Qed.

Lemma ordered_unranked_snoc e l : stop_rank e = None → ordered l → ordered (l ++ [e]).
Proof.
  intros He Hl. apply ordered_app; [done| |].
  - apply (ranks_in_ordered 0). intros x r' Hin Hr.
    apply list_elem_of_singleton in Hin. subst x. congruence.
  - intros e1 e2 r1 r2 _ Hin _ Hr. apply list_elem_of_singleton in Hin. subst e2. congruence.
Qed.



(** ** Spawn failure is contained *)

(** C10.  When [Popen] raises during a start operation ([_start_process],
    [start_neural_for_coin] or [_start_single_trainer]), the operation
    returns without an exception, the hub object (process handles, pids,
    start times, the trainer and runner registries) and the process table
    are as before the call, the failure is reported in a message box, and
    no process was spawned. *)
Theorem spawn_failure_is_atomic (op : start_op) (w : World) :
  popen_failed (run_start op w) → atomic_failure w (run_start op w).
Proof.
  destruct op; simpl.
  - apply start_process_atomic.
  - apply start_neural_for_coin_atomic.
  - apply start_single_trainer_atomic.
Qed.

Lemma spawn_failure_is_atomic_witness :
  let w := mkWorld Sample.hub0 SpawnScenario.os_broken in
  popen_failed (run_start (StartTrainer "eth") w)
  ∧ atomic_failure w (run_start (StartTrainer "eth") w).
Proof.
  intros w.
  assert (Hp : popen_failed (run_start (StartTrainer "eth") w)).
  { exists (WTrainer "ETH"), ["/usr/bin/python3"; "-u"; "/pt/ETH/pt_trainer.py"; "ETH"].
    vm_compute. apply list_elem_of_further, list_elem_of_here. }
  split; [exact Hp|].
  apply (spawn_failure_is_atomic (StartTrainer "eth") w Hp).
Defined.

(** ** Runs of the fleet sequence *)

Lemma start_process_idempotent m lq pre w :
  is_running (os w) (get_main m (hub w)) = true →
  _start_process m lq pre w = Done tt w [].
Proof.
  destruct w as [h o]. unfold _start_process. munfold. simpl. by intros ->.
Qed.

Lemma start_neural_resets_ready w :
  cannot_write (os w) (runner_ready_path (hub w)) = false →
  runner_ready (hub (world_of (start_neural w))) (os (world_of (start_neural w))) = false.
Proof.
  destruct w as [h o]. intros Hw.
  unfold start_neural, write_file. munfold. simpl in *. rewrite Hw. simpl.
  destruct (start_process_returns PNeural true "[RUNNER] "
    {| hub := h;
       os := with_environ
               (<["USE_KUCOIN_API":=if use_kucoin_api (settings h) then "1" else "0"]>
                  (environ o))
               (with_files
                  (<[runner_ready_path h:=File (now o) (DJson (ready_record (now o) "starting"))]>
                     (files o)) o) |}) as (w' & tr & Heq).
  pose proof Heq as Heq'.
  unfold _start_process, Popen in Heq'. revert Heq'. munfold. simpl.
  rewrite Heq. simpl.
  destruct (is_running _ _); simpl.
  { intros [= <-]. unfold runner_ready. simpl. by rewrite lookup_insert_eq. }
  destruct (isfile _ _); simpl.
  2:{ intros [= <-]. unfold runner_ready. simpl. by rewrite lookup_insert_eq. }
  destruct (popen_raises _ _ || _); simpl.
  { intros [= <-]. unfold runner_ready. simpl. by rewrite lookup_insert_eq. }
  intros [= <-]. unfold runner_ready. simpl. by rewrite lookup_insert_eq.
Qed.

(** C1 at a failing input.  The readiness artifact still says ready from
    an earlier session.  [start_neural] resets it before it spawns;
    [start_neural_for_coin], the spawn of the fleet path, spawns the
    runner of ETH and leaves the artifact alone, so that it still reads
    ready.  In a session the stale flag is seen like this: the standalone
    runner is started and reports ready; Start All asks it to terminate;
    the fleet sequence spawns its runners without a reset, and the first
    poll tick, finding the old runner not yet gone, reads ready and starts
    the trader before any runner of the sequence has reported. *)
Theorem fleet_spawn_keeps_stale_ready :
  let w := FleetScenario.stale in
  let single := start_neural w in
  let fleet := start_neural_for_coin "ETH" w in
  runner_ready (hub w) (os w) = true
  ∧ runner_ready (hub (world_of single)) (os (world_of single)) = false
  ∧ runner_spawned "ETH" (events_of fleet) = true
  ∧ writes_to (runner_ready_path (hub w)) (events_of fleet) = false
  ∧ runner_ready (hub (world_of fleet)) (os (world_of fleet)) = true
  ∧ let before := world_of (run ([UStartNeural; FleetScenario.runner_reports_ready]
                                 ++ FleetScenario.start_all) FleetScenario.fresh) in
    let spawn := fire_timer before in
    let tick := fire_timer (world_of spawn) in
    runner_spawned "BTC" (events_of spawn) = true
    ∧ runner_spawned "ETH" (events_of spawn) = true
    ∧ writes_to (runner_ready_path (hub before)) (events_of spawn) = false
    ∧ tick = Done (Some Ready) (world_of tick)
               [EvRead "/pt/hub_data/runner_ready.json";
                EvPrint "[Hub] Runner is ready. Starting trader now for all trained coins.";
                EvPending false;
                EvSpawn WTrader ["/usr/bin/python3"; "-u"; "/pt/pt_trader.py"] "/pt" 1005;
                EvReader 1005 "[TRADER] "].
Proof. vm_compute. repeat split; reflexivity. Qed.

(** C2 at a failing input.  Start All in a fresh session: the trainers
    are launched, the tick sees both coins trained, and the fleet sequence
    spawns the runners of BTC and ETH (processes 1002 and 1003) and
    schedules the poll.  Both runners are alive when the poll ticks, yet
    the tick leaves through the cancelled branch, because the handle it
    checks is [proc_neural], which the sequence never spawns; the trader
    is not started and nothing is scheduled. *)
Theorem poll_cancels_with_live_fleet_runners :
  let seq := run (FleetScenario.start_all ++ [AFire]) FleetScenario.fresh in
  let w1 := world_of seq in
  let tick := fire_timer w1 in
  runner_spawned "BTC" (events_of seq) = true
  ∧ runner_spawned "ETH" (events_of seq) = true
  ∧ (Dict.get "BTC" (default [] (neural_runners (hub w1)))
     ≫= λ lp, Some (proc (info lp), is_running (os w1) (info lp))) = Some (Some 1002%Z, true)
  ∧ (Dict.get "ETH" (default [] (neural_runners (hub w1)))
     ≫= λ lp, Some (proc (info lp), is_running (os w1) (info lp))) = Some (Some 1003%Z, true)
  ∧ timers (hub w1) = [(500%Z, CbPollForCoins ["BTC"; "ETH"])]
  ∧ tick = Done (Some Cancelled) (world_of tick)
             [EvPrint "[Hub] Neural runner is not running. Cancelling trader auto-start.";
              EvPending false]
  ∧ is_running (os (world_of tick)) (proc_trader (hub (world_of tick))) = false
  ∧ timers (hub (world_of tick)) = [].
Proof. vm_compute. repeat split; reflexivity. Qed.

(** C6 at a failing input.  The runner of ETH was started and is alive;
    starting it again raises [AttributeError] out of
    [start_neural_for_coin] (the duplicate check reads the attribute
    [proc] of a [LogProc]), where the start of a running main process is
    a silent no-op.  A second Start All in one session runs into this: the
    callback that starts the runners raises at the first coin. *)
Theorem second_runner_start_raises :
  let first := start_neural_for_coin "ETH" FleetScenario.fresh in
  let w1 := world_of first in
  let second := start_neural_for_coin "ETH" w1 in
  returned first = true
  ∧ (Dict.get "ETH" (default [] (neural_runners (hub w1)))
     ≫= λ lp, Some (is_running (os w1) (info lp))) = Some true
  ∧ second = Raised AttributeError (world_of second)
               [EvWrite "/pt/ETH/pt_thinker.py" DOpaque]
  ∧ (let w2 := world_of (start_trader FleetScenario.fresh) in
     is_running (os w2) (proc_trader (hub w2)) = true
     ∧ start_trader w2 = Done tt w2 [])
  ∧ let again := world_of (run (FleetScenario.start_all ++ [AFire; AFire; UStartAll; ATick])
                               FleetScenario.fresh) in
    timers (hub again) = [(5%Z, CbStartNeuralThenTrader)]
    ∧ fire_timer again = Raised AttributeError (world_of (fire_timer again)) [EvPending true].
Proof. vm_compute. repeat split; reflexivity. Qed.

(** C8 at a failing input.  Start All in a fresh session; a tick sees
    every coin trained and schedules [_start_neural_then_trader]; Stop All
    arrives before that timer fires and clears the pending flag.  The
    timer still fires, and the callback sets the flag again, spawns the
    runners and schedules the poll.  When the standalone runner is then
    started from the menu, the poll runs to its timeout and spawns the
    trader.  The same happens with no command after Stop All when the
    standalone runner was up before Start All and has not exited yet
    ([terminate] does not wait). *)
Theorem stop_all_does_not_cancel_scheduled_start :
  let stopped := world_of (run (FleetScenario.start_all ++ [UStopAll]) FleetScenario.fresh) in
  let callback := fire_timer stopped in
  let restarted := run (UStartNeural :: replicate 21 AFire) (world_of callback) in
  let slow_exit :=
    run (UStartNeural :: FleetScenario.start_all ++ UStopAll :: replicate 22 AFire)
        FleetScenario.fresh in
  _auto_start_trader_pending (hub stopped) = false
  ∧ timers (hub stopped) = [(5%Z, CbStartNeuralThenTrader)]
  ∧ is_running (os stopped) (proc_trader (hub stopped)) = false
  ∧ events_of callback
    = [EvPending true;
       EvSpawn (WRunner "BTC") ["/usr/bin/python3"; "-u"; "/pt/pt_thinker.py"; "BTC"]
               "/pt" 1002;
       EvReader 1002 "[BTC-RUNNER] ";
       EvWrite "/pt/ETH/pt_thinker.py" DOpaque;
       EvSpawn (WRunner "ETH") ["/usr/bin/python3"; "-u"; "/pt/ETH/pt_thinker.py"; "ETH"]
               "/pt/ETH" 1003;
       EvReader 1003 "[ETH-RUNNER] ";
       EvAfter 500 (CbPollForCoins ["BTC"; "ETH"])]
  ∧ _auto_start_trader_pending (hub (world_of callback)) = true
  ∧ trader_spawned (events_of restarted) = true
  ∧ is_running (os (world_of restarted)) (proc_trader (hub (world_of restarted))) = true
  ∧ trader_spawned (events_of slow_exit) = true
  ∧ is_running (os (world_of slow_exit)) (proc_trader (hub (world_of slow_exit))) = true.
Proof. vm_compute. repeat split; reflexivity. Qed.

(** C9 as stated fails twice: with no managed coin the flag is false
    although every coin (there is none) reports trained; and a coin whose
    status artifact states STOPPED counts as trained when its
    completion timestamp is recent. *)
Lemma all_trained_is_not_the_worded_gate :
  ¬ (∀ h o, all_trained h o = spec_all_trained h o)
  ∧ ¬ (∀ h o c, _coin_is_trained h o c = spec_reports_trained h o c).
Proof.
  split; intros H.
  - specialize (H GateScenario.no_coins Sample.os0). vm_compute in H. discriminate.
  - specialize (H Sample.hub0 GateScenario.os_stopped "ETH"). vm_compute in H. discriminate.
Qed.

(** C9, as the code has it.  [all_trained] is true exactly when there is
    at least one managed coin and every managed coin is trained; a coin is
    trained exactly when its folder exists and, in dry-run mode, the
    marker of a saved model exists, or its status artifact states FINISHED
    or TRAINED, or its completion-timestamp file holds a positive
    timestamp no older than 14 days (whatever state the status artifact
    names, TRAINING included). *)
Theorem all_trained_gate (h : Hub) (o : OS) :
  (all_trained h o = true
   ↔ coins h ≠ [] ∧ ∀ c, c ∈ coins h → _coin_is_trained h o c = true)
  ∧ ∀ c,
      _coin_is_trained h o c = true
      ↔ (PyStr.nonempty (coin_folder h c) = true ∧ isdir o (coin_folder h c) = true)
        ∧ (dry_run_marker h o c = true
           ∨ status_state h o c = Some "FINISHED"
           ∨ status_state h o c = Some "TRAINED"
           ∨ stamp_recent h o c = true).
Proof.
  split; [apply all_trained_iff|].
  intros c. rewrite coin_is_trained_eq.
  rewrite !andb_true_iff, !orb_true_iff, !bool_decide_eq_true. tauto.
Qed.

(** * More of the hub: proofs *)

(** ** Stopping trainers *)

Lemma proc_alive_terminating o pid pid' :
  proc_alive
    (match procs o !! pid with
     | Some PRunning => with_procs (<[pid := PTerminating]> (procs o)) (next_pid o) o
     | _ => o
     end) pid'
  = proc_alive o pid'.
Proof.
  unfold proc_alive.
  destruct (procs o !! pid) as [[]|] eqn:E; simpl; try done.
  destruct (decide (pid = pid')) as [->|Hne].
  - by rewrite lookup_insert_eq, E.
  - by rewrite lookup_insert_ne.
Qed.

Lemma stop_trainer_entry_stops e w :
  ∃ w' tr, try_pass (stop_trainer_entry e) w = Done tt w' tr
           ∧ hub w' = hub w
           ∧ same_liveness (os w) (os w')
           ∧ List.filter is_terminate tr
             = match proc (info e.2) with
               | Some pid =>
                   if proc_alive (os w) pid then [EvTerminate (WTrainer e.1) pid] else []
               | None => []
               end
           ∧ List.filter is_spawn tr = [].
Proof.
  destruct w as [h o]. unfold stop_trainer_entry, terminate, write_file, same_liveness.
  munfold. simpl.
  destruct (proc (info e.2)) as [pid|]; simpl.
  2:{ eexists _, _. split; [reflexivity|]. done. }
  destruct (proc_alive o pid) eqn:Ha; simpl.
  2:{ eexists _, _. split; [reflexivity|]. done. }
  destruct (cannot_write _ _); simpl;
    eexists _, _; (split; [reflexivity|]); simpl;
    (split; [done|]); (split; [intros p; apply proc_alive_terminating|done]).
Qed.

Lemma stop_trainer_entries_stop l : ∀ w,
  ∃ w' tr, for_each l (λ e, try_pass (stop_trainer_entry e)) w = Done tt w' tr
           ∧ hub w' = hub w
           ∧ same_liveness (os w) (os w')
           ∧ List.filter is_terminate tr
             = flat_map (λ e : string * LogProc,
                 match proc (info e.2) with
                 | Some pid =>
                     if proc_alive (os w) pid then [EvTerminate (WTrainer e.1) pid] else []
                 | None => []
                 end) l
           ∧ List.filter is_spawn tr = [].
Proof.
  induction l as [|e l IH]; intros w; simpl.
  - eexists _, _. split; [reflexivity|]. done.
  - unfold bind.
    destruct (stop_trainer_entry_stops e w) as (w1 & t1 & -> & Hh1 & Hl1 & Ht1 & Hs1).
    destruct (IH w1) as (w2 & t2 & -> & Hh2 & Hl2 & Ht2 & Hs2).
    eexists _, _. split; [reflexivity|].
    split; [congruence|]. split; [intros p; by rewrite Hl2, Hl1|].
    rewrite !List.filter_app, Ht1, Ht2, Hs1, Hs2. split; [|done].
    f_equal. apply flat_map_ext. intros [c lp]. simpl.
    destruct (proc (info lp)) as [pid|]; [|done]. by rewrite Hl1.
Qed.

Lemma stop_all_trainers_core (w : World) :
  ∃ w' tr,
    stop_all_trainers w = Done tt w' tr
    ∧ hub w' = hub w
    ∧ List.filter is_terminate tr = live_trainer_stops (hub w) (os w)
    ∧ List.filter is_spawn tr = []
    ∧ same_liveness (os w) (os w').
Proof.
  unfold stop_all_trainers, live_trainer_stops.
  destruct (stop_trainer_entries_stop (trainers (hub w)) w)
    as (w' & tr & Heq & Hh & Hl & Ht & Hs).
  unfold try_pass at 1. cbv beta iota delta [mbind M_bind bind get_hub].
  rewrite Heq. rewrite app_nil_l. exists w', tr. done.
Qed.


(** ** Coin names *)

Lemma upper_ascii_idem a : PyStr.upper_ascii (PyStr.upper_ascii a) = PyStr.upper_ascii a.
Proof. destruct a as [[] [] [] [] [] [] [] []]; reflexivity. Qed.

Lemma is_space_upper a : PyStr.is_space (PyStr.upper_ascii a) = PyStr.is_space a.
Proof. destruct a as [[] [] [] [] [] [] [] []]; reflexivity. Qed.

Lemma upper_idem s : PyStr.upper (PyStr.upper s) = PyStr.upper s.
Proof. induction s as [|a s IH]; simpl; [done|]. by rewrite upper_ascii_idem, IH. Qed.

Lemma lstrip_upper s : PyStr.lstrip (PyStr.upper s) = PyStr.upper (PyStr.lstrip s).
Proof.
  induction s as [|a s IH]; simpl; [done|].
  rewrite is_space_upper. by destruct (PyStr.is_space a).
Qed.

Lemma rstrip_upper s : PyStr.rstrip (PyStr.upper s) = PyStr.upper (PyStr.rstrip s).
Proof.
  induction s as [|a s IH]; simpl; [done|].
  rewrite IH, is_space_upper.
  destruct (PyStr.rstrip s); simpl; [|done]. by destruct (PyStr.is_space a).
Qed.

Lemma strip_upper s : PyStr.strip (PyStr.upper s) = PyStr.upper (PyStr.strip s).
Proof. unfold PyStr.strip. by rewrite lstrip_upper, rstrip_upper. Qed.

Lemma rstrip_idem s : PyStr.rstrip (PyStr.rstrip s) = PyStr.rstrip s.
Proof.
  induction s as [|a s IH]; simpl; [done|].
  destruct (PyStr.rstrip s) as [|b r] eqn:E.
  - destruct (PyStr.is_space a) eqn:Ea; simpl; [done|]. by rewrite Ea.
  - simpl in *. by rewrite IH.
Qed.

Lemma lstrip_head s :
  match PyStr.lstrip s with
  | EmptyString => True
  | String a _ => PyStr.is_space a = false
  end.
Proof.
  induction s as [|a s IH]; simpl; [done|].
  destruct (PyStr.is_space a) eqn:E; [done|]. simpl. exact E.
Qed.

Lemma lstrip_rstrip_lstrip s :
  PyStr.lstrip (PyStr.rstrip (PyStr.lstrip s)) = PyStr.rstrip (PyStr.lstrip s).
Proof.
  pose proof (lstrip_head s) as H.
  destruct (PyStr.lstrip s) as [|a r]; simpl; [done|].
  destruct (PyStr.rstrip r); simpl; rewrite H; simpl; by rewrite ?H.
Qed.

Lemma strip_idem s : PyStr.strip (PyStr.strip s) = PyStr.strip s.
Proof. unfold PyStr.strip. by rewrite lstrip_rstrip_lstrip, rstrip_idem. Qed.

(** Normalising a coin name twice is normalising it once. *)
Lemma coin_name_idem s :
  PyStr.upper (PyStr.strip (PyStr.upper (PyStr.strip s))) = PyStr.upper (PyStr.strip s).
Proof. by rewrite strip_upper, strip_idem, upper_idem. Qed.

(** ** Starting one trainer *)

Lemma only_writes_quiet tr x :
  only_writes tr →
  List.filter is_terminate tr = [] ∧ List.filter is_spawn tr = [] ∧ spawns_only x tr.
Proof.
  intros Hw. induction tr as [|e tr IH].
  - repeat split. constructor.
  - destruct (Hw e) as (p & d & ->); [apply list_elem_of_here|].
    destruct IH as (H1 & H2 & H3).
    { intros e He. apply Hw. by apply list_elem_of_further. }
    simpl. repeat split; try done. by constructor.
Qed.

Lemma proc_alive_spawned o pid pid' :
  proc_alive o pid' = true →
  proc_alive (with_procs (<[pid := PRunning]> (procs o)) (pid + 1)%Z o) pid' = true.
Proof.
  unfold proc_alive. simpl. intros H.
  destruct (decide (pid = pid')) as [->|Hne].
  - by rewrite lookup_insert_eq.
  - by rewrite lookup_insert_ne.
Qed.

Lemma proc_alive_same_procs o o' pid :
  procs o' = procs o → proc_alive o' pid = proc_alive o pid.
Proof. unfold proc_alive. by intros ->. Qed.

Lemma start_single_trainer_spec c w :
  ∃ w' tr, _start_single_trainer c w = Done tt w' tr
           ∧ List.filter is_terminate tr = []
           ∧ spawns_only (WTrainer (PyStr.upper (PyStr.strip c))) tr
           ∧ keeps_alive (os w) (os w')
           ∧ proc_neural (hub w') = proc_neural (hub w)
           ∧ (PyStr.nonempty (PyStr.upper (PyStr.strip c)) = false → w' = w ∧ tr = []).
Proof.
  unfold _start_single_trainer, write_file, keeps_alive.
  destruct (PyStr.nonempty _) eqn:Hne; simpl.
  2:{ munfold. eexists _, _. split; [reflexivity|]. repeat split; try done. constructor. }
  munfold.
  destruct (seed_coin_folder_spec (PyStr.upper (PyStr.strip c))
              (default (project_dir (hub w)) (coin_folders (hub w) !! PyStr.upper (PyStr.strip c)))
              (PyStr.basename (script_neural_trainer (settings (hub w)))) w)
    as (o' & tr & Heq & Hp & Hn & Hb & Hw).
  rewrite Heq. simpl.
  destruct (only_writes_quiet tr (WTrainer (PyStr.upper (PyStr.strip c))) Hw)
    as (Hq1 & Hq2 & Hq3).
  assert (Hal : ∀ pid, proc_alive (os w) pid = true → proc_alive o' pid = true).
  { intros pid. by rewrite (proc_alive_same_procs _ _ pid Hp). }
  destruct (resolve_script _ _ _ _ _) as [rp|]; simpl.
  2:{ eexists _, _. split; [reflexivity|]. simpl.
      rewrite List.filter_app, Hq1. repeat split; try done.
      apply Forall_app. split; [done|]. by repeat constructor. }
  destruct (match Dict.get _ (trainers (hub w)) with Some lp => _ | None => false end); simpl.
  { eexists _, _. split; [reflexivity|]. simpl.
    rewrite List.filter_app, Hq1. repeat split; try done.
    apply Forall_app. split; [done|]. constructor. }
  unfold Popen. simpl. destruct (popen_raises _ _ || _); simpl.
  - eexists _, _. split; [reflexivity|]. simpl.
    rewrite List.filter_app, Hq1. repeat split; try done.
    apply Forall_app. split; [done|]. by repeat constructor.
  - destruct (cannot_write _ _); simpl;
      eexists _, _; (split; [reflexivity|]); simpl;
      rewrite List.filter_app, Hq1; (repeat split; try done);
      try (apply Forall_app; split; [done|]; by repeat constructor);
      intros pid Hpid; apply proc_alive_spawned; auto.
Qed.

Lemma stop_process_stops m w :
  ∃ w', _stop_process m w
        = Done tt w'
            (match proc (get_main m (hub w)) with
             | Some pid => if proc_alive (os w) pid then [EvTerminate (main_who m) pid] else []
             | None => []
             end)
        ∧ same_liveness (os w) (os w')
        ∧ files (os w') = files (os w)
        ∧ hub w'
          = (if is_running (os w) (get_main m (hub w))
             then update_main m (set_start_time None) (hub w) else hub w).
Proof.
  destruct w as [h o]. unfold _stop_process, terminate, is_running, same_liveness.
  munfold. simpl.
  destruct (proc (get_main m h)) as [pid|]; simpl.
  2:{ eexists. split; [reflexivity|]. done. }
  destruct (proc_alive o pid) eqn:Ha; simpl.
  2:{ eexists. split; [reflexivity|]. done. }
  eexists. split; [reflexivity|]. simpl.
  split; [intros p; apply proc_alive_terminating|].
  split; [|done]. by destruct (procs o !! pid) as [[]|].
Qed.

Lemma start_selected_runner_first (sel : string) (w : World) :
  ∃ w' rest,
    start_trainer_for_selected_coin sel w
    = Done tt w' (runner_stop (hub w) (os w) (PyStr.upper (PyStr.strip sel)) ++ rest)
    ∧ List.filter is_terminate rest = []
    ∧ spawns_only (WTrainer (PyStr.upper (PyStr.strip sel))) rest
    ∧ (PyStr.nonempty (PyStr.upper (PyStr.strip sel)) = false → w' = w ∧ rest = [])
    ∧ (is_running (os w) (proc_neural (hub w)) = true →
       is_running (os w') (proc_neural (hub w')) = true).
Proof.
  set (coin := PyStr.upper (PyStr.strip sel)).
  unfold start_trainer_for_selected_coin, runner_stop. fold coin.
  destruct (PyStr.nonempty coin) eqn:Hne; simpl.
  2:{ exists w, []. repeat split; try done. constructor. }
  unfold stop_neural. cbv beta iota delta [mbind M_bind bind].
  destruct (stop_process_stops PNeural w) as (w1 & -> & Hl1 & Hf1 & Hh1).
  destruct (start_single_trainer_spec coin w1) as (w3 & t3 & Heq3 & Ht3 & Hs3 & Hk3 & Hn3 & _).
  rewrite Heq3. exists w3, t3. simpl.
  unfold coin in Hs3. rewrite coin_name_idem in Hs3. fold coin in Hs3.
  repeat split; try done.
  intros Hr.
  assert (Hp : proc (proc_neural (hub w1)) = proc (proc_neural (hub w))).
  { rewrite Hh1. simpl. by rewrite Hr. }
  unfold is_running in *. rewrite Hn3, Hp. destruct (proc (proc_neural (hub w))) as [pid|]; [|done].
  apply Hk3. by rewrite Hl1.
Qed.


(** ** Stop, then start *)



(** ** Stop All and the armed start *)

Lemma stop_all_scripts_keeps_armed w :
  ∃ w' tr, stop_all_scripts w = Done tt w' tr
           ∧ _auto_start_runner_after_training (hub w')
             = _auto_start_runner_after_training (hub w)
           ∧ timers (hub w') = timers (hub w)
           ∧ _auto_start_trader_pending (hub w') = false.
Proof.
  destruct w as [h o]. unfold stop_all_scripts, stop_trader, stop_neural, write_file.
  cbv beta iota delta
    [mbind M_bind bind mret M_ret ret get_hub get_os mod_hub mod_os emit raise
     assign_pending time_time].
  simpl.
  destruct (stop_process_stops PTrader (mkWorld (set_pending false h) o))
    as (w1 & -> & _ & _ & Hh1).
  destruct (stop_process_stops PNeural w1) as (w2 & -> & _ & _ & Hh2).
  destruct (stop_trainer_entries_stop (trainers (hub w2)) w2) as (w3 & t3 & Hl & Hh3 & _).
  unfold try_pass at 1. cbv beta. rewrite Hl. unfold try_pass. cbv beta.
  assert (Hkeep : _auto_start_runner_after_training (hub w3)
                  = _auto_start_runner_after_training h
                  ∧ timers (hub w3) = timers h
                  ∧ _auto_start_trader_pending (hub w3) = false).
  { rewrite Hh3, Hh2. destruct (is_running (os w1) _); rewrite Hh1; simpl;
      destruct (is_running o _); done. }
  destruct (cannot_write _ _); simpl; eexists _, _; (split; [reflexivity|]); exact Hkeep.
Qed.

(** X4.  [stop_all_scripts] always returns and leaves the flag
    [_auto_start_runner_after_training] and the pending timers as they
    were.  So a Start All that was armed before the Stop All is still
    armed after it: the next [_tick] that finds every coin trained
    sets the pending flag again and schedules
    [_start_neural_then_trader]. *)
Theorem stop_all_keeps_training_autostart (w : World) :
  ∃ w' tr,
    stop_all_scripts w = Done tt w' tr
    ∧ _auto_start_runner_after_training (hub w')
      = _auto_start_runner_after_training (hub w)
    ∧ timers (hub w') = timers (hub w)
    ∧ (_auto_start_runner_after_training (hub w) = true →
       all_trained (hub w') (os w') = true →
       ∃ w'',
         _tick_gate w' = Done tt w'' [EvPending true; EvAfter 5 CbStartNeuralThenTrader]
         ∧ _auto_start_trader_pending (hub w'') = true
         ∧ timers (hub w'') = timers (hub w) ++ [(5%Z, CbStartNeuralThenTrader)]).
Proof.
  destruct (stop_all_scripts_keeps_armed w) as (w' & tr & Heq & Hf & Ht & Hp).
  exists w', tr. split; [exact Heq|]. split; [exact Hf|]. split; [exact Ht|].
  intros Ha Hall. rewrite Ha in Hf.
  destruct w' as [h' o']. unfold _tick_gate. munfold. simpl in *.
  rewrite Hall, Hf. simpl. eexists. split; [reflexivity|]. simpl. by rewrite Ht.
Qed.

Lemma stop_all_keeps_training_autostart_witness :
  ∃ w' w'' tr,
    stop_all_scripts CommandScenario.armed = Done tt w' tr
    ∧ trader_spawned tr = false
    ∧ _tick_gate w' = Done tt w'' [EvPending true; EvAfter 5 CbStartNeuralThenTrader]
    ∧ timers (hub w'') = [(5%Z, CbStartNeuralThenTrader)].
Proof.
  destruct (stop_all_keeps_training_autostart CommandScenario.armed)
    as (w' & tr & Heq & Hf & Ht & Hgate).
  assert (Hw : world_of (stop_all_scripts CommandScenario.armed) = w') by (by rewrite Heq).
  assert (He : events_of (stop_all_scripts CommandScenario.armed) = tr) by (by rewrite Heq).
  destruct Hgate as (w'' & Hg & Hp & Ht'').
  - reflexivity.
  - rewrite <- Hw. vm_compute. reflexivity.
  - exists w', w'', tr. split; [exact Heq|]. split; [|split; [exact Hg|exact Ht'']].
    rewrite <- He. vm_compute. reflexivity.
Defined.

(** ** What lets a poll start the trader *)

Lemma trader_spawned_app t1 t2 :
  trader_spawned (t1 ++ t2) = trader_spawned t1 || trader_spawned t2.
Proof. apply existsb_app. Qed.

Lemma trader_spawned_read h o : trader_spawned (read_events h o) = false.
Proof. unfold read_events. by destruct (isfile _ _). Qed.

Lemma start_traders_quiet cb w :
  is_running (os w) (proc_trader (hub w)) = true ∨ wants_trader cb = false →
  events_of (start_traders cb w) = [].
Proof.
  intros H. destruct cb as [| |cs]; simpl.
  1,2: destruct H as [H|H]; [|done]; munfold; simpl; by rewrite H.
  destruct H as [H|H].
  - by rewrite for_each_start_trader_running.
  - by destruct cs.
Qed.

(** A tick of either poll that finds the runner alive and the artifact
    ready. *)
Lemma poll_tick_ready cb h o :
  is_poll cb = true →
  _auto_start_trader_pending h = true →
  is_running o (proc_neural h) = true →
  runner_ready h o = true →
  let w1 := mkWorld (set_pending false h) o in
  ∃ msg,
    run_callback cb (mkWorld h o)
    = Done (Some Ready) (world_of (start_traders cb w1))
        ((read_events h o ++ [EvPrint msg; EvPending false])
         ++ events_of (start_traders cb w1)).
Proof.
  intros Hcb Hp Hr Hn w1.
  destruct (read_runner_ready_spec (mkWorld h o)) as (st & Hrd & Hst). simpl in *.
  destruct cb as [| |cs]; [done| |]; eexists;
    unfold run_callback, _poll_runner_ready_then_start_trader,
      _poll_runner_ready_then_start_trader_for_coins;
    munfold; simpl; rewrite Hp, Hr; simpl; rewrite Hrd; simpl; rewrite Hst, Hn; simpl;
    unfold w1, start_traders; munfold; simpl.
  - destruct (is_running o (proc_trader h)) eqn:Ht; simpl.
    + rewrite ?app_nil_r, <- ?app_assoc. reflexivity.
    + destruct (start_process_returns PTrader true "[TRADER] "
                  (mkWorld (set_pending false h) o)) as (w2 & t2 & Heq).
      change (_start_process PTrader true "[TRADER] ") with start_trader in Heq.
      rewrite Heq. simpl. rewrite ?app_nil_r, <- ?app_assoc. reflexivity.
  - destruct (for_each_start_trader_returns cs (mkWorld (set_pending false h) o))
      as (w2 & t2 & Heq).
    rewrite Heq. simpl. rewrite ?app_nil_r, <- ?app_assoc. reflexivity.
Qed.

Lemma poll_not_pending cb w :
  is_poll cb = true →
  _auto_start_trader_pending (hub w) = false →
  run_callback cb w = Done (Some NotPending) w [].
Proof.
  intros Hcb Hp. destruct w as [h o].
  destruct cb as [| |cs]; [done| |];
    unfold run_callback, _poll_runner_ready_then_start_trader,
      _poll_runner_ready_then_start_trader_for_coins;
    munfold; simpl in *; rewrite Hp; reflexivity.
Qed.

(** X5.  A tick of either readiness poll spawns the trader only if the
    pending flag is set, the process of [proc_neural] polls as running,
    and the artifact reads ready or this tick is past the twentieth
    attempt; the trader was not running then, and a fleet poll has at
    least one coin. *)
Theorem poll_spawns_trader_only_through_gate (cb : callback) (w : World) :
  is_poll cb = true →
  trader_spawned (events_of (run_callback cb w)) = true →
  _auto_start_trader_pending (hub w) = true
  ∧ is_running (os w) (proc_neural (hub w)) = true
  ∧ (runner_ready (hub w) (os w) = true
     ∨ (20 < default 0 (_trader_poll_count (hub w)) + 1)%Z)
  ∧ is_running (os w) (proc_trader (hub w)) = false
  ∧ wants_trader cb = true.
Proof.
  intros Hcb Hs. destruct w as [h o]. simpl.
  destruct (_auto_start_trader_pending h) eqn:Hp.
  2:{ rewrite poll_not_pending in Hs by done. discriminate. }
  destruct (is_running o (proc_neural h)) eqn:Hr.
  2:{ rewrite poll_checks_liveness_first in Hs by done. discriminate. }
  assert (Hq : ∀ h1, proc_trader h1 = proc_trader h →
             trader_spawned (events_of (start_traders cb (mkWorld h1 o))) = true →
             is_running o (proc_trader h) = false ∧ wants_trader cb = true).
  { intros h1 Hh1 Hev.
    destruct (is_running o (proc_trader h)) eqn:Ht.
    { rewrite start_traders_quiet in Hev; [discriminate|]. left. simpl. by rewrite Hh1. }
    destruct (wants_trader cb) eqn:Hw; [done|].
    rewrite start_traders_quiet in Hev; [discriminate|]. by right. }
  destruct (runner_ready h o) eqn:Hn.
  - destruct (poll_tick_ready cb h o Hcb Hp Hr Hn) as (msg & Heq).
    rewrite Heq in Hs. simpl in Hs.
    rewrite !trader_spawned_app, trader_spawned_read in Hs. simpl in Hs.
    destruct (Hq (set_pending false h)) as [? ?]; [done|exact Hs|]. auto.
  - destruct (Z.lt_ge_cases 20 (default 0 (_trader_poll_count h) + 1)%Z) as [Hc|Hc].
    + destruct (poll_tick_times_out cb h o Hcb Hp (conj Hr Hn) Hc) as (msg & Heq).
      rewrite Heq in Hs. simpl in Hs.
      rewrite !trader_spawned_app, trader_spawned_read in Hs. simpl in Hs.
      destruct (Hq (timed_out (default 0 (_trader_poll_count h) + 1)%Z h)) as [? ?];
        [done|exact Hs|]. auto.
    + rewrite (poll_tick_waits cb h o Hcb Hp (conj Hr Hn) Hc) in Hs. simpl in Hs.
      rewrite trader_spawned_app, trader_spawned_read in Hs. discriminate.
Qed.

Lemma poll_spawns_trader_only_through_gate_witness :
  trader_spawned (events_of (run_callback (CbPollForCoins ["BTC"; "ETH"])
                               CommandScenario.polling_ready)) = true
  ∧ runner_ready (hub CommandScenario.polling_ready) (os CommandScenario.polling_ready)
    = true
  ∧ is_running (os CommandScenario.polling_ready)
               (proc_trader (hub CommandScenario.polling_ready)) = false.
Proof.
  assert (Hs : trader_spawned (events_of (run_callback (CbPollForCoins ["BTC"; "ETH"])
                                            CommandScenario.polling_ready)) = true)
    by (vm_compute; reflexivity).
  destruct (poll_spawns_trader_only_through_gate (CbPollForCoins ["BTC"; "ETH"])
              CommandScenario.polling_ready eq_refl Hs) as (_ & _ & _ & Ht & _).
  split; [exact Hs|]. split; [vm_compute; reflexivity|exact Ht].
Defined.

(** ** The fleet start *)

Lemma spawns_only_app x t1 t2 : spawns_only x t1 → spawns_only x t2 → spawns_only x (t1 ++ t2).
Proof. intros. by apply Forall_app. Qed.

Lemma start_neural_for_coin_spec c w :
  same_sequence_state (hub w) (hub (world_of (start_neural_for_coin c w)))
  ∧ spawns_only (WRunner (PyStr.upper (PyStr.strip c)))
                (events_of (start_neural_for_coin c w)).
Proof.
  unfold start_neural_for_coin, same_sequence_state.
  destruct (PyStr.nonempty _); simpl.
  2:{ munfold. simpl. repeat split. constructor. }
  munfold.
  destruct (seed_coin_folder_spec (PyStr.upper (PyStr.strip c))
              (default (project_dir (hub w)) (coin_folders (hub w) !! PyStr.upper (PyStr.strip c)))
              (PyStr.basename (script_neural_runner2 (settings (hub w)))) w)
    as (o' & tr & Heq & Hp & Hn & Hb & Hw).
  rewrite Heq. simpl.
  destruct (only_writes_quiet tr (WRunner (PyStr.upper (PyStr.strip c))) Hw)
    as (_ & _ & Hq).
  destruct (resolve_script _ _ _ _ _) as [rp|]; simpl.
  2:{ repeat split. apply spawns_only_app; [done|]. by repeat constructor. }
  destruct (neural_runners (hub w)) as [runners|]; simpl.
  - destruct (Dict.get _ runners) as [lp|]; simpl.
    + unfold LogProc_proc. munfold. simpl. repeat split.
      apply spawns_only_app; [done|]. constructor.
    + unfold Popen. simpl. destruct (popen_raises _ _ || _); simpl;
        (repeat split); (apply spawns_only_app; [done|]); by repeat constructor.
  - unfold Popen. simpl. destruct (popen_raises _ _ || _); simpl;
      (repeat split); (apply spawns_only_app; [done|]); by repeat constructor.
Qed.

Lemma same_sequence_state_trans h1 h2 h3 :
  same_sequence_state h1 h2 → same_sequence_state h2 h3 → same_sequence_state h1 h3.
Proof. unfold same_sequence_state. intros (?&?&?&?&?) (?&?&?&?&?). repeat split; congruence. Qed.

Lemma spawns_runners_of_app cs t1 t2 :
  spawns_runners_of cs t1 → spawns_runners_of cs t2 → spawns_runners_of cs (t1 ++ t2).
Proof. intros. by apply Forall_app. Qed.

Lemma spawns_runners_of_one c cs tr :
  c ∈ cs → spawns_only (WRunner (PyStr.upper (PyStr.strip c))) tr → spawns_runners_of cs tr.
Proof.
  intros Hc Hs. eapply Forall_impl; [exact Hs|]. intros [] H; try done. by exists c.
Qed.

Lemma spawns_runners_of_mono cs cs' tr :
  (∀ c, c ∈ cs → c ∈ cs') → spawns_runners_of cs tr → spawns_runners_of cs' tr.
Proof.
  intros Hsub Hs. eapply Forall_impl; [exact Hs|]. intros [] H; try done.
  destruct H as (c & Hc & ->). exists c. auto.
Qed.

Lemma for_each_start_neural_spec cs : ∀ w,
  same_sequence_state (hub w) (hub (world_of (for_each cs start_neural_for_coin w)))
  ∧ spawns_runners_of cs (events_of (for_each cs start_neural_for_coin w)).
Proof.
  induction cs as [|c cs IH]; intros w; simpl.
  - split; [done|constructor].
  - unfold bind.
    destruct (start_neural_for_coin_spec c w) as [Hs1 He1].
    destruct (start_neural_for_coin c w) as [[] w1 t1|e w1 t1]; simpl in *.
    + destruct (IH w1) as [Hs2 He2].
      destruct (for_each cs start_neural_for_coin w1) as [[] w2 t2|e w2 t2]; simpl in *;
        (split; [by eapply same_sequence_state_trans|]);
        (apply spawns_runners_of_app;
         [eapply spawns_runners_of_one; [apply list_elem_of_here|done]
         |eapply spawns_runners_of_mono; [|exact He2];
          intros; by apply list_elem_of_further]).
    + split; [done|]. eapply spawns_runners_of_one; [apply list_elem_of_here|done].
Qed.

(** X6.  [_start_neural_then_trader] sets the pending flag and the poll
    counter to 0 whatever the flag was, and they are so when it ends.
    Every process it spawns is the runner of a coin that
    [_coin_is_trained] held for when it was called.  When it returns it
    has registered the fleet poll of exactly those coins in 500 ms; when
    a runner start raises, the exception leaves the method, no poll is
    registered and the pending flag stays set. *)
Theorem fleet_start_spawns_runners_of_trained_coins (w : World) :
  let out := _start_neural_then_trader w in
  let trained := List.filter (_coin_is_trained (hub w) (os w)) (coins (hub w)) in
  _auto_start_trader_pending (hub (world_of out)) = true
  ∧ _trader_poll_count (hub (world_of out)) = Some 0%Z
  ∧ spawns_runners_of trained (events_of out)
  ∧ timers (hub (world_of out))
    = (if returned out then timers (hub w) ++ [(500%Z, CbPollForCoins trained)]
       else timers (hub w)).
Proof.
  destruct w as [h o]. unfold _start_neural_then_trader. munfold. simpl.
  set (h1 := set_poll_count (Some 0%Z) (set_pending true h)).
  set (trained := List.filter (_coin_is_trained h o) (coins h)).
  change (List.filter (_coin_is_trained h1 o) (coins h)) with trained.
  destruct (for_each_start_neural_spec trained (mkWorld h1 o)) as [(Hp & Hc & Ht & _) He].
  destruct (for_each trained start_neural_for_coin (mkWorld h1 o)) as [[] w2 t2|e w2 t2];
    simpl in *.
  - rewrite Hp, Hc, Ht. repeat split.
    apply Forall_cons. split; [done|].
    apply spawns_runners_of_app; [done|]. by repeat constructor.
  - rewrite Hp, Hc, Ht. repeat split.
    apply Forall_cons. split; [done|]. exact He.
Qed.

(** ** Who is training *)

Lemma dedupe_from_spec l : ∀ acc,
  NoDup acc →
  let out := fold_left (λ out c,
      let cc := PyStr.upper (PyStr.strip c) in
      if PyStr.nonempty cc && negb (bool_decide (cc ∈ out)) then out ++ [cc] else out)
    l acc in
  NoDup out
  ∧ ∀ c, c ∈ out ↔ c ∈ acc ∨ (PyStr.nonempty c = true ∧ ∃ r, r ∈ l ∧ coin_name r = c).
Proof.
  induction l as [|x l IH]; intros acc Hnd; simpl.
  - split; [done|]. intros c. split; [auto|].
    intros [H|(_ & r & Hr & _)]; [done|]. by apply elem_of_nil in Hr.
  - set (cc := PyStr.upper (PyStr.strip x)).
    destruct (PyStr.nonempty cc) eqn:Hne; simpl.
    + case_bool_decide as Hin; simpl.
      * destruct (IH acc Hnd) as [Hn Hm]. split; [exact Hn|].
        intros c. rewrite Hm. split.
        -- intros [H|(Hc & r & Hr & Heq)]; [by left|].
           right. split; [done|]. exists r. split; [by apply list_elem_of_further|done].
        -- intros [H|(Hc & r & Hr & Heq)]; [by left|].
           apply elem_of_cons in Hr as [->|Hr].
           ++ left. unfold coin_name in Heq. by subst c.
           ++ right. split; [done|]. by exists r.
      * assert (Hnd' : NoDup (acc ++ [cc])).
        { apply NoDup_app. split; [done|]. split; [|apply NoDup_singleton].
          intros y Hy Hy'. apply list_elem_of_singleton in Hy'. by subst y. }
        destruct (IH (acc ++ [cc]) Hnd') as [Hn Hm]. split; [exact Hn|].
        intros c. rewrite Hm, elem_of_app, list_elem_of_singleton. split.
        -- intros [[H| ->]|(Hc & r & Hr & Heq)].
           ++ by left.
           ++ right. split; [done|]. exists x. split; [apply list_elem_of_here|done].
           ++ right. split; [done|]. exists r. split; [by apply list_elem_of_further|done].
        -- intros [H|(Hc & r & Hr & Heq)]; [by left; left|].
           apply elem_of_cons in Hr as [->|Hr].
           ++ left. right. by rewrite <- Heq.
           ++ right. split; [done|]. by exists r.
    + destruct (IH acc Hnd) as [Hn Hm]. split; [exact Hn|].
      intros c. rewrite Hm. split.
      * intros [H|(Hc & r & Hr & Heq)]; [by left|].
        right. split; [done|]. exists r. split; [by apply list_elem_of_further|done].
      * intros [H|(Hc & r & Hr & Heq)]; [by left|].
        apply elem_of_cons in Hr as [->|Hr].
        -- unfold coin_name in Heq. fold cc in Heq. congruence.
        -- right. split; [done|]. by exists r.
Qed.

Lemma dedupe_spec l :
  NoDup (dedupe l)
  ∧ ∀ c, c ∈ dedupe l ↔ PyStr.nonempty c = true ∧ ∃ r, r ∈ l ∧ coin_name r = c.
Proof.
  destruct (dedupe_from_spec l [] (NoDup_nil_2)) as [Hn Hm]. split; [exact Hn|].
  intros c. unfold dedupe. rewrite Hm. split; [|by right].
  intros [H|H]; [by apply elem_of_nil in H|done].
Qed.

Lemma running_trainers_elem (h : Hub) (o : OS) (c : string) :
  c ∈ _running_trainers h o ↔
    PyStr.nonempty c = true
    ∧ ((∃ e, e ∈ trainers h ∧ is_running o (info e.2) = true ∧ coin_name e.1 = c)
       ∨ (∃ c0, c0 ∈ coins h ∧ coin_name c0 = c ∧ status_says_training h o c = true)).
Proof.
  unfold _running_trainers.
  match goal with |- context [dedupe ?l] => destruct (dedupe_spec l) as [Hn Hm] end.
  rewrite Hm. clear Hn Hm.
  assert (Hbody : ∀ c0,
    (let coin := PyStr.upper (PyStr.strip c0) in
     let folder := default "" (coin_folders h !! coin) in
     if negb (PyStr.nonempty folder) || negb (isdir o folder) then []
     else
       let status_path := PyStr.join folder "trainer_status.json" in
       match _safe_read_json o status_path with
       | Some (JObj kv) =>
           if bool_decide (state_of (JObj kv) = "TRAINING") then
             let stamp_path := PyStr.join folder "trainer_last_training_time.txt" in
             match file_mtime o stamp_path, file_mtime o status_path with
             | Some ms, Some mt => if (mt <=? ms)%Z then [] else [coin]
             | _, _ => [coin]
             end
           else []
       | _ => []
       end)
    = if status_says_training h o (coin_name c0) then [coin_name c0] else []).
  { intros c0. unfold status_says_training, coin_name. simpl.
    destruct (_ || _); [done|].
    destruct (_safe_read_json _ _) as [[]|]; try done.
    destruct (bool_decide _); [|done]. simpl.
    destruct (file_mtime _ _); [|done].
    destruct (file_mtime _ _); [|done].
    by destruct (_ <=? _)%Z. }
  split.
  - intros (Hne & r & Hr & Heq). split; [done|].
    apply elem_of_app in Hr as [Hr|Hr].
    + left. apply list_elem_of_fmap in Hr as (e & -> & He).
      apply list_elem_of_In, List.filter_In in He as [He Hrun].
      exists e. by rewrite list_elem_of_In.
    + right. apply list_elem_of_In, in_flat_map in Hr as (c0 & Hc0 & Hin).
      rewrite Hbody in Hin.
      destruct (status_says_training h o (coin_name c0)) eqn:Hs; [|done].
      destruct Hin as [<-|[]].
      exists c0. rewrite list_elem_of_In. unfold coin_name in *.
      rewrite coin_name_idem in Heq. subst c. done.
  - intros (Hne & [(e & He & Hrun & Heq)|(c0 & Hc0 & Heq & Hs)]); (split; [done|]).
    + exists e.1. split; [|done]. apply elem_of_app. left.
      apply list_elem_of_fmap. exists e. split; [done|].
      apply list_elem_of_In, List.filter_In. by rewrite <- list_elem_of_In.
    + exists c. split.
      * apply elem_of_app. right. apply list_elem_of_In, in_flat_map.
        exists c0. split; [by apply list_elem_of_In|].
        rewrite Hbody, Heq, Hs. by left.
      * subst c. unfold coin_name. apply coin_name_idem.
Qed.

(** X7.  [_running_trainers] returns normalised, non-empty coin names,
    each once.  A name is in the list exactly when it is the normalised
    key of a registered trainer whose process polls as running, or the
    normalised name of a configured coin whose folder exists and whose
    status artifact states TRAINING without a completion timestamp at
    least as new. *)
Theorem running_trainers_spec (h : Hub) (o : OS) :
  NoDup (_running_trainers h o)
  ∧ ∀ c, c ∈ _running_trainers h o ↔
      PyStr.nonempty c = true
      ∧ ((∃ e, e ∈ trainers h ∧ is_running o (info e.2) = true ∧ coin_name e.1 = c)
         ∨ (∃ c0, c0 ∈ coins h ∧ coin_name c0 = c ∧ status_says_training h o c = true)).
Proof.
  split; [|apply running_trainers_elem].
  unfold _running_trainers.
  match goal with |- context [dedupe ?l] => by destruct (dedupe_spec l) end.
Qed.

(** ** The status map *)

Lemma dict_set_keys {V} (k : string) (v : V) d :
  NoDup (map fst d) → NoDup (map fst (Dict.set k v d)).
Proof.
  induction d as [|[k0 v0] d IH]; simpl.
  - intros _. apply NoDup_singleton.
  - intros Hnd. apply NoDup_cons in Hnd as [Hnotin Hnd].
    case_bool_decide as Hk; simpl.
    + subst k0. by apply NoDup_cons.
    + apply NoDup_cons. split; [|auto].
      intros Hin. apply list_elem_of_fmap in Hin as ([k1 v1] & Hfst & Hin).
      simpl in Hfst. subst k1.
      apply dict_set_elem in Hin as [[-> _]|Hin]; [done|].
      apply Hnotin. apply list_elem_of_fmap. by exists (k0, v1).
Qed.

Lemma dict_get_elem {V} (k : string) (v : V) d :
  NoDup (map fst d) → (Dict.get k d = Some v ↔ (k, v) ∈ d).
Proof.
  induction d as [|[k0 v0] d IH]; simpl.
  - intros _. split; [done|]. intros H. by apply elem_of_nil in H.
  - intros Hnd. apply NoDup_cons in Hnd as [Hnotin Hnd].
    case_bool_decide as Hk.
    + subst k0. split.
      * intros [= ->]. apply list_elem_of_here.
      * intros H. apply elem_of_cons in H as [[= ->]|H]; [done|].
        exfalso. apply Hnotin. apply list_elem_of_fmap. by exists (k, v).
    + rewrite (IH Hnd). split.
      * intros H. by apply list_elem_of_further.
      * intros H. apply elem_of_cons in H as [[= -> ->]|H]; done.
Qed.

Lemma build_keys st cs : ∀ init,
  NoDup (map fst init) → NoDup (map fst (build st cs init)).
Proof.
  induction cs as [|c cs IH]; intros init Hnd; simpl; [done|].
  apply IH. by apply dict_set_keys.
Qed.

(** X8.  [_training_status_map] has one entry for each configured coin
    and none for any other name, also when the coin list repeats a name.
    The entry is TRAINED exactly when [_coin_is_trained] holds, also
    while the trainer of the coin is running; it is TRAINING exactly
    when the coin is not trained and its name as configured is in the
    list of [_running_trainers]. *)
Theorem training_status_map_entries (h : Hub) (o : OS) :
  let m := _training_status_map h o in
  NoDup (map fst m)
  ∧ (∀ c, c ∉ coins h → Dict.get c m = None)
  ∧ (∀ c, c ∈ coins h →
       ∃ v, Dict.get c m = Some v
            ∧ (v = TRAINED ↔ _coin_is_trained h o c = true)
            ∧ (v = TRAINING ↔
               _coin_is_trained h o c = false ∧ c ∈ _running_trainers h o)).
Proof.
  intros m.
  assert (Hnd : NoDup (map fst m)).
  { apply (build_keys (coin_status h o (_running_trainers h o)) (coins h) []).
    apply NoDup_nil_2. }
  split; [exact Hnd|]. split.
  - intros c Hc. destruct (Dict.get c m) as [v|] eqn:E; [|done].
    apply dict_get_elem in E; [|done].
    apply training_status_map_spec in E as [Hin _]. done.
  - intros c Hc. exists (coin_status h o (_running_trainers h o) c).
    split.
    + apply dict_get_elem; [done|]. by apply training_status_map_spec.
    + unfold coin_status. destruct (_coin_is_trained h o c).
      { split; split; try done. by intros [? ?]. }
      case_bool_decide; split; split; try done; by intros [? ?].
Qed.

(** ** Clearing training data *)

Lemma isfile_true o p : isfile o p = true ↔ is_Some (files o !! p).
Proof. unfold isfile. apply bool_decide_eq_true. Qed.

Lemma isfile_false o p : isfile o p = false ↔ files o !! p = None.
Proof. unfold isfile. rewrite bool_decide_eq_false. symmetry. apply eq_None_not_Some. Qed.

Lemma glob_sound o d pat p : p ∈ glob o d pat → glob_hit d pat p = true.
Proof.
  unfold glob. destruct (split_star pat) as [[pre suf]|] eqn:E.
  - destruct (isdir o d); [|by intros H; apply elem_of_nil in H].
    intros H. apply list_elem_of_In, List.filter_In in H as [_ H]. exact H.
  - destruct (_ || _); intros H; [|by apply elem_of_nil in H].
    apply list_elem_of_singleton in H. subst p. unfold glob_hit. rewrite E.
    by apply bool_decide_eq_true.
Qed.

Lemma glob_complete o d pat p :
  glob_hit d pat p = true → isfile o p = true →
  isdir o d = true ∨ split_star pat = None →
  p ∈ glob o d pat.
Proof.
  unfold glob. intros Hhit Hf Hd.
  destruct (split_star pat) as [[pre suf]|] eqn:E.
  - destruct Hd as [Hd|Hd]; [|done]. rewrite Hd.
    apply list_elem_of_In, List.filter_In. split; [|exact Hhit].
    apply list_elem_of_In, elem_of_app. left.
    apply isfile_true in Hf as [f Hf].
    apply list_elem_of_fmap. exists (p, f). split; [done|].
    by apply elem_of_map_to_list.
  - unfold glob_hit in Hhit. rewrite E in Hhit. apply bool_decide_eq_true in Hhit.
    subst p. rewrite Hf. simpl. apply list_elem_of_here.
Qed.

Lemma cleared_refl P o n : cleared P o o n n.
Proof.
  unfold cleared. split; [by destruct o|]. split; [done|]. split; [lia|].
  intros p H1 H2. congruence.
Qed.

Lemma cleared_trans P o1 o2 o3 n1 n2 n3 :
  cleared P o1 o2 n1 n2 → cleared P o2 o3 n2 n3 → cleared P o1 o3 n1 n3.
Proof.
  intros (He1 & Hs1 & Hn1 & Hp1) (He2 & Hs2 & Hn2 & Hp2).
  split; [|split; [|split]].
  - rewrite He2. rewrite He1. reflexivity.
  - by transitivity (files o2).
  - lia.
  - intros p H1 H3. destruct (isfile o2 p) eqn:H2.
    + destruct (Hp2 p H2 H3) as [HP Hw]. split; [done|].
      rewrite He1 in Hw. exact Hw.
    + by apply Hp1.
Qed.

Lemma cleared_cannot_write P o o' n n' p :
  cleared P o o' n n' → cannot_write o' p = cannot_write o p.
Proof. intros (He & _). by rewrite He. Qed.

Lemma cleared_gone P o o' n n' p :
  cleared P o o' n n' → isfile o p = false → isfile o' p = false.
Proof.
  intros (_ & Hs & _) H. apply isfile_false. apply isfile_false in H.
  by eapply lookup_weaken_None.
Qed.

Lemma cleared_isdir P o o' n n' d :
  cleared P o o' n n' → isdir o' d = isdir o d.
Proof. intros (He & _). by rewrite He. Qed.

Lemma os_remove_spec P p n w :
  P p →
  ∃ n' o',
    remove_counted p n w = Done n' (mkWorld (hub w) o') []
    ∧ cleared P (os w) o' n n'
    ∧ (cannot_write (os w) p = false → isfile o' p = false).
Proof.
  intros HP. destruct w as [h o]. unfold remove_counted, os_remove. munfold. simpl.
  destruct (isfile o p) eqn:Hf; simpl.
  - destruct (cannot_write o p) eqn:Hw; simpl.
    + exists n, o. split; [done|]. split; [apply cleared_refl|done].
    + eexists _, _. split; [reflexivity|]. split.
      * apply isfile_true in Hf as Hf'. destruct Hf' as [f Hf'].
        split; [done|]. simpl. split; [apply delete_subseteq|]. split.
        -- rewrite map_size_delete, Hf'.
           pose proof (map_size_ne_0_lookup_2 (files o) p (ltac:(eauto))). lia.
        -- intros q Hq1 Hq2. apply isfile_false in Hq2. simpl in Hq2.
           destruct (decide (p = q)) as [<-|Hne]; [done|].
           rewrite lookup_delete_ne in Hq2 by done.
           apply isfile_true in Hq1 as [? Hq1]. congruence.
      * intros _. apply isfile_false. simpl. apply lookup_delete_eq.
  - exists n, o. split; [done|]. split; [apply cleared_refl|done].
Qed.

Lemma remove_all_spec P fps : ∀ n w,
  (∀ p, p ∈ fps → P p) →
  ∃ n' o',
    remove_all fps n w = Done n' (mkWorld (hub w) o') []
    ∧ cleared P (os w) o' n n'
    ∧ ∀ p, p ∈ fps → cannot_write (os w) p = false → isfile o' p = false.
Proof.
  induction fps as [|fp fps IH]; intros n w HP; simpl.
  - exists n, (os w). split; [by destruct w|]. split; [apply cleared_refl|].
    intros p H. by apply elem_of_nil in H.
  - cbv beta iota delta [mbind M_bind bind].
    destruct (os_remove_spec P fp n w) as (n1 & o1 & -> & Hc1 & Hg1);
      [apply HP, list_elem_of_here|].
    destruct (IH n1 (mkWorld (hub w) o1)) as (n2 & o2 & -> & Hc2 & Hg2).
    { intros p Hp. by apply HP, list_elem_of_further. }
    exists n2, o2. split; [done|]. split; [by eapply cleared_trans|].
    intros p Hp Hw. apply elem_of_cons in Hp as [->|Hp].
    + eapply cleared_gone; [exact Hc2|]. by apply Hg1.
    + apply Hg2; [done|]. simpl. by rewrite (cleared_cannot_write _ _ _ _ _ _ Hc1).
Qed.

Lemma clear_patterns_spec P d pats : ∀ n w,
  (∀ pat p, pat ∈ pats → glob_hit d pat p = true → P p) →
  ∃ n' o',
    clear_patterns d pats n w = Done n' (mkWorld (hub w) o') []
    ∧ cleared P (os w) o' n n'
    ∧ ∀ pat p, pat ∈ pats → glob_hit d pat p = true →
        cannot_write (os w) p = false →
        isdir (os w) d = true ∨ split_star pat = None →
        isfile o' p = false.
Proof.
  induction pats as [|pat pats IH]; intros n w HP; simpl.
  - exists n, (os w). split; [by destruct w|]. split; [apply cleared_refl|].
    intros pat p H. by apply elem_of_nil in H.
  - cbv beta iota delta [mbind M_bind bind get_os].
    destruct (remove_all_spec P (glob (os w) d pat) n w) as (n1 & o1 & -> & Hc1 & Hg1).
    { intros p Hp. eapply HP; [apply list_elem_of_here|]. by eapply glob_sound. }
    destruct (IH n1 (mkWorld (hub w) o1)) as (n2 & o2 & -> & Hc2 & Hg2).
    { intros pat' p Hpat. apply HP. by apply list_elem_of_further. }
    exists n2, o2. split; [done|]. split; [by eapply cleared_trans|].
    intros pat' p Hpat Hhit Hw Hd. apply elem_of_cons in Hpat as [->|Hpat].
    + eapply cleared_gone; [exact Hc2|].
      destruct (isfile (os w) p) eqn:Hf.
      * apply Hg1; [|done]. by apply glob_complete.
      * by eapply cleared_gone.
    + apply (Hg2 pat'); try done.
      * simpl. by rewrite (cleared_cannot_write _ _ _ _ _ _ Hc1).
      * simpl. by rewrite (cleared_isdir _ _ _ _ _ _ Hc1).
Qed.


(** *** Paths of the entries of a folder *)

Lemma string_app_cons x (a b : string) : String x a +:+ b = String x (a +:+ b).
Proof. reflexivity. Qed.

Lemma string_app_nil (b : string) : EmptyString +:+ b = b.
Proof. reflexivity. Qed.

Lemma string_app_assoc (a b c : string) : (a +:+ b) +:+ c = a +:+ (b +:+ c).
Proof.
  induction a as [|x a IH]; [done|]. by rewrite !string_app_cons, IH.
Qed.

Lemma string_app_inj (a b c : string) : a +:+ b = a +:+ c → b = c.
Proof.
  induction a as [|x a IH]; [done|]. rewrite !string_app_cons. intros [= H]. auto.
Qed.

Lemma string_length_app (a b : string) :
  String.length (a +:+ b) = (String.length a + String.length b)%nat.
Proof.
  induction a as [|x a IH]; [done|]. rewrite string_app_cons. simpl. by rewrite IH.
Qed.

Lemma string_prefix_app (a b : string) : String.prefix a (a +:+ b) = true.
Proof.
  induction a as [|x a IH]; [by rewrite string_app_nil; destruct b|].
  rewrite string_app_cons. simpl.
  destruct (ascii_dec x x); [done|congruence].
Qed.

Lemma string_substring_full (b : string) : String.substring 0 (String.length b) b = b.
Proof. induction b as [|x b IH]; simpl; [done|]. by rewrite IH. Qed.

Lemma string_substring_app (a b : string) k :
  String.substring (String.length a) k (a +:+ b) = String.substring 0 k b.
Proof.
  induction a as [|x a IH]; [done|]. rewrite string_app_cons. simpl. exact IH.
Qed.

Lemma join_folder_prefix d n :
  PyStr.starts_with_slash n = false → PyStr.join d n = folder_prefix d +:+ n.
Proof.
  unfold PyStr.join, folder_prefix. intros ->.
  destruct (_ || _); [done|]. by rewrite string_app_assoc.
Qed.

Lemma has_slash_starts n : has_slash n = false → PyStr.starts_with_slash n = false.
Proof.
  destruct n as [|a n]; simpl; [done|]. intros H.
  apply orb_false_iff in H as [H _]. apply bool_decide_eq_false in H.
  destruct a as [[] [] [] [] [] [] [] []]; try done.
Qed.

Lemma child_name_join d n :
  PyStr.nonempty n = true → has_slash n = false →
  child_name d (PyStr.join d n) = Some n.
Proof.
  intros Hne Hs. rewrite join_folder_prefix by by apply has_slash_starts.
  unfold child_name. rewrite string_prefix_app, string_length_app.
  replace (String.length (folder_prefix d) + String.length n - String.length (folder_prefix d))%nat
    with (String.length n) by lia.
  by rewrite string_substring_app, string_substring_full, Hne, Hs.
Qed.

(** An entry [n] of the folder is hit by a pattern exactly when its name
    matches the pattern. *)
Lemma glob_hit_join d pat n :
  PyStr.nonempty n = true → has_slash n = false → has_slash pat = false →
  glob_hit d pat (PyStr.join d n) = glob_match pat n.
Proof.
  intros Hne Hs Hp. unfold glob_hit, glob_match.
  destruct (split_star pat) as [[pre suf]|]; [by rewrite child_name_join|].
  rewrite !join_folder_prefix by by apply has_slash_starts.
  apply bool_decide_ext. split; [apply string_app_inj|by intros ->].
Qed.

Lemma is_training_file_join d n :
  PyStr.nonempty n = true → has_slash n = false →
  is_training_file d (PyStr.join d n) = existsb (λ pat, glob_match pat n) training_patterns.
Proof.
  intros Hne Hs. unfold is_training_file.
  assert (Hpats : Forall (λ pat, has_slash pat = false) training_patterns).
  { repeat constructor. }
  induction Hpats as [|pat pats Hpat _ IH]; simpl; [done|].
  by rewrite glob_hit_join, IH.
Qed.



(** ** Status files at start-up *)

Lemma tmp_path_differs (p : string) : p +:+ ".tmp" ≠ p.
Proof.
  intros H. apply (f_equal String.length) in H.
  rewrite string_length_app in H. simpl in H. lia.
Qed.

Lemma safe_write_json_core (p : string) (data : json) (w : World) :
  let out := _safe_write_json p data w in
  let o' := os (world_of out) in
  hub (world_of out) = hub w
  ∧ o' = with_files (files o') (os w)
  ∧ returned out
    = negb (cannot_write (os w) (p +:+ ".tmp"))
      && negb (cannot_write (os w) p || isdir (os w) p)
  ∧ (if returned out
     then _safe_read_json o' p = Some data
          ∧ files o' !! p = Some (File (now (os w)) (DJson data))
          ∧ files o' !! (p +:+ ".tmp") = None
     else files o' !! p = files (os w) !! p)
  ∧ ∀ q, q ≠ p → q ≠ p +:+ ".tmp" → files o' !! q = files (os w) !! q.
Proof.
  destruct w as [h o]. unfold _safe_write_json, write_file, os_replace, cannot_write, isdir.
  munfold. simpl.
  pose proof (tmp_path_differs p) as Hne.
  destruct (bool_decide (p +:+ ".tmp" ∈ unwritable o)); simpl.
  { repeat split; try done. by destruct o. }
  rewrite lookup_insert_eq. simpl.
  destruct (bool_decide (p ∈ unwritable o) || bool_decide (p ∈ dirs o)); simpl.
  - repeat split; try done.
    + by rewrite lookup_insert_ne.
    + intros q _ Hq. by rewrite lookup_insert_ne.
  - repeat split; try done.
    + unfold _safe_read_json. simpl. by rewrite lookup_insert_eq.
    + by rewrite lookup_insert_eq.
    + rewrite lookup_insert_ne by done. rewrite lookup_delete_eq. done.
    + intros q Hq1 Hq2.
      rewrite lookup_insert_ne by done. rewrite lookup_delete_ne by done.
      by rewrite lookup_insert_ne.
Qed.

(** X11.  [_safe_write_json] replaces the file or leaves it alone.  It
    returns exactly when the temporary file [path.tmp] and the path can
    be written and the path is no folder; the file then holds the data
    (reading it back with [_safe_read_json] gives the data) and the
    temporary file is gone.  When it raises, the file at the path is as
    before.  No other path but these two is touched, and the hub object
    is not. *)
Theorem safe_write_json_replaces_or_keeps (p : string) (data : json) (w : World) :
  let out := _safe_write_json p data w in
  let o' := os (world_of out) in
  hub (world_of out) = hub w
  ∧ returned out
    = negb (cannot_write (os w) (p +:+ ".tmp"))
      && negb (cannot_write (os w) p || isdir (os w) p)
  ∧ (if returned out
     then _safe_read_json o' p = Some data
          ∧ files o' !! p = Some (File (now (os w)) (DJson data))
          ∧ files o' !! (p +:+ ".tmp") = None
     else files o' !! p = files (os w) !! p)
  ∧ ∀ q, q ≠ p → q ≠ p +:+ ".tmp" → files o' !! q = files (os w) !! q.
Proof.
  destruct (safe_write_json_core p data w) as (H1 & _ & H2 & H3 & H4). done.
Qed.

Lemma last_char_app (a b : string) :
  PyStr.nonempty b = true → last_char (a +:+ b) = last_char b.
Proof.
  intros Hb. induction a as [|x a IH]; [done|].
  rewrite string_app_cons. simpl. rewrite IH.
  destruct (a +:+ b) eqn:E; [|done].
  apply (f_equal String.length) in E. rewrite string_length_app in E.
  destruct b; simpl in *; [done|lia].
Qed.

Lemma last_char_join d n :
  PyStr.nonempty n = true → has_slash n = false →
  last_char (PyStr.join d n) = last_char n.
Proof.
  intros Hne Hs. rewrite join_folder_prefix by by apply has_slash_starts.
  by apply last_char_app.
Qed.

Lemma last_char_status h coin : last_char (startup_status_path h coin) = Some "n"%char.
Proof. unfold startup_status_path. by rewrite last_char_join. Qed.

Lemma normalised_refl o : normalised o o.
Proof. split; [by destruct o|]. intros q. by left. Qed.

Lemma states_training_rec o q t :
  files o !! q = Some (File t (DJson not_trained_record)) → states_training o q = false.
Proof. intros H. unfold states_training, _safe_read_json. by rewrite H. Qed.

Lemma states_training_same o o' q :
  files o' !! q = files o !! q → states_training o' q = states_training o q.
Proof. intros H. unfold states_training, _safe_read_json. by rewrite H. Qed.

Lemma normalised_trans o1 o2 o3 :
  normalised o1 o2 → normalised o2 o3 → normalised o1 o3.
Proof.
  intros [He1 H1] [He2 H2]. split.
  { rewrite He2, He1. reflexivity. }
  intros q. destruct (H2 q) as [Hs2|[Hp|(Hn & Ht & t & Hf)]].
  - destruct (H1 q) as [Hs1|[Hp|(Hn & Ht & t & Hf)]].
    + left. congruence.
    + by right; left.
    + right; right. split; [done|]. split; [done|]. exists t. congruence.
  - by right; left.
  - right; right. split; [done|]. split; [|by exists t].
    destruct (H1 q) as [Hs1|[Hp|(_ & _ & t1 & Hf1)]].
    + by rewrite <- (states_training_same _ _ _ Hs1).
    + congruence.
    + by rewrite (states_training_rec _ _ _ Hf1) in Ht.
Qed.

(** Where a status file states TRAINING after the normalisation, it did
    so before. *)
Lemma normalised_states_training o o' q :
  normalised o o' → last_char q = Some "n"%char →
  states_training o' q = true → states_training o q = true.
Proof.
  intros [_ H] Hn Ht. destruct (H q) as [Hs|[Hp|(_ & _ & t & Hf)]].
  - by rewrite <- (states_training_same _ _ _ Hs).
  - congruence.
  - by rewrite (states_training_rec _ _ _ Hf) in Ht.
Qed.

Lemma can_replace_status_normalised h o o' coin :
  normalised o o' → can_replace_status h o coin → can_replace_status h o' coin.
Proof. intros [He _]. unfold can_replace_status, cannot_write, isdir. by rewrite He. Qed.

Lemma normalize_step coin w :
  ∃ w' tr,
    normalize_coin coin w = Done tt w' tr
    ∧ hub w' = hub w
    ∧ normalised (os w) (os w')
    ∧ (can_replace_status (hub w) (os w) coin →
       states_training (os w') (startup_status_path (hub w) coin) = false).
Proof.
  destruct w as [h o].
  pose proof (safe_write_json_core (startup_status_path h coin) not_trained_record
                (mkWorld h o)) as Hcore.
  unfold can_replace_status. cbv zeta in Hcore. cbn [hub os] in Hcore.
  unfold normalize_coin. unfold try_pass at 1.
  cbv beta iota delta [mbind M_bind bind mret M_ret ret get_hub get_os when].
  cbn [hub os].
  destruct (_safe_read_json o (startup_status_path h coin)) as [j|] eqn:Hrd.
  2:{ eexists _, _. split; [reflexivity|]. cbn [hub os].
      split; [done|]. split; [apply normalised_refl|].
      intros _. unfold states_training. by rewrite Hrd. }
  destruct j as [| | | | |kv];
    try (eexists _, _; split; [reflexivity|]; cbn [hub os];
         split; [done|]; split; [apply normalised_refl|];
         intros _; unfold states_training; by rewrite Hrd).
  destruct (bool_decide (state_of (JObj kv) = "TRAINING")) eqn:Hst.
  2:{ eexists _, _. split; [reflexivity|]. cbn [hub os].
      split; [done|]. split; [apply normalised_refl|].
      intros _. unfold states_training. by rewrite Hrd, Hst. }
  destruct Hcore as (Hh & He & Hret & Hp & Hq).
  assert (Hwas : states_training o (startup_status_path h coin) = true).
  { unfold states_training. by rewrite Hrd, Hst. }
  unfold try_pass.
  destruct (_safe_write_json (startup_status_path h coin) not_trained_record (mkWorld h o))
    as [[] w1 t1|e w1 t1]; cbn [hub os world_of returned] in *.
  - eexists _, _. split; [reflexivity|]. split; [done|]. split.
    + split; [done|]. intros q.
      destruct (decide (q = startup_status_path h coin)) as [->|Hne1].
      { right; right. split; [apply last_char_status|]. split; [done|].
        destruct Hp as (_ & Hf & _). eauto. }
      destruct (decide (q = startup_status_path h coin +:+ ".tmp")) as [->|Hne2].
      { right; left. by rewrite last_char_app. }
      left. by apply Hq.
    + intros _. destruct Hp as (_ & Hf & _). by rewrite (states_training_rec _ _ _ Hf).
  - eexists _, _. split; [reflexivity|]. split; [done|]. split.
    + split; [done|]. intros q.
      destruct (decide (q = startup_status_path h coin)) as [->|Hne1]; [by left|].
      destruct (decide (q = startup_status_path h coin +:+ ".tmp")) as [->|Hne2].
      { right; left. by rewrite last_char_app. }
      left. by apply Hq.
    + intros (H1 & H2 & H3). rewrite H1, H2, H3 in Hret. discriminate.
Qed.

Lemma normalize_loop l : ∀ w,
  ∃ w' tr,
    for_each l normalize_coin w = Done tt w' tr
    ∧ hub w' = hub w
    ∧ normalised (os w) (os w')
    ∧ ∀ c, c ∈ l → can_replace_status (hub w) (os w) c →
        states_training (os w') (startup_status_path (hub w) c) = false.
Proof.
  induction l as [|c l IH]; intros w; simpl.
  - eexists _, _. split; [reflexivity|]. split; [done|]. split; [apply normalised_refl|].
    intros c H. by apply elem_of_nil in H.
  - unfold bind.
    destruct (normalize_step c w) as (w1 & t1 & -> & Hh1 & Hn1 & Hs1).
    destruct (IH w1) as (w2 & t2 & -> & Hh2 & Hn2 & Hs2).
    eexists _, _. split; [reflexivity|]. split; [congruence|].
    split; [by eapply normalised_trans|].
    intros c' Hc' Hcan. apply elem_of_cons in Hc' as [->|Hc'].
    + destruct (states_training (os w2) (startup_status_path (hub w) c)) eqn:E; [|done].
      apply (normalised_states_training _ _ _ Hn2) in E; [|apply last_char_status].
      by rewrite Hs1 in E.
    + rewrite <- Hh1. apply Hs2; [done|]. rewrite Hh1.
      by eapply can_replace_status_normalised.
Qed.

Lemma normalize_stray_training_spec w :
  ∃ w' tr,
    normalize_stray_training w = Done tt w' tr
    ∧ hub w' = hub w
    ∧ normalised (os w) (os w')
    ∧ ∀ c, c ∈ coins (hub w) → can_replace_status (hub w) (os w) c →
        states_training (os w') (startup_status_path (hub w) c) = false.
Proof.
  unfold normalize_stray_training.
  destruct (normalize_loop (coins (hub w)) w) as (w' & tr & Heq & H).
  unfold try_pass. cbv beta iota delta [mbind M_bind bind get_hub].
  rewrite Heq. rewrite app_nil_l. by exists w', tr.
Qed.

Lemma status_says_training_startup h o c :
  states_training o (startup_status_path h c) = false →
  status_says_training h o (coin_name c) = false.
Proof.
  unfold status_says_training, startup_status_path, states_training, coin_name.
  intros H.
  destruct (coin_folders h !! PyStr.upper (PyStr.strip c)) as [f|]; simpl; [|done].
  destruct (PyStr.nonempty f) eqn:Hf; simpl; [|done].
  destruct (isdir o f); simpl; [|done].
  simpl in H. rewrite Hf in H.
  destruct (_safe_read_json _ _) as [[]|]; try done.
  by rewrite H.
Qed.

(** X12.  The normalisation of stray TRAINING states in [__init__] always
    returns and leaves the hub object as it is.  Afterwards no configured
    coin whose status file can be replaced is reported as training by its
    status file; so, with no trainer registered, as at start-up,
    [_running_trainers] is empty when every status file can be
    replaced. *)
Theorem startup_leaves_no_stray_training (w : World) :
  (∀ c, c ∈ coins (hub w) → can_replace_status (hub w) (os w) c) →
  ∃ w' tr,
    normalize_stray_training w = Done tt w' tr
    ∧ hub w' = hub w
    ∧ (∀ c, c ∈ coins (hub w) →
         status_says_training (hub w') (os w') (coin_name c) = false)
    ∧ (trainers (hub w) = [] → _running_trainers (hub w') (os w') = []).
Proof.
  intros Hcan.
  destruct (normalize_stray_training_spec w) as (w' & tr & Heq & Hh & Hn & Hs).
  exists w', tr. split; [exact Heq|]. split; [exact Hh|]. rewrite Hh.
  assert (Hnot : ∀ c, c ∈ coins (hub w) →
            status_says_training (hub w) (os w') (coin_name c) = false).
  { intros c Hc. apply status_says_training_startup. by apply Hs; [|apply Hcan]. }
  split; [exact Hnot|].
  intros Ht. apply elem_of_nil_inv. intros c Hc.
  apply running_trainers_elem in Hc as (_ & [(e & He & _)|(c0 & Hc0 & <- & Hst)]).
  - rewrite Ht in He. by apply elem_of_nil in He.
  - by rewrite Hnot in Hst.
Qed.

Lemma startup_leaves_no_stray_training_witness :
  _running_trainers (hub StartupScenario.stray) (os StartupScenario.stray) = ["ETH"]
  ∧ ∃ w' tr,
      normalize_stray_training StartupScenario.stray = Done tt w' tr
      ∧ _running_trainers (hub w') (os w') = [].
Proof.
  split; [vm_compute; reflexivity|].
  destruct (startup_leaves_no_stray_training StartupScenario.stray)
    as (w' & tr & Heq & _ & _ & Hr).
  - intros c Hc. unfold can_replace_status. change (c ∈ ["BTC"; "ETH"]) in Hc.
    apply elem_of_cons in Hc as [->|Hc]; [by vm_compute|].
    apply list_elem_of_singleton in Hc as ->. by vm_compute.
  - exists w', tr. split; [exact Heq|]. by apply Hr.
Defined.

(** X13.  The normalisation of [__init__] changes no verdict of
    [_coin_is_trained]: it writes to status files that state TRAINING and
    to their temporary files only, and a status file that states
    TRAINING counts for a coin exactly as one that states NOT_TRAINED. *)
Theorem startup_normalisation_keeps_verdicts (w : World) (c : string) :
  _coin_is_trained (hub (world_of (normalize_stray_training w)))
                   (os (world_of (normalize_stray_training w))) c
  = _coin_is_trained (hub w) (os w) c.
Proof.
  destruct (normalize_stray_training_spec w) as (w' & tr & Heq & Hh & [He Hn] & _).
  rewrite Heq. simpl. rewrite Hh, !coin_is_trained_eq.
  set (d := coin_folder (hub w) c).
  assert (Hsame : ∀ n, last_char n = Some "t"%char → PyStr.nonempty n = true →
            has_slash n = false →
            files (os w') !! PyStr.join d n = files (os w) !! PyStr.join d n).
  { intros n Hl Hne Hsl. destruct (Hn (PyStr.join d n)) as [H|[H|(H & _)]]; [done| |];
      rewrite last_char_join in H by done; congruence. }
  assert (Hdir : isdir (os w') d = isdir (os w) d).
  { rewrite He. done. }
  assert (Hmark : dry_run_marker (hub w) (os w') c = dry_run_marker (hub w) (os w) c).
  { unfold dry_run_marker, isfile. fold d. by rewrite Hsame. }
  assert (Hstamp : stamp_recent (hub w) (os w') c = stamp_recent (hub w) (os w) c).
  { unfold stamp_recent, read_stamp, recent. fold d. rewrite Hsame by done.
    rewrite He. done. }
  assert (Hstate : ∀ s, s ≠ "TRAINING" → s ≠ "NOT_TRAINED" →
            bool_decide (status_state (hub w) (os w') c = Some s)
            = bool_decide (status_state (hub w) (os w) c = Some s)).
  { intros s Hs1 Hs2.
    destruct (Hn (PyStr.join d "trainer_status.json")) as [H|[H|(_ & Ht & t & Hf)]].
    - unfold status_state, _safe_read_json. fold d. by rewrite H.
    - rewrite last_char_join in H by done. discriminate.
    - assert (Hnew : status_state (hub w) (os w') c = Some "NOT_TRAINED").
      { unfold status_state, _safe_read_json. fold d. rewrite Hf. reflexivity. }
      assert (Hold : status_state (hub w) (os w) c = Some "TRAINING").
      { unfold states_training in Ht. unfold status_state. fold d.
        destruct (_safe_read_json _ _) as [[]|]; try done.
        apply bool_decide_eq_true in Ht. by rewrite Ht. }
      rewrite Hnew, Hold.
      rewrite !bool_decide_eq_false_2; [done| |]; intros [= H]; congruence. }
  rewrite Hdir, Hmark, Hstamp, !Hstate by done. reflexivity.
Qed.

(** *** Seeding *)

Lemma seeded_refl o : seeded o o.
Proof. split; [by destruct o|]. split; [done|]. intros q f H. by left. Qed.

Lemma seeded_trans o1 o2 o3 : seeded o1 o2 → seeded o2 o3 → seeded o1 o3.
Proof.
  intros (He1 & Hs1 & Hf1) (He2 & Hs2 & Hf2). split; [|split].
  - rewrite He2 at 1. rewrite He1 at 1. reflexivity.
  - by transitivity (files o2).
  - intros q f H. destruct (Hf2 q f H) as [H2| ->].
    + by apply Hf1.
    + right. by rewrite He1.
Qed.

Lemma seed_coin_spec coin w :
  ∃ w' tr,
    seed_coin coin w = Done tt w' tr
    ∧ hub w' = hub w
    ∧ seeded (os w) (os w')
    ∧ (PyStr.nonempty (seed_folder (hub w) coin) = true →
       cannot_write (os w) (PyStr.join (seed_folder (hub w) coin) "trainer_status.json")
       = false →
       isfile (os w') (PyStr.join (seed_folder (hub w) coin) "trainer_status.json") = true).
Proof.
  destruct w as [h o]. unfold seed_coin, makedirs, write_file. munfold. simpl.
  destruct (PyStr.nonempty (seed_folder h coin)) eqn:Hne; simpl.
  2:{ eexists _, _. split; [reflexivity|]. split; [done|]. split; [apply seeded_refl|done]. }
  set (p := PyStr.join (seed_folder h coin) "trainer_status.json") in *.
  destruct (isfile o p) eqn:Hf; simpl.
  { eexists _, _. split; [reflexivity|]. split; [done|]. split; [apply seeded_refl|done]. }
  apply isfile_false in Hf.
  assert (Hnew : ∀ ds,
    seeded o (with_files (<[p := File (now o) (DJson not_trained_record)]> (files o))
                         (with_dirs ds o))).
  { intros ds. split; [by destruct o|]. simpl. split; [by apply insert_subseteq|].
    intros q f H. destruct (decide (q = p)) as [->|Hq].
    - rewrite lookup_insert_eq in H. right. congruence.
    - rewrite lookup_insert_ne in H by done. by left. }
  assert (Hdirs : ∀ ds, seeded o (with_dirs ds o)).
  { intros ds. split; [by destruct o|]. split; [done|]. intros q f H. by left. }
  destruct (cannot_write o (seed_folder h coin)) eqn:E1; simpl;
    change (cannot_write _ p) with (cannot_write o p);
    destruct (cannot_write o p) eqn:E2; simpl;
    eexists _, _; (split; [reflexivity|]); (split; [done|]); simpl.
  - split; [apply seeded_refl|done].
  - split; [|intros _ _; apply isfile_true; simpl; rewrite lookup_insert_eq; eauto].
    replace o with (with_dirs (dirs o) o) at 2 by by destruct o. apply Hnew.
  - split; [apply Hdirs|done].
  - split; [|intros _ _; apply isfile_true; simpl; rewrite lookup_insert_eq; eauto].
    apply Hnew.
Qed.

Lemma seeded_isfile o o' q : seeded o o' → isfile o q = true → isfile o' q = true.
Proof.
  intros (_ & Hs & _) H. apply isfile_true. apply isfile_true in H.
  by eapply lookup_weaken_is_Some.
Qed.

Lemma seeded_cannot_write o o' q : seeded o o' → cannot_write o' q = cannot_write o q.
Proof. intros (He & _). by rewrite He. Qed.

Lemma seed_loop l : ∀ w,
  ∃ w' tr,
    for_each l seed_coin w = Done tt w' tr
    ∧ hub w' = hub w
    ∧ seeded (os w) (os w')
    ∧ ∀ c, c ∈ l → PyStr.nonempty (seed_folder (hub w) c) = true →
        cannot_write (os w) (PyStr.join (seed_folder (hub w) c) "trainer_status.json")
        = false →
        isfile (os w') (PyStr.join (seed_folder (hub w) c) "trainer_status.json") = true.
Proof.
  induction l as [|c l IH]; intros w; simpl.
  - eexists _, _. split; [reflexivity|]. split; [done|]. split; [apply seeded_refl|].
    intros c H. by apply elem_of_nil in H.
  - unfold bind.
    destruct (seed_coin_spec c w) as (w1 & t1 & -> & Hh1 & Hn1 & Hs1).
    destruct (IH w1) as (w2 & t2 & -> & Hh2 & Hn2 & Hs2).
    eexists _, _. split; [reflexivity|]. split; [congruence|].
    split; [by eapply seeded_trans|].
    intros c' Hc' Hne Hw. apply elem_of_cons in Hc' as [->|Hc'].
    + eapply seeded_isfile; [exact Hn2|]. by apply Hs1.
    + rewrite <- Hh1. apply Hs2; [done|by rewrite Hh1|].
      rewrite Hh1. by rewrite (seeded_cannot_write _ _ _ Hn1).
Qed.

(** X14.  The seeding of status files in [__init__] always returns and
    leaves the hub object as it is.  It never changes or removes a file
    that exists: every file is afterwards as it was, and a file that is
    new holds the NOT_TRAINED record.  Every configured coin whose status
    path can be written has a status file afterwards. *)
Theorem seeding_never_overwrites (w : World) :
  ∃ w' tr,
    seed_status_files w = Done tt w' tr
    ∧ hub w' = hub w
    ∧ (∀ q f, files (os w) !! q = Some f → files (os w') !! q = Some f)
    ∧ (∀ q f, files (os w') !! q = Some f →
         files (os w) !! q = Some f
         ∨ f = File (now (os w)) (DJson not_trained_record))
    ∧ (∀ c, c ∈ coins (hub w) →
         PyStr.nonempty (seed_folder (hub w) c) = true →
         cannot_write (os w) (PyStr.join (seed_folder (hub w) c) "trainer_status.json")
         = false →
         isfile (os w') (PyStr.join (seed_folder (hub w) c) "trainer_status.json")
         = true).
Proof.
  unfold seed_status_files.
  destruct (seed_loop (coins (hub w)) w) as (w' & tr & Heq & Hh & (He & Hs & Hf) & Hc).
  unfold try_pass. cbv beta iota delta [mbind M_bind bind get_hub].
  rewrite Heq. rewrite app_nil_l. exists w', tr.
  split; [done|]. split; [done|]. split; [|by split].
  intros q f H. by eapply lookup_weaken.
Qed.

(** ** Uptime *)

(** X15.  [_fmt_uptime] splits the seconds, clamped at 0, into days,
    hours below 24, minutes below 60 and seconds below 60 that add up to
    the clamped value; it prints the days only when there is at least
    one, and a duration that is not positive as 0:00:00. *)
Theorem fmt_uptime_parts (seconds : Z) :
  let '(days, hours, mins, secs) := uptime_parts seconds in
  (0 ≤ days ∧ 0 ≤ hours < 24 ∧ 0 ≤ mins < 60 ∧ 0 ≤ secs < 60
   ∧ days * 86400 + hours * 3600 + mins * 60 + secs = Z.max 0 seconds)%Z
  ∧ ((seconds < 86400)%Z →
     _fmt_uptime seconds = py_str_int hours +:+ ":" +:+ pad2 mins +:+ ":" +:+ pad2 secs)
  ∧ ((86400 ≤ seconds)%Z →
     _fmt_uptime seconds
     = py_str_int days +:+ "d " +:+ pad2 hours +:+ ":" +:+ pad2 mins +:+ ":" +:+ pad2 secs)
  ∧ ((seconds ≤ 0)%Z → _fmt_uptime seconds = "0:00:00").
Proof.
  unfold _fmt_uptime, uptime_parts.
  set (s := Z.max 0 seconds).
  assert (Hs : (0 ≤ s)%Z) by (unfold s; lia).
  pose proof (Z.div_mod s 86400 ltac:(lia)) as H1.
  pose proof (Z.mod_pos_bound s 86400 ltac:(lia)) as B1.
  pose proof (Z.div_mod (s mod 86400) 3600 ltac:(lia)) as H2.
  pose proof (Z.mod_pos_bound (s mod 86400) 3600 ltac:(lia)) as B2.
  pose proof (Z.div_mod ((s mod 86400) mod 3600) 60 ltac:(lia)) as H3.
  pose proof (Z.mod_pos_bound ((s mod 86400) mod 3600) 60 ltac:(lia)) as B3.
  pose proof (Z.div_pos s 86400 Hs ltac:(lia)) as D1.
  assert (D2 : (0 ≤ s mod 86400 / 3600 < 24)%Z).
  { split; [apply Z.div_pos; lia|]. apply Z.div_lt_upper_bound; lia. }
  assert (D3 : (0 ≤ (s mod 86400) mod 3600 / 60 < 60)%Z).
  { split; [apply Z.div_pos; lia|]. apply Z.div_lt_upper_bound; lia. }
  split; [repeat split; lia|]. split; [|split].
  - intros Hlt. assert (Hd : (s / 86400 = 0)%Z) by (apply Z.div_small; unfold s; lia).
    by rewrite Hd.
  - intros Hge. assert (Hd : (0 < s / 86400)%Z).
    { apply Z.div_str_pos. unfold s. lia. }
    apply Z.ltb_lt in Hd. by rewrite Hd.
  - intros Hle. assert (Hz : s = 0%Z) by (unfold s; lia). rewrite Hz. reflexivity.
Qed.


(** ** The folder of each coin *)

Lemma detect_folder_inv o md coins out p :
  isdir o p = true →
  out !! "BTC" = Some md →
  (∀ k v, out !! k = Some v → folder_origin o md coins k v) →
  detect_folder md coins out p !! "BTC" = Some md
  ∧ ∀ k v, detect_folder md coins out p !! k = Some v → folder_origin o md coins k v.
Proof.
  intros Hp Hb Hinv. unfold detect_folder.
  destruct (child_name md p) as [name|] eqn:Hc; [|done].
  destruct (bool_decide (_ ∈ coins)) eqn:Hin; simpl; [|done].
  destruct (bool_decide (_ ≠ "BTC")) eqn:Hne; simpl; [|done].
  apply bool_decide_eq_true in Hin, Hne. split.
  - by rewrite lookup_insert_ne.
  - intros k v H. destruct (decide (PyStr.strip (PyStr.upper name) = k)) as [<-|Hk].
    + rewrite lookup_insert_eq in H. injection H as <-.
      right; left. repeat split; try done. by exists name.
    + rewrite lookup_insert_ne in H by done. by apply Hinv.
Qed.

Lemma detect_folders_inv o md coins l : ∀ out,
  Forall (λ p, isdir o p = true) l →
  out !! "BTC" = Some md →
  (∀ k v, out !! k = Some v → folder_origin o md coins k v) →
  fold_left (detect_folder md coins) l out !! "BTC" = Some md
  ∧ ∀ k v, fold_left (detect_folder md coins) l out !! k = Some v →
      folder_origin o md coins k v.
Proof.
  induction l as [|p l IH]; intros out Hl Hb Hinv; simpl; [done|].
  apply Forall_cons in Hl as [Hp Hl].
  destruct (detect_folder_inv o md coins out p Hp Hb Hinv) as [Hb' Hinv'].
  by apply IH.
Qed.

Lemma fallback_folders_inv o md coins l : ∀ out,
  (∀ c, c ∈ l → c ∈ coins) →
  out !! "BTC" = Some md →
  (∀ k v, out !! k = Some v → folder_origin o md coins k v) →
  let out' := fold_left (fallback_folder md) l out in
  out' !! "BTC" = Some md
  ∧ (∀ k v, out' !! k = Some v → folder_origin o md coins k v)
  ∧ (∀ k, is_Some (out !! k) → is_Some (out' !! k))
  ∧ (∀ c, c ∈ l → is_Some (out' !! PyStr.strip (PyStr.upper c))).
Proof.
  induction l as [|c0 l IH]; intros out Hsub Hb Hinv; simpl.
  - repeat split; try done. intros c H. by apply elem_of_nil in H.
  - set (c := PyStr.strip (PyStr.upper c0)).
    assert (Hstep : fallback_folder md out c0 !! "BTC" = Some md
              ∧ (∀ k v, fallback_folder md out c0 !! k = Some v →
                   folder_origin o md coins k v)
              ∧ (∀ k, is_Some (out !! k) → is_Some (fallback_folder md out c0 !! k))
              ∧ is_Some (fallback_folder md out c0 !! c)).
    { unfold fallback_folder. fold c. destruct (out !! c) as [v0|] eqn:Hc.
      - repeat split; try done; by rewrite Hc.
      - assert (Hne : c ≠ "BTC") by (intros ->; congruence).
        split; [by rewrite lookup_insert_ne|]. split; [|split].
        + intros k v H. destruct (decide (c = k)) as [<-|Hk].
          * rewrite lookup_insert_eq in H. injection H as <-.
            right; right. split; [done|]. split; [done|].
            exists c0. split; [apply Hsub, list_elem_of_here|done].
          * rewrite lookup_insert_ne in H by done. by apply Hinv.
        + intros k Hk. destruct (decide (c = k)) as [<-|Hne'].
          * by rewrite lookup_insert_eq.
          * by rewrite lookup_insert_ne.
        + by rewrite lookup_insert_eq. }
    destruct Hstep as (Hb' & Hinv' & Hmono & Hhere).
    destruct (IH (fallback_folder md out c0)) as (H1 & H2 & H3 & H4); try done.
    { intros c' Hc'. by apply Hsub, list_elem_of_further. }
    repeat split; try done.
    + intros k Hk. by apply H3, Hmono.
    + intros c' Hc'. apply elem_of_cons in Hc' as [->|Hc']; [by apply H3|by apply H4].
Qed.

(** X17.  [build_coin_folders] maps BTC to the main folder, whatever
    the main folder holds; it has a folder for every configured coin,
    under its normalised name; and the folder of any other key is either
    an existing folder directly in the main folder whose name normalises
    to that key, the key being a configured coin, or the path of the
    key's name in the main folder, the key being the normalised name of a
    configured coin. *)
Theorem build_coin_folders_spec (o : OS) (md : string) (coins : list string) :
  let out := build_coin_folders o md coins in
  out !! "BTC" = Some md
  ∧ (∀ c, c ∈ coins → is_Some (out !! PyStr.strip (PyStr.upper c)))
  ∧ (∀ k v, out !! k = Some v → folder_origin o md coins k v).
Proof.
  unfold build_coin_folders.
  set (out0 := ({["BTC" := md]} : gmap string string)).
  assert (Hb0 : out0 !! "BTC" = Some md) by apply lookup_singleton_eq.
  assert (Hinv0 : ∀ k v, out0 !! k = Some v → folder_origin o md coins k v).
  { intros k v H. apply lookup_singleton_Some in H as [<- <-]. by left. }
  set (out1 := if isdir o md
               then fold_left (detect_folder md coins) (elements (dirs o)) out0 else out0).
  assert (H1 : out1 !! "BTC" = Some md
               ∧ ∀ k v, out1 !! k = Some v → folder_origin o md coins k v).
  { unfold out1. destruct (isdir o md); [|done].
    apply detect_folders_inv; try done.
    apply Forall_forall. intros p Hp. apply bool_decide_eq_true.
    by apply elem_of_elements in Hp. }
  destruct H1 as [Hb1 Hinv1].
  destruct (fallback_folders_inv o md coins coins out1) as (H1 & H2 & _ & H4); done.
Qed.

(** ** Log readers *)

Lemma reader_loop_spec prefix reads :
  reader_loop prefix reads
  = (map (λ l, prefix +:+ PyStr.rstrip l) (lines_read (reads_taken reads)),
     existsb ends_loop reads).
Proof.
  induction reads as [|[[line exited]|] reads IH]; simpl; [done| |done].
  destruct (PyStr.nonempty line) eqn:Hne; simpl.
  - rewrite IH. unfold lines_read. simpl. by rewrite Hne.
  - destruct exited; simpl; [done|]. rewrite IH. unfold lines_read. simpl. by rewrite Hne.
Qed.

Lemma reads_taken_app reads more :
  existsb ends_loop reads = true → reads_taken (reads ++ more) = reads_taken reads.
Proof.
  induction reads as [|r reads IH]; simpl; [done|].
  destruct (ends_loop r); simpl; [done|]. intros H. by rewrite IH.
Qed.

(** X18.  [_reader_thread] puts one item on the queue for every read
    that returned text, in order, each the prefix followed by the line
    without its trailing white space, up to the first read that returned
    nothing with the process exited or that raised.  It puts the exit
    marker after them exactly when the loop has been left, as the last
    item; reads after that change nothing, and lines read after the
    process exited but before a read returned nothing are still put. *)
Theorem reader_thread_spec (prefix : string) (reads : list read_result) :
  let ended := existsb ends_loop reads in
  _reader_thread prefix reads
  = (map (λ l, prefix +:+ PyStr.rstrip l) (lines_read (reads_taken reads))
     ++ (if ended then [exit_marker prefix] else []),
     ended)
  ∧ (ended = false → reads_taken reads = reads)
  ∧ (ended = true →
     ∀ more, _reader_thread prefix (reads ++ more) = _reader_thread prefix reads).
Proof.
  unfold _reader_thread. rewrite reader_loop_spec. split; [|split].
  - destruct (existsb ends_loop reads); [done|]. by rewrite app_nil_r.
  - induction reads as [|r reads IH]; simpl; [done|].
    destruct (ends_loop r); simpl; [done|]. intros H. by rewrite IH.
  - intros Hend more. rewrite !reader_loop_spec, existsb_app, Hend.
    by rewrite reads_taken_app.
Qed.

(** ** Stopping the selected trainer *)


(** ** Reset and train *)

Lemma runner_stop_same_liveness h o o' coin :
  same_liveness o o' → runner_stop h o' coin = runner_stop h o coin.
Proof.
  intros Hl. unfold runner_stop. destruct (PyStr.nonempty coin); [|done].
  destruct (proc (proc_neural h)); [|done]. by rewrite Hl.
Qed.



(** ** The training gate fires once *)

(** X21.  [_tick_gate] always returns, and a second run right after it
    does nothing: when the gate fires it clears
    [_auto_start_runner_after_training], so one Start All schedules
    [_start_neural_then_trader] at most once; when it does not fire it
    changes nothing. *)
Theorem tick_gate_fires_once (w : World) :
  ∃ w1 tr,
    _tick_gate w = Done tt w1 tr
    ∧ _tick_gate w1 = Done tt w1 []
    ∧ (tr = [] ∧ w1 = w
       ∨ tr = [EvPending true; EvAfter 5 CbStartNeuralThenTrader]
         ∧ all_trained (hub w) (os w) = true
         ∧ _auto_start_runner_after_training (hub w) = true
         ∧ _auto_start_runner_after_training (hub w1) = false
         ∧ _auto_start_trader_pending (hub w1) = true
         ∧ timers (hub w1) = timers (hub w) ++ [(5%Z, CbStartNeuralThenTrader)]).
Proof.
  destruct w as [h o]. unfold _tick_gate. munfold. simpl.
  destruct (all_trained h o && _auto_start_runner_after_training h) eqn:E; simpl.
  - apply andb_true_iff in E as [Ha Hf].
    eexists _, _. split; [reflexivity|]. simpl. rewrite andb_false_r. simpl.
    split; [reflexivity|]. right. done.
  - eexists _, _. split; [reflexivity|]. simpl. rewrite E. simpl.
    split; [reflexivity|]. by left.
Qed.

(** ** Start Neural Runner on a running runner *)

(** X22.  [start_neural] while the standalone runner polls as running
    spawns nothing and keeps the handle, but it is no no-op: it has
    already overwritten the readiness artifact, which reads not ready
    afterwards although the running runner may have reported ready
    before. *)
Theorem start_neural_on_running_runner_resets_gate (w : World) :
  is_running (os w) (proc_neural (hub w)) = true →
  cannot_write (os w) (runner_ready_path (hub w)) = false →
  ∃ w',
    start_neural w
    = Done tt w' [EvWrite (runner_ready_path (hub w))
                          (DJson (ready_record (now (os w)) "starting"))]
    ∧ hub w' = hub w
    ∧ runner_ready (hub w') (os w') = false
    ∧ is_running (os w') (proc_neural (hub w')) = true.
Proof.
  destruct w as [h o]. intros Hr Hw.
  unfold start_neural, write_file, _start_process. munfold. simpl in *.
  rewrite Hw. simpl. unfold is_running in *. simpl.
  destruct (proc (proc_neural h)) as [pid|] eqn:Hp; [|done].
  unfold proc_alive in *. simpl. rewrite Hr. simpl.
  eexists. split; [reflexivity|]. simpl. split; [done|]. split.
  - unfold runner_ready. simpl. by rewrite lookup_insert_eq.
  - by rewrite Hp.
Qed.

Lemma start_neural_on_running_runner_resets_gate_witness :
  runner_ready (hub (mkWorld (Scenario.neural_up Sample.hub0) CommandScenario.os_ready))
               CommandScenario.os_ready = true
  ∧ ∃ w',
      start_neural (mkWorld (Scenario.neural_up Sample.hub0) CommandScenario.os_ready)
      = Done tt w' [EvWrite "/pt/hub_data/runner_ready.json"
                            (DJson (ready_record 100 "starting"))]
      ∧ runner_ready (hub w') (os w') = false.
Proof.
  split; [vm_compute; reflexivity|].
  destruct (start_neural_on_running_runner_resets_gate
              (mkWorld (Scenario.neural_up Sample.hub0) CommandScenario.os_ready))
    as (w' & Heq & _ & Hn & _).
  - reflexivity.
  - reflexivity.
  - exists w'. split; [exact Heq|exact Hn].
Defined.

(** ** Trainers that are reported as running *)

(** X23.  A trainer that [_start_single_trainer] has spawned is reported
    by [_running_trainers] when the call returns: the new handle is
    registered under the normalised coin name and its process polls as
    running. *)
Theorem started_trainer_is_reported_running (c : string) (w : World) :
  List.filter is_spawn (events_of (_start_single_trainer c w)) ≠ [] →
  coin_name c ∈ _running_trainers (hub (world_of (_start_single_trainer c w)))
                                  (os (world_of (_start_single_trainer c w))).
Proof.
  unfold _start_single_trainer, write_file. fold (coin_name c).
  destruct (PyStr.nonempty (coin_name c)) eqn:Hne; simpl.
  2:{ munfold. simpl. done. }
  munfold.
  destruct (seed_coin_folder_spec (coin_name c)
              (default (project_dir (hub w)) (coin_folders (hub w) !! coin_name c))
              (PyStr.basename (script_neural_trainer (settings (hub w)))) w)
    as (o' & tr & Heq & Hp & Hn & Hb & Hw).
  rewrite Heq. simpl.
  destruct (only_writes_quiet tr (WTrainer (coin_name c)) Hw) as (_ & Hq & _).
  destruct (resolve_script _ _ _ _ _) as [rp|]; simpl.
  2:{ rewrite List.filter_app, Hq. simpl. done. }
  destruct (match Dict.get _ (trainers (hub w)) with Some lp => _ | None => false end); simpl.
  { rewrite List.filter_app, Hq. simpl. done. }
  unfold Popen. simpl. destruct (popen_raises _ _ || _); simpl.
  { rewrite List.filter_app, Hq. simpl. done. }
  intros _.
  assert (Hgoal : ∀ fs,
    coin_name c ∈ _running_trainers
      (set_trainers
         (Dict.set (coin_name c)
            (mkLogProc (mkProcInfo ("Trainer-" +:+ coin_name c) rp (Some (next_pid o')) None)
                       true (Some (coin_name c)))
            (trainers (hub w))) (hub w))
      (with_files fs
         (with_procs (<[next_pid o' := PRunning]> (procs o')) (next_pid o' + 1)%Z o'))).
  { intros fs. apply running_trainers_elem. split; [done|]. left.
    eexists (coin_name c, _). split; [apply dict_set_here|]. simpl. split.
    - unfold is_running, proc_alive. simpl. by rewrite lookup_insert_eq.
    - unfold coin_name. apply coin_name_idem. }
  destruct (cannot_write _ _); simpl.
  - specialize (Hgoal (files o')).
    replace (with_files (files o') (with_procs (<[next_pid o':=PRunning]> (procs o'))
                                               (next_pid o' + 1)%Z o'))
      with (with_procs (<[next_pid o':=PRunning]> (procs o')) (next_pid o' + 1)%Z o')
      in Hgoal by by destruct o'.
    exact Hgoal.
  - apply Hgoal.
Qed.

Lemma started_trainer_is_reported_running_witness :
  _running_trainers (hub Sample.w0) (os Sample.w0) = []
  ∧ "ETH" ∈ _running_trainers (hub (world_of (_start_single_trainer " eth" Sample.w0)))
                              (os (world_of (_start_single_trainer " eth" Sample.w0))).
Proof.
  split; [vm_compute; reflexivity|].
  apply (started_trainer_is_reported_running " eth" Sample.w0).
  vm_compute. discriminate.
Defined.


